(** * pl-team-analysis: normalisation and metrics pipeline

    A shallow embedding of the data-normalisation and metrics-derivation
    code of the repository (src/data/preprocessor.py and src/metrics/*.py)
    together with the properties the specification states about it.

    Modelling conventions.
    - A pandas DataFrame restricted to the columns the code reads is a
      [list] of row records, in index order.
    - Count columns (goals, shots, points, ...) are integers ([Z]); the
      expected-goals and percentage columns are floats, modelled by exact
      rationals ([Q]).  Rounding of binary64 arithmetic is not modelled;
      what is modelled of floats is what changes control flow: a division
      whose divisor is zero has no finite value, and a decimal literal
      beyond the binary64 range is an infinity.
    - A Python [dict] with string keys is an association list in
      insertion order; [{}] is [[]].
    - A Python exception is the [Raise] case of [result]. *)

From Stdlib Require Import ZArith QArith Qround Bool List String Ascii Lia.
From Stdlib Require Import Sorting.Sorted Sorting.Permutation.
From Stdlib Require Import OrdersEx RelationClasses.
Import ListNotations.

Open Scope Z_scope.

(** ** Python values and exceptions *)

Inductive exn : Type :=
| ValueError
| TypeError
| OverflowError
| KeyError
| ZeroDivisionError.

Inductive result (A : Type) : Type :=
| Ok (a : A)
| Raise (e : exn).
Arguments Ok {A} a.
Arguments Raise {A} e.

Definition bind {A B : Type} (m : result A) (f : A -> result B) : result B :=
  match m with
  | Ok a => f a
  | Raise e => Raise e
  end.

Notation "x <- m ;; k" := (bind m (fun x => k))
  (at level 61, m at next level, right associativity).

(** A Python float: finite (an exact rational here), an infinity, or nan. *)
Inductive pyfloat : Type :=
| FFinite (q : Q)
| FInf (negative : bool)
| FNan.

(** [int(x)] on a float: truncation toward zero; [OverflowError] on an
    infinity and [ValueError] on nan. *)
Definition Qtrunc (q : Q) : Z := Z.quot (Qnum q) (Zpos (Qden q)).

Definition int_of_float (x : pyfloat) : result Z :=
  match x with
  | FFinite q => Ok (Qtrunc q)
  | FInf _ => Raise OverflowError
  | FNan => Raise ValueError
  end.

(** *** Float arithmetic as numpy performs it: a zero divisor gives an
    infinity or nan (no exception), and nan compares false with everything. *)

Definition Qsign_neg (q : Q) : bool := Qnum q <? 0.
Definition Qis_zero (q : Q) : bool := Qnum q =? 0.
Definition Qltb (a b : Q) : bool := negb (Qle_bool b a).

Definition fneg (x : pyfloat) : pyfloat :=
  match x with
  | FFinite q => FFinite (- q)%Q
  | FInf n => FInf (negb n)
  | FNan => FNan
  end.

Definition fadd (x y : pyfloat) : pyfloat :=
  match x, y with
  | FNan, _ | _, FNan => FNan
  | FInf a, FInf b => if Bool.eqb a b then FInf a else FNan
  | FInf a, FFinite _ => FInf a
  | FFinite _, FInf b => FInf b
  | FFinite p, FFinite q => FFinite (p + q)%Q
  end.

Definition fsub (x y : pyfloat) : pyfloat := fadd x (fneg y).

Definition fmul (x y : pyfloat) : pyfloat :=
  match x, y with
  | FNan, _ | _, FNan => FNan
  | FInf a, FInf b => FInf (xorb a b)
  | FInf a, FFinite q =>
      if Qis_zero q then FNan else FInf (xorb a (Qsign_neg q))
  | FFinite p, FInf b =>
      if Qis_zero p then FNan else FInf (xorb (Qsign_neg p) b)
  | FFinite p, FFinite q => FFinite (p * q)%Q
  end.

Definition fdiv (x y : pyfloat) : pyfloat :=
  match x, y with
  | FNan, _ | _, FNan => FNan
  | FInf _, FInf _ => FNan
  | FInf a, FFinite q => FInf (xorb a (Qsign_neg q))
  | FFinite _, FInf _ => FFinite 0%Q
  | FFinite p, FFinite q =>
      if Qis_zero q then
        (if Qis_zero p then FNan else FInf (Qsign_neg p))
      else FFinite (p / q)%Q
  end.

Definition fltb (x y : pyfloat) : bool :=
  match x, y with
  | FNan, _ | _, FNan => false
  | FInf a, FInf b => a && negb b
  | FInf a, FFinite _ => a
  | FFinite _, FInf b => negb b
  | FFinite p, FFinite q => Qltb p q
  end.

Definition fgtb (x y : pyfloat) : bool := fltb y x.

Definition feqb (x y : pyfloat) : bool :=
  match x, y with
  | FFinite p, FFinite q => Qeq_bool p q
  | FInf a, FInf b => Bool.eqb a b
  | _, _ => false
  end.

Definition fgeb (x y : pyfloat) : bool := fgtb x y || feqb x y.

(** Neither an infinity nor nan. *)
Definition finite (x : pyfloat) : bool :=
  match x with
  | FFinite _ => true
  | _ => false
  end.

Definition of_int (z : Z) : pyfloat := FFinite (inject_Z z).
Definition of_nat (n : nat) : pyfloat := FFinite (inject_Z (Z.of_nat n)).

(** [round(x, ndigits)]: to the nearest multiple of [10^-ndigits], ties
    to even; the result is kept in lowest terms. *)
Definition round_half_even (q : Q) : Z :=
  let f := Qfloor q in
  let r := (q - inject_Z f)%Q in
  if Qltb r (1 # 2) then f
  else if Qltb (1 # 2) r then f + 1
  else if Z.even f then f else f + 1.

Definition Qround_to (ndigits : nat) (q : Q) : Q :=
  let scale := 10 ^ Z.of_nat ndigits in
  Qred (inject_Z (round_half_even (q * inject_Z scale)) / inject_Z scale).

Definition pyround (ndigits : nat) (x : pyfloat) : pyfloat :=
  match x with
  | FFinite q => FFinite (Qround_to ndigits q)
  | other => other
  end.

(** *** Dictionaries with string keys *)

Inductive value : Type :=
| VInt (z : Z)
| VFloat (x : pyfloat)
| VBool (b : bool).

Definition dict : Type := list (string * value).

Fixpoint dict_lookup (d : dict) (k : string) : option value :=
  match d with
  | [] => None
  | (k', v) :: d' => if String.eqb k k' then Some v else dict_lookup d' k
  end.

(** [d.get(k, default)] *)
Definition dict_get (d : dict) (k : string) (default : value) : value :=
  match dict_lookup d k with
  | Some v => v
  | None => default
  end.

(** [d[k]] *)
Definition dict_index (d : dict) (k : string) : result value :=
  match dict_lookup d k with
  | Some v => Ok v
  | None => Raise KeyError
  end.

Definition keys (d : dict) : list string := map fst d.

(** The number a value stands for in arithmetic and comparisons. *)
Definition to_float (v : value) : pyfloat :=
  match v with
  | VInt z => of_int z
  | VFloat x => x
  | VBool b => of_int (if b then 1 else 0)
  end.

(** Truthiness of a value, as [not v] tests it. *)
Definition truthy (v : value) : bool :=
  match v with
  | VInt z => negb (z =? 0)
  | VFloat (FFinite q) => negb (Qis_zero q)
  | VFloat _ => true
  | VBool b => b
  end.

(** ** Character classes and string helpers *)

Module Str.

Definition is_digit (c : ascii) : bool :=
  let n := nat_of_ascii c in (48 <=? n)%nat && (n <=? 57)%nat.

(** [str.isspace] / regex [\s] on the ASCII range: tab, newline, vertical
    tab, form feed, carriage return, the separators 0x1c-0x1f and space. *)
Definition is_space (c : ascii) : bool :=
  let n := nat_of_ascii c in
  ((9 <=? n)%nat && (n <=? 13)%nat) || ((28 <=? n)%nat && (n <=? 32)%nat).

Definition to_lower (c : ascii) : ascii :=
  let n := nat_of_ascii c in
  if (65 <=? n)%nat && (n <=? 90)%nat then ascii_of_nat (n + 32) else c.

(** Longest prefix of characters satisfying [p], and the rest. *)
Fixpoint span (p : ascii -> bool) (s : list ascii) : list ascii * list ascii :=
  match s with
  | [] => ([], [])
  | c :: s' =>
      if p c then let (a, b) := span p s' in (c :: a, b) else ([], s)
  end.

Definition lstrip (s : list ascii) : list ascii := snd (span is_space s).

(** [str.strip()] *)
Definition strip (s : list ascii) : list ascii := rev (lstrip (rev (lstrip s))).

Definition digit_value (c : ascii) : Z := Z.of_nat (nat_of_ascii c) - 48.

(** [int(s)] on a string of decimal digits. *)
Definition int_of_digits (ds : list ascii) : Z :=
  fold_left (fun acc c => 10 * acc + digit_value c) ds 0.

Definition eqb_chars (a b : list ascii) : bool :=
  String.eqb (string_of_list_ascii a) (string_of_list_ascii b).

End Str.

(** ** [float(str)]

    The grammar of the Python builtin:
    [sign? (inf | infinity | nan | number exponent?)] with
    [number ::= digitpart? "." digitpart | digitpart "."?],
    [digitpart ::= digit ("_"? digit)*] and
    [exponent ::= (e|E) sign? digitpart]. *)

Module PyFloat.
Import Str.

(** [digitpart]: the digits read (underscores dropped) and the rest;
    [None] when the input does not start with a digit. *)
Fixpoint digitpart_tail (s : list ascii) : list ascii * list ascii :=
  match s with
  | c :: s' =>
      if is_digit c then
        let (ds, r) := digitpart_tail s' in (c :: ds, r)
      else if Ascii.eqb c "_" then
        match s' with
        | d :: s'' =>
            if is_digit d then
              let (ds, r) := digitpart_tail s'' in (d :: ds, r)
            else ([], s)
        | [] => ([], s)
        end
      else ([], s)
  | [] => ([], [])
  end.

Definition digitpart (s : list ascii) : option (list ascii * list ascii) :=
  match s with
  | c :: s' =>
      if is_digit c then
        let (ds, r) := digitpart_tail s' in Some (c :: ds, r)
      else None
  | [] => None
  end.

Definition sign (s : list ascii) : bool * list ascii :=
  match s with
  | "-"%char :: r => (true, r)
  | "+"%char :: r => (false, r)
  | _ => (false, s)
  end.

(** [number]: integer digits, fraction digits, rest. *)
Definition number (s : list ascii) : option (list ascii * list ascii * list ascii) :=
  match digitpart s with
  | Some (ip, r) =>
      match r with
      | "."%char :: r' =>
          match digitpart r' with
          | Some (fp, r'') => Some (ip, fp, r'')
          | None => Some (ip, [], r')
          end
      | _ => Some (ip, [], r)
      end
  | None =>
      match s with
      | "."%char :: r' =>
          match digitpart r' with
          | Some (fp, r'') => Some ([], fp, r'')
          | None => None
          end
      | _ => None
      end
  end.

(** [exponent?]: the signed exponent (0 when absent) and the rest; [None]
    when an [e] is not followed by a well-formed exponent. *)
Definition exponent (s : list ascii) : option (Z * list ascii) :=
  match s with
  | c :: r =>
      if Ascii.eqb (to_lower c) "e" then
        let (neg, r') := sign r in
        match digitpart r' with
        | Some (ds, r'') =>
            Some ((if neg then - int_of_digits ds else int_of_digits ds), r'')
        | None => None
        end
      else Some (0, s)
  | [] => Some (0, [])
  end.

Definition pow10 (e : Z) : Q :=
  if 0 <=? e then inject_Z (10 ^ e) else / inject_Z (10 ^ (- e)).

(** Decimal literals at or beyond this magnitude round to an infinity:
    the midpoint between the largest binary64 and [2^1024]. *)
Definition overflow_threshold : Q := inject_Z (2 ^ 1024 - 2 ^ 970).

Definition finite_or_inf (neg : bool) (q : Q) : pyfloat :=
  if Qle_bool overflow_threshold q then FInf neg
  else FFinite (if neg then - q else q)%Q.

(** [float(s)]; [None] is [ValueError]. *)
Definition float_of_string (s0 : list ascii) : option pyfloat :=
  let s := strip s0 in
  let (neg, r) := sign s in
  let low := map to_lower r in
  if eqb_chars low (list_ascii_of_string "inf")
     || eqb_chars low (list_ascii_of_string "infinity") then Some (FInf neg)
  else if eqb_chars low (list_ascii_of_string "nan") then Some FNan
  else
    match number r with
    | Some (ip, fp, r') =>
        match exponent r' with
        | Some (e, []) =>
            let mant := int_of_digits (ip ++ fp) in
            let q := (inject_Z mant * pow10 (e - Z.of_nat (List.length fp)))%Q in
            Some (finite_or_inf neg q)
        | _ => None
        end
    | None => None
    end.

End PyFloat.

(** ** src/data/preprocessor.py: field parsers *)

Module Preprocessor.
Import Str.

(** [re.match(r"(\d+)\s*\((\d+)%\)", s)]: groups 1 and 2.  The three
    character classes are pairwise disjoint, so the greedy match never
    backtracks. *)
Definition match_count_pct (s : list ascii) : option (list ascii * list ascii) :=
  let (d1, r1) := span is_digit s in
  match d1 with
  | [] => None
  | _ =>
      let (_, r2) := span is_space r1 in
      match r2 with
      | "("%char :: r3 =>
          let (d2, r4) := span is_digit r3 in
          match d2 with
          | [] => None
          | _ =>
              match r4 with
              | "%"%char :: ")"%char :: _ => Some (d1, d2)
              | _ => None
              end
          end
      | _ => None
      end
  end.

(** [parse_percentage_string]: [None] is a null cell ([pd.isna]). *)
Definition parse_percentage_string (value : option string) : result (Z * Q) :=
  match value with
  | None => Ok (0, 0%Q)
  | Some v =>
      if String.eqb v "" then Ok (0, 0%Q)
      else
        let value_str := strip (list_ascii_of_string v) in
        match match_count_pct value_str with
        | Some (g1, g2) =>
            let count := int_of_digits g1 in
            let percentage := (inject_Z (int_of_digits g2) / 100)%Q in
            Ok (count, percentage)
        | None =>
            (* try: int(float(value_str)) except (ValueError, TypeError) *)
            match PyFloat.float_of_string value_str with
            | None => Ok (0, 0%Q)
            | Some x =>
                match int_of_float x with
                | Ok n => Ok (n, 0%Q)
                | Raise ValueError => Ok (0, 0%Q)
                | Raise TypeError => Ok (0, 0%Q)
                | Raise e => Raise e
                end
            end
        end
  end.

(** A row after the parsing and numeric-coercion steps of
    [preprocess_data], restricted to the columns the metrics read. *)
Record Row : Type := mkRow {
  season : string;
  Team : string;
  Side : string;
  Round : Z;
  points : Z;
  Goal_scored : Z;
  Goal_conceded : Z;
  Expected_goals_xG : Q;
  xG_open_play : Q;
  xG_set_play : Q;
  xG_on_target_xGOT : Q;
  Total_shots : Z;
  Shots_on_target : Z;
  Shots_off_target : Z;
  Blocked_shots : Z;
  Hit_woodwork : Z;
  Shots_inside_box : Z;
  Big_chances : Z;
  Big_chances_missed : Z;
  Corners : Z;
  Passes : Z;
  Own_half : Z;
  Opposition_half : Z;
  Touches_in_opposition_box : Z;
  Tackles : Z;
  Interceptions : Z;
  Blocks : Z;
  Clearances : Z;
  Keeper_saves : Z;
  possession_pct : Q;
  Accurate_passes_pct : Q;
  Accurate_long_balls_pct : Q;
  Accurate_crosses_pct : Q;
  Successful_dribbles_count : Z
}.

(** [np.where(cond, a, b)] on one row: both lanes are computed, one is
    kept. *)
Definition np_where (cond : bool) (a b : pyfloat) : pyfloat :=
  if cond then a else b.

(** [(num / den) * 100] *)
Definition pct_of (num den : Z) : pyfloat :=
  fmul (fdiv (of_int num) (of_int den)) (of_int 100).

(** [pd.cut(x, bins, labels)] with the defaults [right=True] and
    [include_lowest=False]: bin [i] is [(bins[i], bins[i+1]]]; a value
    in no bin is NaN ([None]). *)
Fixpoint pd_cut (x : Q) (bins : list Q) (labels : list string) : option string :=
  match bins, labels with
  | lo :: ((hi :: _) as bins'), l :: labels' =>
      if Qltb lo x && Qle_bool x hi then Some l else pd_cut x bins' labels'
  | _, _ => None
  end.

Definition possession_bins : list Q := [0; 45; 55; 100]%Q.
Definition possession_labels : list string :=
  ["Low (<45%)"; "Medium (45-55%)"; "High (>55%)"]%string.

(** The canonical match record: a row and its derived columns. *)
Record MatchRecord : Type := mkMatchRecord {
  base :> Row;
  xg_difference : Q;
  shot_conversion_pct : pyfloat;
  shots_on_target_pct : pyfloat;
  big_chance_conversion_pct : pyfloat;
  shots_inside_box_pct : pyfloat;
  is_win : Z;
  is_draw : Z;
  is_loss : Z;
  is_clean_sheet : Z;
  goal_difference : Z;
  defensive_actions : Z;
  opp_half_passes_pct : pyfloat;
  xg_open_play_ratio : pyfloat;
  xg_set_play_ratio : pyfloat;
  xg_per_shot : pyfloat;
  woodwork_rate : pyfloat;
  blocked_shot_rate : pyfloat;
  shots_off_target_rate : pyfloat;
  possession_category : option string
}.

Definition add_calculated_columns_row (r : Row) : MatchRecord :=
  let shots := Total_shots r in
  let xg := Expected_goals_xG r in
  {| base := r;
     xg_difference := (inject_Z (Goal_scored r) - xg)%Q;
     shot_conversion_pct :=
       np_where (0 <? shots) (pct_of (Goal_scored r) shots) (of_int 0);
     shots_on_target_pct :=
       np_where (0 <? shots) (pct_of (Shots_on_target r) shots) (of_int 0);
     big_chance_conversion_pct :=
       np_where (0 <? Big_chances r)
         (pct_of (Big_chances r - Big_chances_missed r) (Big_chances r))
         (of_int 0);
     shots_inside_box_pct :=
       np_where (0 <? shots) (pct_of (Shots_inside_box r) shots) (of_int 0);
     is_win := Z.b2z (points r =? 3);
     is_draw := Z.b2z (points r =? 1);
     is_loss := Z.b2z (points r =? 0);
     is_clean_sheet := Z.b2z (Goal_conceded r =? 0);
     goal_difference := Goal_scored r - Goal_conceded r;
     defensive_actions :=
       Tackles r + Interceptions r + Blocks r + Clearances r;
     opp_half_passes_pct :=
       np_where (0 <? Passes r) (pct_of (Opposition_half r) (Passes r)) (of_int 0);
     xg_open_play_ratio :=
       np_where (Qltb 0 xg) (fdiv (FFinite (xG_open_play r)) (FFinite xg)) (of_int 0);
     xg_set_play_ratio :=
       np_where (Qltb 0 xg) (fdiv (FFinite (xG_set_play r)) (FFinite xg)) (of_int 0);
     xg_per_shot :=
       np_where (0 <? shots) (fdiv (FFinite xg) (of_int shots)) (of_int 0);
     woodwork_rate :=
       np_where (0 <? shots) (pct_of (Hit_woodwork r) shots) (of_int 0);
     blocked_shot_rate :=
       np_where (0 <? shots) (pct_of (Blocked_shots r) shots) (of_int 0);
     shots_off_target_rate :=
       np_where (0 <? shots) (pct_of (Shots_off_target r) shots) (of_int 0);
     possession_category :=
       pd_cut (possession_pct r) possession_bins possession_labels |}.

Definition add_calculated_columns (df : list Row) : list MatchRecord :=
  map add_calculated_columns_row df.

Definition filter_by_season (df : list MatchRecord) (s : string) : list MatchRecord :=
  filter (fun r : MatchRecord => String.eqb (season r) s) df.

End Preprocessor.

(** ** Column reductions shared by the metrics modules *)

Module Frame.
Import Preprocessor.

Definition DataFrame : Type := list MatchRecord.

(** [df[col].sum()] *)
Definition sumZ (col : MatchRecord -> Z) (df : DataFrame) : Z :=
  fold_right (fun r acc => col r + acc) 0 df.

Definition sumQ (col : MatchRecord -> Q) (df : DataFrame) : Q :=
  fold_right (fun r acc => (col r + acc)%Q) 0%Q df.

(** [len(df)] *)
Definition len (df : DataFrame) : Z := Z.of_nat (List.length df).

(** [df[col].mean()]: nan on an empty frame. *)
Definition meanQ (col : MatchRecord -> Q) (df : DataFrame) : pyfloat :=
  fdiv (FFinite (sumQ col df)) (of_int (len df)).

(** [df[df[col] == key]] *)
Definition where_eq (col : MatchRecord -> string) (key : string) (df : DataFrame)
  : DataFrame :=
  filter (fun r : MatchRecord => String.eqb (col r) key) df.

(** [df.tail(n)]: the last [n] rows; for a negative [n], all rows but
    the first [-n]. *)
Definition tail (n : Z) (df : DataFrame) : DataFrame :=
  if 0 <=? n then skipn (List.length df - Z.to_nat n) df
  else skipn (Z.to_nat (- n)) df.

End Frame.

(** ** Findings of the tactical rules *)

(** A piece of an f-string: literal text, an interpolated value, or a
    value formatted with [:.3f]. *)
Inductive fragment : Type :=
| Txt (s : string)
| Num (v : value)
| Num3f (v : value).

Record Insight : Type := mkInsight {
  title : string;
  finding : list fragment;
  action : string;
  severity : string
}.

(** ** src/metrics/attacking.py *)

Module Attacking.
Import Preprocessor Frame.

Definition goals_per_game (df : DataFrame) : pyfloat :=
  if len df =? 0 then of_int 0
  else fdiv (of_int (sumZ Goal_scored df)) (of_int (len df)).

Definition xg_per_game (df : DataFrame) : pyfloat :=
  if len df =? 0 then of_int 0
  else fdiv (FFinite (sumQ Expected_goals_xG df)) (of_int (len df)).

Definition xg_overperformance (df : DataFrame) : Q :=
  (inject_Z (sumZ Goal_scored df) - sumQ Expected_goals_xG df)%Q.

Definition xg_overperformance_per_game (df : DataFrame) : pyfloat :=
  if len df =? 0 then of_int 0
  else fdiv (FFinite (xg_overperformance df)) (of_int (len df)).

Definition shot_conversion_rate (df : DataFrame) : pyfloat :=
  let total_shots := sumZ Total_shots df in
  if total_shots =? 0 then of_int 0
  else pct_of (sumZ Goal_scored df) total_shots.

Definition shots_on_target_rate (df : DataFrame) : pyfloat :=
  let total_shots := sumZ Total_shots df in
  if total_shots =? 0 then of_int 0
  else pct_of (sumZ Shots_on_target df) total_shots.

Definition big_chance_conversion_rate (df : DataFrame) : pyfloat :=
  let big_chances := sumZ Big_chances df in
  if big_chances =? 0 then of_int 0
  else
    let scored := big_chances - sumZ Big_chances_missed df in
    pct_of scored big_chances.

Definition shots_per_game (df : DataFrame) : pyfloat :=
  if len df =? 0 then of_int 0
  else fdiv (of_int (sumZ Total_shots df)) (of_int (len df)).

Definition shots_on_target_per_game (df : DataFrame) : pyfloat :=
  if len df =? 0 then of_int 0
  else fdiv (of_int (sumZ Shots_on_target df)) (of_int (len df)).

Definition big_chances_per_game (df : DataFrame) : pyfloat :=
  if len df =? 0 then of_int 0
  else fdiv (of_int (sumZ Big_chances df)) (of_int (len df)).

Definition xgot_per_game (df : DataFrame) : pyfloat :=
  if len df =? 0 then of_int 0
  else fdiv (FFinite (sumQ xG_on_target_xGOT df)) (of_int (len df)).

Definition shots_inside_box_rate (df : DataFrame) : pyfloat :=
  let total_shots := sumZ Total_shots df in
  if total_shots =? 0 then of_int 0
  else pct_of (sumZ Shots_inside_box df) total_shots.

Definition get_attacking_metrics (df : DataFrame) : dict :=
  [ ("matches", VInt (len df));
    ("total_goals", VInt (sumZ Goal_scored df));
    ("total_xg", VFloat (pyround 2 (FFinite (sumQ Expected_goals_xG df))));
    ("goals_per_game", VFloat (pyround 2 (goals_per_game df)));
    ("xg_per_game", VFloat (pyround 2 (xg_per_game df)));
    ("xg_overperformance", VFloat (pyround 2 (FFinite (xg_overperformance df))));
    ("xg_overperformance_per_game", VFloat (pyround 2 (xg_overperformance_per_game df)));
    ("shot_conversion_pct", VFloat (pyround 1 (shot_conversion_rate df)));
    ("shots_on_target_pct", VFloat (pyround 1 (shots_on_target_rate df)));
    ("big_chance_conversion_pct", VFloat (pyround 1 (big_chance_conversion_rate df)));
    ("shots_per_game", VFloat (pyround 1 (shots_per_game df)));
    ("shots_on_target_per_game", VFloat (pyround 1 (shots_on_target_per_game df)));
    ("big_chances_per_game", VFloat (pyround 2 (big_chances_per_game df)));
    ("xgot_per_game", VFloat (pyround 2 (xgot_per_game df)));
    ("shots_inside_box_pct", VFloat (pyround 1 (shots_inside_box_rate df)));
    ("total_big_chances", VInt (sumZ Big_chances df));
    ("total_big_chances_missed", VInt (sumZ Big_chances_missed df)) ]%string.

(** [round((num / den) * 100, 1) if den > 0 else 0] *)
Definition guarded_pct (num den : pyfloat) : value :=
  if fgtb den (of_int 0)
  then VFloat (pyround 1 (fmul (fdiv num den) (of_int 100)))
  else VInt 0.

Definition get_set_piece_metrics (df : DataFrame) : dict :=
  if len df =? 0 then []
  else
    let total_xg := FFinite (sumQ Expected_goals_xG df) in
    let xg_set_play := FFinite (sumQ xG_set_play df) in
    let xg_open_play := FFinite (sumQ xG_open_play df) in
    let corners := sumZ Corners df in
    [ ("xg_from_set_pieces", VFloat (pyround 2 xg_set_play));
      ("xg_from_open_play", VFloat (pyround 2 xg_open_play));
      ("set_piece_xg_pct", guarded_pct xg_set_play total_xg);
      ("open_play_xg_pct", guarded_pct xg_open_play total_xg);
      ("corners_total", VInt corners);
      ("corners_per_game",
        VFloat (pyround 1 (fdiv (of_int corners) (of_int (len df)))));
      ("xg_per_corner",
        if (0 <? corners)%Z
        then VFloat (pyround 3 (fdiv xg_set_play (of_int corners)))
        else VInt 0);
      ("set_piece_xg_per_game",
        VFloat (pyround 2 (fdiv xg_set_play (of_int (len df)))));
      ("open_play_xg_per_game",
        VFloat (pyround 2 (fdiv xg_open_play (of_int (len df))))) ]%string.

Definition get_shot_quality_metrics (df : DataFrame) : dict :=
  if len df =? 0 then []
  else
    let total_shots := sumZ Total_shots df in
    let total_xg := FFinite (sumQ Expected_goals_xG df) in
    let woodwork := sumZ Hit_woodwork df in
    let blocked := sumZ Blocked_shots df in
    let off_target := sumZ Shots_off_target df in
    let on_target := sumZ Shots_on_target df in
    let goals := sumZ Goal_scored df in
    let rate (n : Z) := guarded_pct (of_int n) (of_int total_shots) in
    [ ("avg_xg_per_shot",
        if (0 <? total_shots)%Z
        then VFloat (pyround 3 (fdiv total_xg (of_int total_shots)))
        else VInt 0);
      ("total_shots", VInt total_shots);
      ("woodwork_total", VInt woodwork);
      ("woodwork_rate_pct", rate woodwork);
      ("blocked_shots_total", VInt blocked);
      ("blocked_rate_pct", rate blocked);
      ("off_target_total", VInt off_target);
      ("off_target_rate_pct", rate off_target);
      ("on_target_total", VInt on_target);
      ("on_target_rate_pct", rate on_target);
      ("goals_total", VInt goals);
      ("goal_rate_pct", rate goals);
      ("potential_woodwork_goals",
        VFloat (pyround 1 (fmul (of_int woodwork) (FFinite (1 # 2))))) ]%string.

Definition get_shot_outcome_breakdown (df : DataFrame) : list (string * dict) :=
  if len df =? 0 then []
  else
    let total_shots := sumZ Total_shots df in
    let goals := sumZ Goal_scored df in
    let saved := sumZ Shots_on_target df - goals in
    let blocked := sumZ Blocked_shots df in
    let off_target := sumZ Shots_off_target df in
    let woodwork := sumZ Hit_woodwork df in
    let entry (n : Z) : dict :=
      [ ("count", VInt n);
        ("pct", guarded_pct (of_int n) (of_int total_shots)) ]%string in
    [ ("Goals", entry goals);
      ("Saved", entry saved);
      ("Blocked", entry blocked);
      ("Off Target", entry off_target);
      ("Woodwork", entry woodwork) ]%string.

(** The five rules of [get_tactical_insights], in source order.  Each
    yields the findings it appends; indexing a missing key raises. *)

Definition set_piece_rule (team_sp comp_sp : dict) (team_name comparison_name : string)
  : result (list Insight) :=
  if fgtb (to_float (dict_get team_sp "set_piece_xg_pct" (VInt 0)))
          (fadd (to_float (dict_get comp_sp "set_piece_xg_pct" (VInt 0))) (of_int 5))
  then
    t1 <- dict_index team_sp "set_piece_xg_pct" ;;
    c1 <- dict_index comp_sp "set_piece_xg_pct" ;;
    t2 <- dict_index team_sp "set_piece_xg_pct" ;;
    Ok [ {| title := "Set Piece Dependency";
            finding := [ Txt team_name; Txt ": "; Num t1;
                         Txt "% of xG from set pieces vs "; Txt comparison_name;
                         Txt ": "; Num c1; Txt "%" ];
            action := "Improve open play build-up patterns and create more chances from possession";
            severity := if fgtb (to_float t2) (of_int 35) then "high" else "medium" |} ]
  else Ok [].

Definition shot_quality_rule (team_sq comp_sq : dict) (team_name comparison_name : string)
  : result (list Insight) :=
  let xg_per_shot_diff :=
    fsub (to_float (dict_get team_sq "avg_xg_per_shot" (VInt 0)))
         (to_float (dict_get comp_sq "avg_xg_per_shot" (VInt 0))) in
  if fltb xg_per_shot_diff (FFinite (- (2 # 100)))
  then
    t1 <- dict_index team_sq "avg_xg_per_shot" ;;
    c1 <- dict_index comp_sq "avg_xg_per_shot" ;;
    Ok [ {| title := "Shot Quality Gap";
            finding := [ Txt team_name; Txt ": "; Num3f t1; Txt " xG/shot vs ";
                         Txt comparison_name; Txt ": "; Num3f c1; Txt " xG/shot" ];
            action := "Focus on creating higher quality chances rather than volume of shots";
            severity := if fltb xg_per_shot_diff (FFinite (- (3 # 100)))
                        then "high" else "medium" |} ]
  else Ok [].

Definition blocked_rule (team_sq comp_sq : dict) (team_name comparison_name : string)
  : result (list Insight) :=
  let blocked_diff :=
    fsub (to_float (dict_get team_sq "blocked_rate_pct" (VInt 0)))
         (to_float (dict_get comp_sq "blocked_rate_pct" (VInt 0))) in
  if fgtb blocked_diff (of_int 5)
  then
    t1 <- dict_index team_sq "blocked_rate_pct" ;;
    c1 <- dict_index comp_sq "blocked_rate_pct" ;;
    Ok [ {| title := "Shots Being Blocked";
            finding := [ Txt team_name; Txt ": "; Num t1; Txt "% blocked vs ";
                         Txt comparison_name; Txt ": "; Num c1; Txt "%" ];
            action := "Work on quicker shooting and less telegraphed attempts";
            severity := "medium" |} ]
  else Ok [].

Definition woodwork_rule (team_sq : dict) (team_name : string) : result (list Insight) :=
  if fgtb (to_float (dict_get team_sq "woodwork_total" (VInt 0))) (of_int 5)
  then
    t1 <- dict_index team_sq "woodwork_total" ;;
    t2 <- dict_index team_sq "potential_woodwork_goals" ;;
    Ok [ {| title := "Finishing Luck";
            finding := [ Txt team_name; Txt " hit woodwork "; Num t1;
                         Txt " times (est. "; Num t2; Txt " unlucky goals)" ];
            action := "Finishing execution is good - variance should correct over time";
            severity := "info" |} ]
  else Ok [].

Definition open_play_rule (team_sp comp_sp : dict) (team_name comparison_name : string)
  : result (list Insight) :=
  if fltb (to_float (dict_get team_sp "open_play_xg_per_game" (VInt 0)))
          (fsub (to_float (dict_get comp_sp "open_play_xg_per_game" (VInt 0)))
                (FFinite (3 # 10)))
  then
    t1 <- dict_index team_sp "open_play_xg_per_game" ;;
    c1 <- dict_index comp_sp "open_play_xg_per_game" ;;
    Ok [ {| title := "Open Play Creation";
            finding := [ Txt team_name; Txt ": "; Num t1;
                         Txt " open play xG/game vs "; Txt comparison_name;
                         Txt ": "; Num c1 ];
            action := "Tactical focus needed on build-up play and creating chances from possession";
            severity := "high" |} ]
  else Ok [].

Definition get_tactical_insights
  (team_df comparison_df : DataFrame) (team_name comparison_name : string)
  : result (list Insight) :=
  let team_sp := get_set_piece_metrics team_df in
  let comp_sp := get_set_piece_metrics comparison_df in
  let team_sq := get_shot_quality_metrics team_df in
  let comp_sq := get_shot_quality_metrics comparison_df in
  i1 <- set_piece_rule team_sp comp_sp team_name comparison_name ;;
  i2 <- shot_quality_rule team_sq comp_sq team_name comparison_name ;;
  i3 <- blocked_rule team_sq comp_sq team_name comparison_name ;;
  i4 <- woodwork_rule team_sq team_name ;;
  i5 <- open_play_rule team_sp comp_sp team_name comparison_name ;;
  Ok (i1 ++ i2 ++ i3 ++ i4 ++ i5)%list.

End Attacking.

(** ** src/metrics/defensive.py *)

Module Defensive.
Import Preprocessor Frame.

Definition goals_conceded_per_game (df : DataFrame) : pyfloat :=
  if len df =? 0 then of_int 0
  else fdiv (of_int (sumZ Goal_conceded df)) (of_int (len df)).

(** [int((df["Goal conceded"] == 0).sum())] *)
Definition clean_sheets (df : DataFrame) : Z :=
  sumZ (fun r => Z.b2z (Goal_conceded r =? 0)) df.

Definition clean_sheet_percentage (df : DataFrame) : pyfloat :=
  if len df =? 0 then of_int 0
  else pct_of (clean_sheets df) (len df).

Definition tackles_per_game (df : DataFrame) : pyfloat :=
  if len df =? 0 then of_int 0
  else fdiv (of_int (sumZ Tackles df)) (of_int (len df)).

Definition interceptions_per_game (df : DataFrame) : pyfloat :=
  if len df =? 0 then of_int 0
  else fdiv (of_int (sumZ Interceptions df)) (of_int (len df)).

Definition blocks_per_game (df : DataFrame) : pyfloat :=
  if len df =? 0 then of_int 0
  else fdiv (of_int (sumZ Blocks df)) (of_int (len df)).

Definition clearances_per_game (df : DataFrame) : pyfloat :=
  if len df =? 0 then of_int 0
  else fdiv (of_int (sumZ Clearances df)) (of_int (len df)).

Definition defensive_actions_per_game (df : DataFrame) : pyfloat :=
  if len df =? 0 then of_int 0
  else
    let total :=
      sumZ Tackles df + sumZ Interceptions df + sumZ Blocks df + sumZ Clearances df in
    fdiv (of_int total) (of_int (len df)).

Definition saves_per_game (df : DataFrame) : pyfloat :=
  if len df =? 0 then of_int 0
  else fdiv (of_int (sumZ Keeper_saves df)) (of_int (len df)).

Definition get_defensive_metrics (df : DataFrame) : dict :=
  [ ("matches", VInt (len df));
    ("total_goals_conceded", VInt (sumZ Goal_conceded df));
    ("goals_conceded_per_game", VFloat (pyround 2 (goals_conceded_per_game df)));
    ("clean_sheets", VInt (clean_sheets df));
    ("clean_sheet_pct", VFloat (pyround 1 (clean_sheet_percentage df)));
    ("tackles_per_game", VFloat (pyround 1 (tackles_per_game df)));
    ("interceptions_per_game", VFloat (pyround 1 (interceptions_per_game df)));
    ("blocks_per_game", VFloat (pyround 1 (blocks_per_game df)));
    ("clearances_per_game", VFloat (pyround 1 (clearances_per_game df)));
    ("defensive_actions_per_game", VFloat (pyround 1 (defensive_actions_per_game df)));
    ("saves_per_game", VFloat (pyround 1 (saves_per_game df)));
    ("total_tackles", VInt (sumZ Tackles df));
    ("total_interceptions", VInt (sumZ Interceptions df));
    ("total_blocks", VInt (sumZ Blocks df));
    ("total_clearances", VInt (sumZ Clearances df)) ]%string.

End Defensive.

(** ** src/metrics/possession.py

    The parsed columns ["Accurate passes_pct"], ["Accurate long balls_pct"],
    ["Accurate crosses_pct"] and ["Successful dribbles_count"] are fields of
    every record, so the [not in df.columns] disjuncts are false. *)

Module Possession.
Import Preprocessor Frame.

Definition average_possession (df : DataFrame) : pyfloat :=
  if len df =? 0 then of_int 0 else meanQ possession_pct df.

Definition passes_per_game (df : DataFrame) : pyfloat :=
  if len df =? 0 then of_int 0
  else fdiv (of_int (sumZ Passes df)) (of_int (len df)).

Definition pass_accuracy (df : DataFrame) : pyfloat :=
  if len df =? 0 then of_int 0
  else fmul (meanQ Accurate_passes_pct df) (of_int 100).

Definition opposition_half_passes_per_game (df : DataFrame) : pyfloat :=
  if len df =? 0 then of_int 0
  else fdiv (of_int (sumZ Opposition_half df)) (of_int (len df)).

Definition own_half_passes_per_game (df : DataFrame) : pyfloat :=
  if len df =? 0 then of_int 0
  else fdiv (of_int (sumZ Own_half df)) (of_int (len df)).

Definition long_ball_accuracy (df : DataFrame) : pyfloat :=
  if len df =? 0 then of_int 0
  else fmul (meanQ Accurate_long_balls_pct df) (of_int 100).

Definition cross_accuracy (df : DataFrame) : pyfloat :=
  if len df =? 0 then of_int 0
  else fmul (meanQ Accurate_crosses_pct df) (of_int 100).

Definition touches_in_box_per_game (df : DataFrame) : pyfloat :=
  if len df =? 0 then of_int 0
  else fdiv (of_int (sumZ Touches_in_opposition_box df)) (of_int (len df)).

Definition corners_per_game (df : DataFrame) : pyfloat :=
  if len df =? 0 then of_int 0
  else fdiv (of_int (sumZ Corners df)) (of_int (len df)).

Definition successful_dribbles_per_game (df : DataFrame) : pyfloat :=
  if len df =? 0 then of_int 0
  else fdiv (of_int (sumZ Successful_dribbles_count df)) (of_int (len df)).

Definition get_possession_metrics (df : DataFrame) : dict :=
  [ ("matches", VInt (len df));
    ("avg_possession", VFloat (pyround 1 (average_possession df)));
    ("passes_per_game", VFloat (pyround 0 (passes_per_game df)));
    ("pass_accuracy_pct", VFloat (pyround 1 (pass_accuracy df)));
    ("opp_half_passes_per_game", VFloat (pyround 0 (opposition_half_passes_per_game df)));
    ("own_half_passes_per_game", VFloat (pyround 0 (own_half_passes_per_game df)));
    ("long_ball_accuracy_pct", VFloat (pyround 1 (long_ball_accuracy df)));
    ("cross_accuracy_pct", VFloat (pyround 1 (cross_accuracy df)));
    ("touches_in_box_per_game", VFloat (pyround 1 (touches_in_box_per_game df)));
    ("corners_per_game", VFloat (pyround 1 (corners_per_game df)));
    ("successful_dribbles_per_game", VFloat (pyround 1 (successful_dribbles_per_game df)));
    ("total_passes", VInt (sumZ Passes df));
    ("total_corners", VInt (sumZ Corners df)) ]%string.

(** The three possession subsets of [get_possession_effectiveness]. *)
Definition high_poss (df : DataFrame) : DataFrame :=
  filter (fun r : MatchRecord => Qle_bool 55 (possession_pct r)) df.

Definition medium_poss (df : DataFrame) : DataFrame :=
  filter (fun r : MatchRecord =>
            Qle_bool 45 (possession_pct r) && Qltb (possession_pct r) 55) df.

Definition low_poss (df : DataFrame) : DataFrame :=
  filter (fun r : MatchRecord => Qltb (possession_pct r) 45) df.

(** [sub["points"].sum() / len(sub) if len(sub) > 0 else 0] *)
Definition ppg (sub : DataFrame) : pyfloat :=
  if 0 <? len sub then fdiv (of_int (sumZ points sub)) (of_int (len sub))
  else of_int 0.

(** [(sub["is_win"].sum() / len(sub)) * 100 if len(sub) > 0 else 0] *)
Definition win_rate (sub : DataFrame) : pyfloat :=
  if 0 <? len sub then pct_of (sumZ is_win sub) (len sub)
  else of_int 0.

Definition get_possession_effectiveness (df : DataFrame) : dict :=
  if len df =? 0 then []
  else
    let high_poss_ppg := ppg (high_poss df) in
    let medium_poss_ppg := ppg (medium_poss df) in
    let low_poss_ppg := ppg (low_poss df) in
    let high_poss_win_rate := win_rate (high_poss df) in
    let low_poss_win_rate := win_rate (low_poss df) in
    let total_xg := FFinite (sumQ Expected_goals_xG df) in
    let avg_possession := meanQ possession_pct df in
    let xg_per_possession_pct :=
      if fgtb avg_possession (of_int 0)
      then fdiv total_xg (fmul avg_possession (of_int (len df)))
      else of_int 0 in
    let total_touches := of_int (sumZ Touches_in_opposition_box df) in
    let touches_per_xg :=
      if fgtb total_xg (of_int 0) then fdiv total_touches total_xg else of_int 0 in
    [ ("high_possession_games", VInt (len (high_poss df)));
      ("high_possession_ppg", VFloat (pyround 2 high_poss_ppg));
      ("high_possession_win_rate", VFloat (pyround 1 high_poss_win_rate));
      ("medium_possession_games", VInt (len (medium_poss df)));
      ("medium_possession_ppg", VFloat (pyround 2 medium_poss_ppg));
      ("low_possession_games", VInt (len (low_poss df)));
      ("low_possession_ppg", VFloat (pyround 2 low_poss_ppg));
      ("low_possession_win_rate", VFloat (pyround 1 low_poss_win_rate));
      ("xg_per_possession_pct", VFloat (pyround 3 xg_per_possession_pct));
      ("touches_per_xg", VFloat (pyround 1 touches_per_xg));
      ("better_with_possession", VBool (fgtb high_poss_ppg low_poss_ppg));
      ("possession_differential",
        VFloat (pyround 2 (fsub high_poss_ppg low_poss_ppg))) ]%string.

(** The three rules of [get_possession_tactical_insights]. *)

Definition counter_attack_rule (team_eff : dict) (team_name : string)
  : result (list Insight) :=
  if negb (truthy (dict_get team_eff "better_with_possession" (VBool true)))
  then
    l <- dict_index team_eff "low_possession_ppg" ;;
    h <- dict_index team_eff "high_possession_ppg" ;;
    Ok [ {| title := "Counter-Attack Style More Effective";
            finding := [ Txt team_name; Txt " earns "; Num l;
                         Txt " PPG with low possession vs "; Num h;
                         Txt " PPG with high possession" ];
            action := "Consider tactical shift towards counter-attacking style";
            severity := "high" |} ]
  else Ok [].

Definition efficiency_gap_rule (team_eff comp_eff : dict)
  (team_name comparison_name : string) : result (list Insight) :=
  let team_xg_eff := dict_get team_eff "xg_per_possession_pct" (VInt 0) in
  let comp_xg_eff := dict_get comp_eff "xg_per_possession_pct" (VInt 0) in
  if fltb (to_float team_xg_eff) (fmul (to_float comp_xg_eff) (FFinite (8 # 10)))
  then
    Ok [ {| title := "Possession Efficiency Gap";
            finding := [ Txt team_name; Txt ": "; Num3f team_xg_eff;
                         Txt " xG per possession % vs "; Txt comparison_name;
                         Txt ": "; Num3f comp_xg_eff ];
            action := "Possession is not translating to chances - work on final third penetration";
            severity := "medium" |} ]
  else Ok [].

Definition high_possession_rule (team_eff : dict) (team_name : string)
  : result (list Insight) :=
  if fltb (to_float (dict_get team_eff "high_possession_win_rate" (VInt 0))) (of_int 50)
     && fgeb (to_float (dict_get team_eff "high_possession_games" (VInt 0))) (of_int 5)
  then
    w <- dict_index team_eff "high_possession_win_rate" ;;
    Ok [ {| title := "High Possession Not Converting to Wins";
            finding := [ Txt team_name; Txt " wins only "; Num w;
                         Txt "% when dominating possession (>55%)" ];
            action := "Add more directness and urgency when in control of possession";
            severity := "high" |} ]
  else Ok [].

Definition get_possession_tactical_insights
  (team_df comparison_df : DataFrame) (team_name comparison_name : string)
  : result (list Insight) :=
  let team_eff := get_possession_effectiveness team_df in
  let comp_eff := get_possession_effectiveness comparison_df in
  i1 <- counter_attack_rule team_eff team_name ;;
  i2 <- efficiency_gap_rule team_eff comp_eff team_name comparison_name ;;
  i3 <- high_possession_rule team_eff team_name ;;
  Ok (i1 ++ i2 ++ i3)%list.

End Possession.

(** ** src/metrics/aggregators.py *)

(** A row of the league table. *)
Module Standings.
Record Row : Type := mkRow {
  Position : Z;
  Team : string;
  P : Z;
  W : Z;
  D : Z;
  L : Z;
  GF : Z;
  GA : Z;
  GD : Z;
  Points : Z
}.
End Standings.

Module Aggregators.
Import Preprocessor Frame.

(** [d[k] = v]: replaces the value of a present key in place, appends a
    new key. *)
Fixpoint dict_set (d : dict) (k : string) (v : value) : dict :=
  match d with
  | [] => [(k, v)]
  | (k', v') :: d' =>
      if String.eqb k k' then (k, v) :: d' else (k', v') :: dict_set d' k v
  end.

(** [{**d, **d'}] *)
Definition dict_update (d d' : dict) : dict :=
  fold_left (fun acc kv => dict_set acc (fst kv) (snd kv)) d' d.

Definition get_season_summary (df : DataFrame) : dict :=
  if len df =? 0 then []
  else
    let own : dict :=
      [ ("matches_played", VInt (len df));
        ("wins", VInt (sumZ is_win df));
        ("draws", VInt (sumZ is_draw df));
        ("losses", VInt (sumZ is_loss df));
        ("total_points", VInt (sumZ points df));
        ("points_per_game",
          VFloat (pyround 2 (fdiv (of_int (sumZ points df)) (of_int (len df)))));
        ("goals_scored", VInt (sumZ Goal_scored df));
        ("goals_conceded", VInt (sumZ Goal_conceded df));
        ("goal_difference", VInt (sumZ Goal_scored df - sumZ Goal_conceded df));
        ("clean_sheets", VInt (sumZ is_clean_sheet df));
        ("home_wins", VInt (sumZ is_win (where_eq Side "Home" df)));
        ("away_wins", VInt (sumZ is_win (where_eq Side "Away" df))) ]%string in
    dict_update
      (dict_update
         (dict_update own (Attacking.get_attacking_metrics df))
         (Defensive.get_defensive_metrics df))
      (Possession.get_possession_metrics df).

Definition side_split (side_df : DataFrame) : dict :=
  [ ("matches", VInt (len side_df));
    ("wins", VInt (sumZ is_win side_df));
    ("draws", VInt (sumZ is_draw side_df));
    ("losses", VInt (sumZ is_loss side_df));
    ("points", VInt (sumZ points side_df));
    ("points_per_game",
      if (0 <? len side_df)%Z
      then VFloat (pyround 2 (fdiv (of_int (sumZ points side_df)) (of_int (len side_df))))
      else VInt 0);
    ("goals_scored", VInt (sumZ Goal_scored side_df));
    ("goals_conceded", VInt (sumZ Goal_conceded side_df));
    ("clean_sheets", VInt (sumZ is_clean_sheet side_df));
    ("avg_possession",
      if (0 <? len side_df)%Z
      then VFloat (pyround 1 (meanQ possession_pct side_df))
      else VInt 0) ]%string.

Definition get_home_away_split (df : DataFrame) : list (string * dict) :=
  let home_df := where_eq Side "Home" df in
  let away_df := where_eq Side "Away" df in
  [ ("home", side_split home_df); ("away", side_split away_df) ]%string.

(** The dictionary [get_form] returns; its keys are fixed and its values
    are of different types, so it is a record here. *)
Record Form : Type := mkForm {
  form_string : string;
  form_list : list string;
  form_points : Z;
  max_points : Z;
  goals_scored : Z;
  goals_conceded : Z;
  wins : Z;
  draws : Z;
  losses : Z
}.

(** The body of the loop over [recent.iterrows()]. *)
Definition form_letter (row : MatchRecord) : string :=
  if is_win row =? 1 then "W"
  else if is_draw row =? 1 then "D"
  else "L".

Definition get_form (df : DataFrame) (last_n : Z) : Form :=
  let recent := tail last_n df in
  let letters := map form_letter recent in
  {| form_string := String.concat "" letters;
     form_list := letters;
     form_points := sumZ points recent;
     max_points := last_n * 3;
     goals_scored := sumZ Goal_scored recent;
     goals_conceded := sumZ Goal_conceded recent;
     wins := sumZ is_win recent;
     draws := sumZ is_draw recent;
     losses := sumZ is_loss recent |}.

(** *** League table *)

(** [df.groupby("Team")]: the distinct keys, in ascending order. *)
Fixpoint insert_key (t : string) (ks : list string) : list string :=
  match ks with
  | [] => [t]
  | k :: ks' => if String.leb t k then t :: ks else k :: insert_key t ks'
  end.

Definition sort_keys (ks : list string) : list string :=
  fold_right insert_key [] ks.

Definition group_keys (df : DataFrame) : list string :=
  sort_keys (nodup string_dec (map (fun r : MatchRecord => Team r) df)).

(** One aggregated row: the six sums, then [GD] and [P]. *)
Definition aggregate (df : DataFrame) (t : string) : Standings.Row :=
  let g := where_eq Team t df in
  let gf := sumZ Goal_scored g in
  let ga := sumZ Goal_conceded g in
  let w := sumZ is_win g in
  let d := sumZ is_draw g in
  let l := sumZ is_loss g in
  {| Standings.Position := 0;
     Standings.Team := t;
     Standings.P := w + d + l;
     Standings.W := w;
     Standings.D := d;
     Standings.L := l;
     Standings.GF := gf;
     Standings.GA := ga;
     Standings.GD := gf - ga;
     Standings.Points := sumZ points g |}.

Definition groupby_team (df : DataFrame) : list Standings.Row :=
  map (aggregate df) (group_keys df).

(** [a] sorts strictly before [b] under
    [sort_values(["Points", "GD", "GF"], ascending=[False, False, False])]. *)
Definition key_gtb (a b : Standings.Row) : bool :=
  (Standings.Points b <? Standings.Points a)
  || ((Standings.Points a =? Standings.Points b)
      && ((Standings.GD b <? Standings.GD a)
          || ((Standings.GD a =? Standings.GD b)
              && (Standings.GF b <? Standings.GF a)))).

(** The multi-column sort of pandas is stable: rows with equal keys keep
    their relative order. *)
Fixpoint insert_desc (x : Standings.Row) (l : list Standings.Row) : list Standings.Row :=
  match l with
  | [] => [x]
  | y :: l' => if key_gtb y x then y :: insert_desc x l' else x :: l
  end.

Definition sort_values (l : list Standings.Row) : list Standings.Row :=
  fold_right insert_desc [] l.

(** [standings["Position"] = standings.index + 1] after [reset_index]. *)
Fixpoint number_from (i : Z) (l : list Standings.Row) : list Standings.Row :=
  match l with
  | [] => []
  | r :: l' =>
      {| Standings.Position := i;
         Standings.Team := Standings.Team r;
         Standings.P := Standings.P r;
         Standings.W := Standings.W r;
         Standings.D := Standings.D r;
         Standings.L := Standings.L r;
         Standings.GF := Standings.GF r;
         Standings.GA := Standings.GA r;
         Standings.GD := Standings.GD r;
         Standings.Points := Standings.Points r |} :: number_from (i + 1) l'
  end.

(** [if season:] is false for [None] and for the empty string. *)
Definition season_given (season : option string) : option string :=
  match season with
  | Some s => if String.eqb s "" then None else Some s
  | None => None
  end.

Definition calculate_league_position (df : DataFrame) (season : option string)
  : list Standings.Row :=
  let df :=
    match season_given season with
    | Some s => filter_by_season df s
    | None => df
    end in
  number_from 1 (sort_values (groupby_team df)).

End Aggregators.

(** ** Sample inputs *)

Module Samples.
Import Preprocessor Frame.

(** A raw row with the given identification, result, shooting and
    possession figures; every other column is 0. *)
Definition row (team ssn side : string) (rnd pts gs gc shots : Z) (poss xg xg_set : Q)
  : Row :=
  {| season := ssn; Team := team; Side := side; Round := rnd;
     points := pts; Goal_scored := gs; Goal_conceded := gc;
     Expected_goals_xG := xg; xG_open_play := (xg - xg_set)%Q; xG_set_play := xg_set;
     xG_on_target_xGOT := 0%Q;
     Total_shots := shots; Shots_on_target := 0; Shots_off_target := 0;
     Blocked_shots := 0; Hit_woodwork := 0; Shots_inside_box := 0;
     Big_chances := 0; Big_chances_missed := 0; Corners := 0;
     Passes := 0; Own_half := 0; Opposition_half := 0;
     Touches_in_opposition_box := 0;
     Tackles := 0; Interceptions := 0; Blocks := 0; Clearances := 0;
     Keeper_saves := 0;
     possession_pct := poss;
     Accurate_passes_pct := 0%Q; Accurate_long_balls_pct := 0%Q;
     Accurate_crosses_pct := 0%Q; Successful_dribbles_count := 0 |}.

Definition record (team ssn side : string) (rnd pts gs gc shots : Z) (poss xg xg_set : Q)
  : MatchRecord :=
  add_calculated_columns_row (row team ssn side rnd pts gs gc shots poss xg xg_set).

(** A win, a draw and a loss of one team, in round order. *)
Definition three_matches : DataFrame :=
  [ record "Team X" "2024-2025" "Home" 1 3 2 0 10 50 1 0;
    record "Team X" "2024-2025" "Away" 2 1 1 1 8 50 1 0;
    record "Team X" "2024-2025" "Home" 3 0 0 2 5 50 1 0 ].

(** A single match played with 50% possession. *)
Definition one_medium_match : DataFrame :=
  [ record "Team X" "2024-2025" "Home" 1 3 2 0 10 50 1 0 ].

(** One match in which [set_pct] of an xG of 100 came from set pieces. *)
Definition set_piece_team (team : string) (set_pct : Z) : DataFrame :=
  [ record team "2024-2025" "Home" 1 3 2 0 10 50 100 (inject_Z set_pct) ].

(** [n] matches of [team] with the same result and score. *)
Definition results (team ssn : string) (n : nat) (pts gs gc : Z) : DataFrame :=
  repeat (record team ssn "Home" 1 pts gs gc 0 50 0 0) n.

(** Team A: 10 wins 1-0; Team B: 10 wins 1-0 and 5 defeats 0-1; Team C:
    9 wins 1-0 and a 0-0 draw.  The rows of the teams are interleaved in
    reverse alphabetical order. *)
Definition season_table : DataFrame :=
  (results "Team C" "2024-2025" 9 3 1 0 ++ results "Team C" "2024-2025" 1 1 0 0
   ++ results "Team B" "2024-2025" 10 3 1 0 ++ results "Team B" "2024-2025" 5 0 0 1
   ++ results "Team A" "2024-2025" 10 3 1 0)%list.

(** Two seasons of two teams. *)
Definition two_seasons : DataFrame :=
  (results "Team A" "2023-2024" 2 3 2 0 ++ results "Team B" "2023-2024" 1 1 1 1
   ++ results "Team A" "2024-2025" 1 0 0 3 ++ results "Team B" "2024-2025" 2 3 1 0)%list.

End Samples.

(** ** src/data/preprocessor.py: possession strings *)

Module Fields.
Import Str.



End Fields.

(** ** src/data/loader.py: selections of a loaded table *)

Module Loader.
Import Preprocessor Frame.

(** [df[df["Team"] == team].copy()] *)
Definition get_team_data (df : DataFrame) (team : string) : DataFrame :=
  where_eq (fun r : MatchRecord => Team r) team df.


(** [Series.unique()]: the distinct values in order of first appearance. *)
Fixpoint unique (l : list string) : list string :=
  match l with
  | [] => []
  | x :: l' => x :: filter (fun y => negb (String.eqb y x)) (unique l')
  end.

(** [sorted(df["Team"].unique().tolist())] *)
Definition get_available_teams (df : DataFrame) : list string :=
  Aggregators.sort_keys (unique (map (fun r : MatchRecord => Team r) df)).

(** [df["season"].unique().tolist()] *)
Definition get_available_seasons (df : DataFrame) : list string :=
  unique (map (fun r : MatchRecord => season r) df).

End Loader.

(** ** Multi-team comparisons of the three engines *)

Module Comparisons.
Import Preprocessor Frame.

(** [results[team] = metrics] on a dictionary keyed by team name. *)
Fixpoint results_set (results : list (string * dict)) (team : string) (metrics : dict)
  : list (string * dict) :=
  match results with
  | [] => [(team, metrics)]
  | (t, m) :: results' =>
      if String.eqb team t then (team, metrics) :: results'
      else (t, m) :: results_set results' team metrics
  end.

Fixpoint results_lookup (results : list (string * dict)) (team : string) : option dict :=
  match results with
  | [] => None
  | (t, m) :: results' =>
      if String.eqb team t then Some m else results_lookup results' team
  end.

(** The loop shared by the three comparison functions; the result is the
    dictionary handed to [pd.DataFrame], one column per team. *)
Definition comparison (metrics : DataFrame -> dict) (df : DataFrame) (teams : list string)
  : list (string * dict) :=
  fold_left
    (fun results team =>
       let team_df := where_eq (fun r : MatchRecord => Team r) team df in
       results_set results team (metrics team_df))
    teams [].

Definition get_attacking_comparison := comparison Attacking.get_attacking_metrics.
Definition get_defensive_comparison := comparison Defensive.get_defensive_metrics.
Definition get_possession_comparison := comparison Possession.get_possession_metrics.

End Comparisons.

(** ** src/metrics/possession.py: possession brackets *)

Module Brackets.
Import Preprocessor Frame.

(** A row of the frame [get_possession_vs_results] returns. *)
Record BracketRow : Type := mkBracketRow {
  Possession_Range : string;
  Games : Z;
  Wins : Z;
  Draws : Z;
  Losses : Z;
  Win_pct : pyfloat;
  PPG : pyfloat;
  Avg_xG : pyfloat;
  Avg_Goals : pyfloat
}.

Definition brackets : list (string * Q * Q) :=
  [ ("Very Low (<40%)"%string, 0, 40);
    ("Low (40-45%)"%string, 40, 45);
    ("Medium (45-55%)"%string, 45, 55);
    ("High (55-60%)"%string, 55, 60);
    ("Very High (>60%)"%string, 60, 100) ]%Q.

(** [df[(df["possession_pct"] >= low) & (df["possession_pct"] < high)]] *)
Definition bracket_df (df : DataFrame) (low high : Q) : DataFrame :=
  filter (fun r : MatchRecord =>
            Qle_bool low (possession_pct r) && Qltb (possession_pct r) high) df.

(** The body of the loop: the row appended for one bracket, if any. *)
Definition bracket_row (df : DataFrame) (b : string * Q * Q) : list BracketRow :=
  let '(label, low, high) := b in
  let sub := bracket_df df low high in
  if 0 <? len sub then
    [ {| Possession_Range := label;
         Games := len sub;
         Wins := sumZ is_win sub;
         Draws := sumZ is_draw sub;
         Losses := sumZ is_loss sub;
         Win_pct := pyround 1 (pct_of (sumZ is_win sub) (len sub));
         PPG := pyround 2 (fdiv (of_int (sumZ points sub)) (of_int (len sub)));
         Avg_xG := pyround 2 (meanQ Expected_goals_xG sub);
         Avg_Goals :=
           pyround 2 (fdiv (of_int (sumZ Goal_scored sub)) (of_int (len sub))) |} ]
  else [].

Definition get_possession_vs_results (df : DataFrame) : list BracketRow :=
  if len df =? 0 then []
  else flat_map (bracket_row df) brackets.

End Brackets.

(** ** Vocabulary of the properties *)

Module Derived.
Import Preprocessor Frame.

(** The derived rates of one normalised record. *)
Definition row_rates (m : MatchRecord) : list pyfloat :=
  [ shot_conversion_pct m; shots_on_target_pct m; big_chance_conversion_pct m;
    shots_inside_box_pct m; opp_half_passes_pct m; xg_open_play_ratio m;
    xg_set_play_ratio m; xg_per_shot m; woodwork_rate m; blocked_shot_rate m;
    shots_off_target_rate m ].

(** The rates of a record whose denominator is the shot count. *)
Definition shot_rates (m : MatchRecord) : list pyfloat :=
  [ shot_conversion_pct m; shots_on_target_pct m; shots_inside_box_pct m;
    xg_per_shot m; woodwork_rate m; blocked_shot_rate m; shots_off_target_rate m ].

(** The per-game averages of the three engines: every function that
    divides by the match count. *)
Definition per_game_averages (df : DataFrame) : list pyfloat :=
  [ Attacking.goals_per_game df; Attacking.xg_per_game df;
    Attacking.xg_overperformance_per_game df; Attacking.shots_per_game df;
    Attacking.shots_on_target_per_game df; Attacking.big_chances_per_game df;
    Attacking.xgot_per_game df;
    Defensive.goals_conceded_per_game df; Defensive.clean_sheet_percentage df;
    Defensive.tackles_per_game df; Defensive.interceptions_per_game df;
    Defensive.blocks_per_game df; Defensive.clearances_per_game df;
    Defensive.defensive_actions_per_game df; Defensive.saves_per_game df;
    Possession.average_possession df; Possession.passes_per_game df;
    Possession.pass_accuracy df; Possession.opposition_half_passes_per_game df;
    Possession.own_half_passes_per_game df; Possession.long_ball_accuracy df;
    Possession.cross_accuracy df; Possession.touches_in_box_per_game df;
    Possession.corners_per_game df; Possession.successful_dribbles_per_game df;
    Possession.ppg df; Possession.win_rate df ].

(** The engine rates whose denominator is the summed shot count. *)
Definition shot_total_rates (df : DataFrame) : list pyfloat :=
  [ Attacking.shot_conversion_rate df; Attacking.shots_on_target_rate df;
    Attacking.shots_inside_box_rate df ].

(** The keys of [get_shot_quality_metrics] guarded by the shot count. *)
Definition shot_quality_rate_keys : list string :=
  [ "avg_xg_per_shot"; "woodwork_rate_pct"; "blocked_rate_pct";
    "off_target_rate_pct"; "on_target_rate_pct"; "goal_rate_pct" ]%string.

(** Every value of a dictionary is a finite number. *)
Definition all_finite (d : dict) : Prop :=
  Forall (fun kv : string * value => finite (to_float (snd kv)) = true) d.

(** The set-piece share of xG as [get_tactical_insights] reads it:
    the rounded value of the metrics map, 0 when the key is absent. *)
Definition displayed_set_piece_xg_pct (df : DataFrame) : pyfloat :=
  to_float (dict_get (Attacking.get_set_piece_metrics df) "set_piece_xg_pct" (VInt 0)).

(** A finding with the given title is among the findings. *)
Definition emitted (t : string) (l : list Insight) : Prop :=
  exists i, In i l /\ title i = t.

(** The severity of the first finding with the given title, if any. *)
Definition severity_of (t : string) (r : result (list Insight)) : option string :=
  match r with
  | Ok l =>
      match find (fun i => String.eqb (title i) t) l with
      | Some i => Some (severity i)
      | None => None
      end
  | Raise _ => None
  end.

(** The sort order of the league table: [a] may stand before [b] when
    its (points, goal difference, goals for) is lexicographically at least
    that of [b]. *)
Definition key_ge (a b : Standings.Row) : Prop :=
  Standings.Points b < Standings.Points a
  \/ (Standings.Points a = Standings.Points b
      /\ (Standings.GD b < Standings.GD a
          \/ (Standings.GD a = Standings.GD b
              /\ Standings.GF b <= Standings.GF a))).

(** A table row without its rank. *)
Definition unranked (r : Standings.Row) : Standings.Row :=
  {| Standings.Position := 0;
     Standings.Team := Standings.Team r;
     Standings.P := Standings.P r;
     Standings.W := Standings.W r;
     Standings.D := Standings.D r;
     Standings.L := Standings.L r;
     Standings.GF := Standings.GF r;
     Standings.GA := Standings.GA r;
     Standings.GD := Standings.GD r;
     Standings.Points := Standings.Points r |}.

(** The rows a call of [calculate_league_position] aggregates. *)
Definition rows_in_scope (df : DataFrame) (season : option string) : DataFrame :=
  match Aggregators.season_given season with
  | Some s => filter_by_season df s
  | None => df
  end.

(** The matches of one team. *)
Definition matches_of (team : string) (df : DataFrame) : DataFrame :=
  where_eq (fun r : MatchRecord => Team r) team df.

(** The rows of the other seasons. *)
Definition other_seasons (df : DataFrame) (s : string) : DataFrame :=
  filter (fun r : MatchRecord => negb (String.eqb (season r) s)) df.



End Derived.

(** ** Further vocabulary *)

Module Facts.
Import Preprocessor Frame Derived.

(** A record whose derived columns are those the normaliser computes. *)
Definition normalised (m : MatchRecord) : Prop :=
  m = add_calculated_columns_row (base m).

(** A league result: 3, 1 or 0 points. *)
Definition valid_points (m : MatchRecord) : Prop :=
  points m = 3 \/ points m = 1 \/ points m = 0.

Definition league_record (m : MatchRecord) : Prop :=
  normalised m /\ valid_points m.

(** The sum of a column of the league table. *)
Definition Zsum (l : list Z) : Z := fold_right Z.add 0 l.

(** Ascending order of team names. *)
Definition name_le (a b : Standings.Row) : Prop :=
  String.leb (Standings.Team a) (Standings.Team b) = true.

(** [a] may stand before [b]: its sort key is at least that of [b], and
    when the keys are equal its name is not after that of [b]. *)
Definition tie_break (a b : Standings.Row) : Prop :=
  key_ge a b /\ (key_ge b a -> name_le a b).

End Facts.

(** ** Vocabulary of the aggregation properties *)

Module SplitFacts.
Import Preprocessor Frame.

(** Every match was played at home or away. *)
Definition sides_known (df : DataFrame) : Prop :=
  Forall (fun r : MatchRecord => Side r = "Home"%string \/ Side r = "Away"%string) df.

(** The integer stored under a key. *)
Definition int_at (d : dict) (k : string) : option Z :=
  match dict_lookup d k with
  | Some (VInt z) => Some z
  | _ => None
  end.

(** The keys a dictionary has after [d[k] = v]. *)
Fixpoint keys_set (ks : list string) (k : string) : list string :=
  match ks with
  | [] => [k]
  | k' :: ks' => if String.eqb k k' then k :: ks' else k' :: keys_set ks' k
  end.

(** The integer counts of one side of the home/away split, with the key
    of the season summary that holds the total. *)
Definition split_counts : list (string * string) :=
  [ ("matches", "matches_played"); ("wins", "wins"); ("draws", "draws");
    ("losses", "losses"); ("points", "total_points");
    ("goals_scored", "goals_scored"); ("goals_conceded", "goals_conceded") ]%string.

End SplitFacts.

(** ** Vocabulary of the tactical rules *)

Module RuleFacts.
Import Preprocessor Frame.

(** The number a rule reads under a key: the value of the map, 0 when the
    key is absent. *)
Definition displayed (d : dict) (k : string) : pyfloat :=
  to_float (dict_get d k (VInt 0)).

(** The findings of a rule that fires under [c]. *)
Definition fires (c : bool) (i : Insight) : list Insight :=
  if c then [i] else [].

(** The titles of the attacking rules, in the order of evaluation. *)
Definition attacking_titles : list string :=
  [ "Set Piece Dependency"; "Shot Quality Gap"; "Shots Being Blocked";
    "Finishing Luck"; "Open Play Creation" ]%string.

(** The titles of the possession rules, in the order of evaluation. *)
Definition possession_titles : list string :=
  [ "Counter-Attack Style More Effective"; "Possession Efficiency Gap";
    "High Possession Not Converting to Wins" ]%string.

(** [l] keeps some of the elements of [full], in the same order. *)
Fixpoint subsequence (l full : list string) : Prop :=
  match l, full with
  | [], _ => True
  | _ :: _, [] => False
  | x :: l', y :: full' =>
      (x = y /\ subsequence l' full') \/ subsequence l full'
  end.

End RuleFacts.

(** ** Vocabulary of the possession brackets *)

Module BracketFacts.
Import Preprocessor Frame.

(** The possession values some bracket of [get_possession_vs_results]
    holds: from 0 up to, but not including, 100. *)
Definition in_brackets (r : MatchRecord) : bool :=
  Qle_bool 0 (possession_pct r) && Qltb (possession_pct r) 100.

(** The total of a column of the bracket frame. *)
Definition column_total (f : Brackets.BracketRow -> Z) (rows : list Brackets.BracketRow)
  : Z :=
  fold_right Z.add 0 (map f rows).

Definition bracket_labels : list string :=
  map (fun b : string * Q * Q => fst (fst b)) Brackets.brackets.

(** Every number of a bracket row is an ordinary float. *)
Definition row_finite (b : Brackets.BracketRow) : Prop :=
  finite (Brackets.Win_pct b) = true /\ finite (Brackets.PPG b) = true
  /\ finite (Brackets.Avg_xG b) = true /\ finite (Brackets.Avg_Goals b) = true.

End BracketFacts.


(** ** Vocabulary of the range properties *)

Module RangeFacts.

(** An ordinary float between two integers. *)
Definition within (x : pyfloat) (lo hi : Z) : Prop :=
  match x with
  | FFinite q => (inject_Z lo <= q /\ q <= inject_Z hi)%Q
  | _ => False
  end.

End RangeFacts.

(** * Properties *)

Import Preprocessor Frame Derived.

(** ** Outcome flags *)

(** C7: in a normalised table, a record whose [points] is 3, 1 or 0 has
    exactly one of [is_win], [is_draw], [is_loss] equal to 1, the others 0:
    [is_win] iff [points = 3], [is_draw] iff [points = 1], [is_loss] iff
    [points = 0], and the three flags sum to 1. *)
Theorem outcome_flags_exclusive (df : list Row) (m : MatchRecord) :
  In m (add_calculated_columns df) ->
  points m = 3 \/ points m = 1 \/ points m = 0 ->
  (is_win m = 1 <-> points m = 3)
  /\ (is_draw m = 1 <-> points m = 1)
  /\ (is_loss m = 1 <-> points m = 0)
  /\ (is_win m = 0 \/ is_win m = 1)
  /\ (is_draw m = 0 \/ is_draw m = 1)
  /\ (is_loss m = 0 \/ is_loss m = 1)
  /\ is_win m + is_draw m + is_loss m = 1.
Proof.
  unfold add_calculated_columns.
  intros Hin Hp.
  apply in_map_iff in Hin.
  destruct Hin as [r [<- _]].
  cbn [is_win is_draw is_loss base add_calculated_columns_row points] in *.
  destruct Hp as [H | [H | H]]; rewrite H; cbn;
    repeat split; intros; try reflexivity; try discriminate; auto.
Qed.

Lemma outcome_flags_exclusive_witness :
  let df := [ Samples.row "Team X" "2024-2025" "Home" 1 3 2 0 10 50 1 0 ] in
  let m := Samples.record "Team X" "2024-2025" "Home" 1 3 2 0 10 50 1 0 in
  In m (add_calculated_columns df)
  /\ is_win m + is_draw m + is_loss m = 1.
Proof.
  split.
  - left. reflexivity.
  - apply (outcome_flags_exclusive
             [ Samples.row "Team X" "2024-2025" "Home" 1 3 2 0 10 50 1 0 ]).
    + left. reflexivity.
    + left. reflexivity.
Defined.

(** ** Possession buckets *)

(** C2: the label the normaliser stores follows the right-closed bins
    [(0,45]], [(45,55]], [(55,100]] of [pd.cut]: a possession of 45 is
    labelled Low, 55 is labelled Medium and 0 receives no label, while
    the filters of [get_possession_effectiveness] put 45 in the medium
    subset, 55 in the high subset and 0 in the low subset. *)
Theorem possession_category_boundaries :
  let at_poss p := Samples.record "Team X" "2024-2025" "Home" 1 3 2 0 10 p 1 0 in
  possession_category (at_poss 45%Q) = Some "Low (<45%)"%string
  /\ possession_category (at_poss 55%Q) = Some "Medium (45-55%)"%string
  /\ possession_category (at_poss 0%Q) = None
  /\ Possession.medium_poss [at_poss 45%Q] = [at_poss 45%Q]
  /\ Possession.high_poss [at_poss 55%Q] = [at_poss 55%Q]
  /\ Possession.low_poss [at_poss 0%Q] = [at_poss 0%Q].
Proof.
  repeat split; reflexivity.
Qed.

(** The bins of [possession_category] in general. *)
Lemma possession_category_bins (r : Row) :
  let p := possession_pct r in
  let label := possession_category (add_calculated_columns_row r) in
  ((0 < p /\ p <= 45)%Q -> label = Some "Low (<45%)"%string)
  /\ ((45 < p /\ p <= 55)%Q -> label = Some "Medium (45-55%)"%string)
  /\ ((55 < p /\ p <= 100)%Q -> label = Some "High (>55%)"%string)
  /\ ((p <= 0 \/ 100 < p)%Q -> label = None).
Proof.
  cbv zeta. cbn [possession_category add_calculated_columns_row].
  unfold possession_bins, possession_labels, pd_cut, Qltb.
  set (p := possession_pct r).
  assert (Hle : forall a b : Q, (a <= b)%Q -> Qle_bool a b = true)
    by (intros a b; apply Qle_bool_iff).
  assert (Hgt : forall a b : Q, (b < a)%Q -> Qle_bool a b = false).
  { intros a b Hab. destruct (Qle_bool a b) eqn:E; [ | reflexivity ].
    apply Qle_bool_iff in E. exfalso. exact (Qlt_not_le _ _ Hab E). }
  repeat split.
  - intros [H1 H2]. rewrite (Hgt _ _ H1), (Hle _ _ H2). reflexivity.
  - intros [H1 H2].
    assert (H0 : (0 < p)%Q) by (eapply Qlt_trans; [ | exact H1 ]; reflexivity).
    rewrite (Hgt _ _ H0), (Hgt _ _ H1), (Hle _ _ H2). reflexivity.
  - intros [H1 H2].
    assert (H45 : (45 < p)%Q) by (eapply Qlt_trans; [ | exact H1 ]; reflexivity).
    assert (H0 : (0 < p)%Q) by (eapply Qlt_trans; [ | exact H45 ]; reflexivity).
    rewrite (Hgt _ _ H0), (Hgt _ _ H45), (Hgt _ _ H1), (Hle _ _ H2). reflexivity.
  - intros [H | H].
    + rewrite (Hle _ _ H).
      assert (H45 : (p <= 45)%Q) by (eapply Qle_trans; [ exact H | discriminate ]).
      assert (H55 : (p <= 55)%Q) by (eapply Qle_trans; [ exact H | discriminate ]).
      rewrite (Hle _ _ H45), (Hle _ _ H55). reflexivity.
    + assert (H55 : (55 < p)%Q) by (eapply Qlt_trans; [ | exact H ]; reflexivity).
      assert (H45 : (45 < p)%Q) by (eapply Qlt_trans; [ | exact H55 ]; reflexivity).
      assert (H0 : (0 < p)%Q) by (eapply Qlt_trans; [ | exact H45 ]; reflexivity).
      rewrite (Hgt _ _ H0), (Hgt _ _ H45), (Hgt _ _ H55), (Hgt _ _ H). reflexivity.
Qed.

(** ** Empty team subsets *)

(** C8: on a frame without rows the attacking, defensive and possession
    engines return their full key set with [matches = 0] and every value
    0, and the season summary, set-piece, shot-quality, shot-outcome and
    possession-effectiveness functions return the empty map. *)
Theorem empty_subset_metrics :
  let zero (kv : string * value) := to_float (snd kv) = of_int 0 in
  (keys (Attacking.get_attacking_metrics []) =
     [ "matches"; "total_goals"; "total_xg"; "goals_per_game"; "xg_per_game";
       "xg_overperformance"; "xg_overperformance_per_game";
       "shot_conversion_pct"; "shots_on_target_pct";
       "big_chance_conversion_pct"; "shots_per_game";
       "shots_on_target_per_game"; "big_chances_per_game"; "xgot_per_game";
       "shots_inside_box_pct"; "total_big_chances";
       "total_big_chances_missed" ]%string
   /\ dict_lookup (Attacking.get_attacking_metrics []) "matches" = Some (VInt 0)
   /\ Forall zero (Attacking.get_attacking_metrics []))
  /\ (keys (Defensive.get_defensive_metrics []) =
        [ "matches"; "total_goals_conceded"; "goals_conceded_per_game";
          "clean_sheets"; "clean_sheet_pct"; "tackles_per_game";
          "interceptions_per_game"; "blocks_per_game"; "clearances_per_game";
          "defensive_actions_per_game"; "saves_per_game"; "total_tackles";
          "total_interceptions"; "total_blocks"; "total_clearances" ]%string
      /\ dict_lookup (Defensive.get_defensive_metrics []) "matches" = Some (VInt 0)
      /\ Forall zero (Defensive.get_defensive_metrics []))
  /\ (keys (Possession.get_possession_metrics []) =
        [ "matches"; "avg_possession"; "passes_per_game"; "pass_accuracy_pct";
          "opp_half_passes_per_game"; "own_half_passes_per_game";
          "long_ball_accuracy_pct"; "cross_accuracy_pct";
          "touches_in_box_per_game"; "corners_per_game";
          "successful_dribbles_per_game"; "total_passes";
          "total_corners" ]%string
      /\ dict_lookup (Possession.get_possession_metrics []) "matches" = Some (VInt 0)
      /\ Forall zero (Possession.get_possession_metrics []))
  /\ Aggregators.get_season_summary [] = []
  /\ Attacking.get_set_piece_metrics [] = []
  /\ Attacking.get_shot_quality_metrics [] = []
  /\ Attacking.get_shot_outcome_breakdown [] = []
  /\ Possession.get_possession_effectiveness [] = [].
Proof.
  cbv zeta.
  repeat split; try reflexivity;
    repeat (apply Forall_cons; [ reflexivity | ]); apply Forall_nil.
Qed.

(** ** Recent form *)




Lemma tail_nonneg (n : Z) (df : DataFrame) :
  0 <= n -> tail n df = skipn (List.length df - Z.to_nat n) df.
Proof.
  intro H. unfold tail.
  destruct (0 <=? n) eqn:E; [ reflexivity | ].
  apply Z.leb_gt in E. lia.
Qed.



(** ** Safe division *)

Lemma Qis_zero_inject_Z (z : Z) : Qis_zero (inject_Z z) = (z =? 0).
Proof. reflexivity. Qed.

Lemma Qis_zero_iff (q : Q) : Qis_zero q = true <-> (q == 0)%Q.
Proof.
  unfold Qis_zero, Qeq. simpl. rewrite Z.eqb_eq. lia.
Qed.

Lemma Qltb_iff (a b : Q) : Qltb a b = true <-> (a < b)%Q.
Proof.
  unfold Qltb. rewrite negb_true_iff. split.
  - intro H. apply Qnot_le_lt. intro Hle.
    apply Qle_bool_iff in Hle. congruence.
  - intro H. destruct (Qle_bool b a) eqn:E; [ | reflexivity ].
    apply Qle_bool_iff in E. exfalso. exact (Qlt_not_le _ _ H E).
Qed.

Lemma Qltb_zero_not_zero (q : Q) : Qltb 0 q = true -> Qis_zero q = false.
Proof.
  intro H. apply Qltb_iff in H.
  destruct (Qis_zero q) eqn:E; [ | reflexivity ].
  apply Qis_zero_iff in E. rewrite E in H. discriminate H.
Qed.

Lemma Qltb_zero_of_zero (q : Q) : (q == 0)%Q -> Qltb 0 q = false.
Proof.
  intro H. destruct (Qltb 0 q) eqn:E; [ | reflexivity ].
  apply Qltb_iff in E. rewrite H in E. discriminate E.
Qed.

Lemma fdiv_finite (p q : Q) :
  Qis_zero q = false -> fdiv (FFinite p) (FFinite q) = FFinite (p / q).
Proof.
  intro H. unfold fdiv. rewrite H. reflexivity.
Qed.

Lemma fdiv_of_int (p : Q) (z : Z) :
  z <> 0 -> fdiv (FFinite p) (of_int z) = FFinite (p / inject_Z z).
Proof.
  intro H. apply fdiv_finite. rewrite Qis_zero_inject_Z. now apply Z.eqb_neq.
Qed.

Lemma fdiv_of_int_finite (p : Q) (z : Z) :
  z <> 0 -> finite (fdiv (FFinite p) (of_int z)) = true.
Proof.
  intro H. rewrite fdiv_of_int by exact H. reflexivity.
Qed.

Lemma pct_of_nonzero (n d : Z) :
  d <> 0 -> pct_of n d = FFinite (inject_Z n / inject_Z d * inject_Z 100).
Proof.
  intro H. unfold pct_of.
  change (of_int n) with (FFinite (inject_Z n)).
  rewrite fdiv_of_int by exact H.
  reflexivity.
Qed.

Lemma pyround_finite (n : nat) (x : pyfloat) : finite (pyround n x) = finite x.
Proof. destruct x; reflexivity. Qed.

Lemma len_zero_iff (df : DataFrame) : len df = 0 <-> df = [].
Proof.
  unfold len. destruct df; simpl; split; intro H; try reflexivity; discriminate.
Qed.

Lemma len_pos (df : DataFrame) : df <> [] -> 0 < len df.
Proof.
  unfold len. destruct df; [ congruence | simpl; lia ].
Qed.

(** A guarded quotient over the match count: 0 on the empty frame, a
    finite value otherwise. *)
Lemma per_game_finite (num : Q) (df : DataFrame) :
  finite (if len df =? 0 then of_int 0 else fdiv (FFinite num) (of_int (len df))) = true.
Proof.
  destruct (len df =? 0) eqn:E; [ reflexivity | ].
  apply Z.eqb_neq in E. rewrite fdiv_of_int by exact E. reflexivity.
Qed.

Lemma rate_finite (num total : Z) :
  finite (if total =? 0 then of_int 0 else pct_of num total) = true.
Proof.
  destruct (total =? 0) eqn:E; [ reflexivity | ].
  apply Z.eqb_neq in E. rewrite pct_of_nonzero by exact E. reflexivity.
Qed.

Lemma np_where_pos_finite (num den : Z) :
  finite (np_where (0 <? den) (pct_of num den) (of_int 0)) = true.
Proof.
  unfold np_where. destruct (0 <? den) eqn:E; [ | reflexivity ].
  apply Z.ltb_lt in E. rewrite pct_of_nonzero by lia. reflexivity.
Qed.

Lemma guarded_pct_cases (a b : Q) :
  (Qltb 0 b = true
   /\ Attacking.guarded_pct (FFinite a) (FFinite b)
      = VFloat (FFinite (Qround_to 1 (a / b * inject_Z 100))))
  \/ (Qltb 0 b = false
      /\ Attacking.guarded_pct (FFinite a) (FFinite b) = VInt 0).
Proof.
  unfold Attacking.guarded_pct, fgtb, of_int. cbn [fltb].
  change (inject_Z 0) with 0%Q.
  destruct (Qltb 0 b) eqn:E; [ left | right ]; split; try reflexivity.
  rewrite fdiv_finite by (apply Qltb_zero_not_zero; exact E).
  reflexivity.
Qed.

Lemma guarded_pct_finite (a b : Q) :
  finite (to_float (Attacking.guarded_pct (FFinite a) (FFinite b))) = true.
Proof.
  destruct (guarded_pct_cases a b) as [[_ ->] | [_ ->]]; reflexivity.
Qed.

Lemma guarded_pct_zero_den (a b : Q) :
  (b == 0)%Q -> Attacking.guarded_pct (FFinite a) (FFinite b) = VInt 0.
Proof.
  intro H. destruct (guarded_pct_cases a b) as [[E _] | [_ ->]]; [ | reflexivity ].
  rewrite (Qltb_zero_of_zero b H) in E. discriminate E.
Qed.

(** Evaluates the key comparisons of a lookup in a dictionary literal. *)
Ltac eval_key_tests :=
  repeat match goal with
         | |- context [String.eqb ?a ?b] =>
             let v := eval vm_compute in (String.eqb a b) in
             change (String.eqb a b) with v; cbv iota
         end.

Ltac lookup_literal := cbn [dict_lookup]; eval_key_tests.

Lemma normalised_zero_shots (r : Row) :
  Total_shots r = 0 ->
  Forall (fun x => x = of_int 0) (shot_rates (add_calculated_columns_row r)).
Proof.
  intro H. unfold shot_rates.
  cbn [add_calculated_columns_row shot_conversion_pct shots_on_target_pct
       shots_inside_box_pct xg_per_shot woodwork_rate blocked_shot_rate
       shots_off_target_rate].
  rewrite H. cbn [Z.ltb Z.compare np_where].
  repeat (apply Forall_cons; [ reflexivity | ]). apply Forall_nil.
Qed.

Lemma normalised_zero_xg (r : Row) :
  (Expected_goals_xG r == 0)%Q ->
  xg_open_play_ratio (add_calculated_columns_row r) = of_int 0
  /\ xg_set_play_ratio (add_calculated_columns_row r) = of_int 0.
Proof.
  intro H. cbn [add_calculated_columns_row xg_open_play_ratio xg_set_play_ratio].
  rewrite (Qltb_zero_of_zero _ H). split; reflexivity.
Qed.

Lemma normalised_rates_finite (r : Row) :
  Forall (fun x => finite x = true) (row_rates (add_calculated_columns_row r)).
Proof.
  unfold row_rates.
  cbn [add_calculated_columns_row shot_conversion_pct shots_on_target_pct
       big_chance_conversion_pct shots_inside_box_pct opp_half_passes_pct
       xg_open_play_ratio xg_set_play_ratio xg_per_shot woodwork_rate
       blocked_shot_rate shots_off_target_rate].
  assert (Hxg : forall p : Q,
             finite (np_where (Qltb 0 (Expected_goals_xG r))
                       (fdiv (FFinite p) (FFinite (Expected_goals_xG r)))
                       (of_int 0)) = true).
  { intro p. unfold np_where.
    destruct (Qltb 0 (Expected_goals_xG r)) eqn:E; [ | reflexivity ].
    rewrite fdiv_finite by (apply Qltb_zero_not_zero; exact E). reflexivity. }
  assert (Hshot : finite (np_where (0 <? Total_shots r)
                            (fdiv (FFinite (Expected_goals_xG r)) (of_int (Total_shots r)))
                            (of_int 0)) = true).
  { unfold np_where. destruct (0 <? Total_shots r) eqn:E; [ | reflexivity ].
    apply Z.ltb_lt in E. rewrite fdiv_of_int by lia. reflexivity. }
  repeat (apply Forall_cons;
          [ first [ apply np_where_pos_finite | apply Hxg | exact Hshot ] | ]).
  apply Forall_nil.
Qed.

Lemma per_game_averages_empty :
  Forall (fun x => x = of_int 0) (per_game_averages []).
Proof.
  unfold per_game_averages.
  repeat (apply Forall_cons; [ reflexivity | ]). apply Forall_nil.
Qed.

Lemma meanQ_nonempty (col : MatchRecord -> Q) (df : DataFrame) :
  len df <> 0 -> meanQ col df = FFinite (sumQ col df / inject_Z (len df)).
Proof.
  intro H. unfold meanQ. apply fdiv_of_int. exact H.
Qed.

Lemma mean_pct_finite (col : MatchRecord -> Q) (df : DataFrame) :
  finite (if len df =? 0 then of_int 0 else fmul (meanQ col df) (of_int 100)) = true.
Proof.
  destruct (len df =? 0) eqn:E; [ reflexivity | ].
  apply Z.eqb_neq in E. rewrite meanQ_nonempty by exact E. reflexivity.
Qed.

Lemma guarded_pos_finite (num : Z) (sub : DataFrame) :
  finite (if 0 <? len sub then fdiv (of_int num) (of_int (len sub)) else of_int 0) = true.
Proof.
  destruct (0 <? len sub) eqn:E; [ | reflexivity ].
  apply Z.ltb_lt in E. unfold of_int at 1. rewrite fdiv_of_int by lia. reflexivity.
Qed.

Lemma win_rate_finite (sub : DataFrame) : finite (Possession.win_rate sub) = true.
Proof.
  unfold Possession.win_rate.
  destruct (0 <? len sub) eqn:E; [ | reflexivity ].
  apply Z.ltb_lt in E. rewrite pct_of_nonzero by lia. reflexivity.
Qed.

Lemma per_game_averages_finite (df : DataFrame) :
  Forall (fun x => finite x = true) (per_game_averages df).
Proof.
  unfold per_game_averages.
  repeat apply Forall_cons; try apply Forall_nil;
    try first [ apply per_game_finite
              | apply rate_finite
              | apply mean_pct_finite
              | apply guarded_pos_finite
              | apply win_rate_finite ].
Qed.

Lemma shot_total_rates_zero (df : DataFrame) :
  sumZ Total_shots df = 0 ->
  Forall (fun x => x = of_int 0) (shot_total_rates df).
Proof.
  intro H. unfold shot_total_rates, Attacking.shot_conversion_rate,
    Attacking.shots_on_target_rate, Attacking.shots_inside_box_rate.
  rewrite H. cbn [Z.eqb].
  repeat apply Forall_cons; try apply Forall_nil; reflexivity.
Qed.

Lemma shot_quality_zero_shots (df : DataFrame) :
  df <> [] -> sumZ Total_shots df = 0 ->
  Forall (fun k => dict_lookup (Attacking.get_shot_quality_metrics df) k = Some (VInt 0))
    shot_quality_rate_keys.
Proof.
  intros Hne H. unfold Attacking.get_shot_quality_metrics.
  destruct (len df =? 0) eqn:E.
  { apply Z.eqb_eq, len_zero_iff in E. contradiction. }
  rewrite H. unfold shot_quality_rate_keys.
  repeat apply Forall_cons; try apply Forall_nil; lookup_literal; reflexivity.
Qed.

Lemma shot_outcome_zero_shots (df : DataFrame) :
  sumZ Total_shots df = 0 ->
  Forall (fun e : string * dict => dict_lookup (snd e) "pct" = Some (VInt 0))
    (Attacking.get_shot_outcome_breakdown df).
Proof.
  intro H. unfold Attacking.get_shot_outcome_breakdown.
  destruct (len df =? 0); [ apply Forall_nil | ].
  rewrite H.
  repeat apply Forall_cons; try apply Forall_nil; reflexivity.
Qed.

Lemma set_piece_zero_xg (df : DataFrame) :
  df <> [] -> (sumQ Expected_goals_xG df == 0)%Q ->
  dict_lookup (Attacking.get_set_piece_metrics df) "set_piece_xg_pct" = Some (VInt 0)
  /\ dict_lookup (Attacking.get_set_piece_metrics df) "open_play_xg_pct" = Some (VInt 0).
Proof.
  intros Hne H. unfold Attacking.get_set_piece_metrics.
  destruct (len df =? 0) eqn:E.
  { apply Z.eqb_eq, len_zero_iff in E. contradiction. }
  split; lookup_literal; rewrite guarded_pct_zero_den by exact H; reflexivity.
Qed.

Lemma set_piece_zero_corners (df : DataFrame) :
  df <> [] -> sumZ Corners df = 0 ->
  dict_lookup (Attacking.get_set_piece_metrics df) "xg_per_corner" = Some (VInt 0).
Proof.
  intros Hne H. unfold Attacking.get_set_piece_metrics.
  destruct (len df =? 0) eqn:E.
  { apply Z.eqb_eq, len_zero_iff in E. contradiction. }
  lookup_literal. rewrite H. reflexivity.
Qed.

(** *** The metrics maps hold finite numbers only *)

Ltac finite_values :=
  repeat apply Forall_cons; try apply Forall_nil;
  cbn [snd to_float]; rewrite ?pyround_finite;
  try reflexivity;
  try first [ apply per_game_finite
            | apply rate_finite
            | apply mean_pct_finite
            | apply guarded_pos_finite
            | apply win_rate_finite
            | apply guarded_pct_finite ].

Lemma attacking_metrics_finite (df : DataFrame) :
  all_finite (Attacking.get_attacking_metrics df).
Proof.
  unfold all_finite, Attacking.get_attacking_metrics. finite_values.
Qed.

Lemma defensive_metrics_finite (df : DataFrame) :
  all_finite (Defensive.get_defensive_metrics df).
Proof.
  unfold all_finite, Defensive.get_defensive_metrics. finite_values.
Qed.

Lemma possession_metrics_finite (df : DataFrame) :
  all_finite (Possession.get_possession_metrics df).
Proof.
  unfold all_finite, Possession.get_possession_metrics. finite_values.
Qed.

Lemma set_piece_metrics_finite (df : DataFrame) :
  all_finite (Attacking.get_set_piece_metrics df).
Proof.
  unfold all_finite, Attacking.get_set_piece_metrics.
  destruct (len df =? 0) eqn:E; [ apply Forall_nil | ].
  apply Z.eqb_neq in E.
  finite_values; try (apply fdiv_of_int_finite; exact E).
  destruct (0 <? sumZ Corners df) eqn:C; [ | reflexivity ].
  apply Z.ltb_lt in C. cbn [to_float]. rewrite pyround_finite.
  apply fdiv_of_int_finite. lia.
Qed.

Lemma shot_quality_metrics_finite (df : DataFrame) :
  all_finite (Attacking.get_shot_quality_metrics df).
Proof.
  unfold all_finite, Attacking.get_shot_quality_metrics.
  destruct (len df =? 0) eqn:E; [ apply Forall_nil | ].
  finite_values.
  destruct (0 <? sumZ Total_shots df) eqn:C; [ | reflexivity ].
  apply Z.ltb_lt in C. cbn [to_float]. rewrite pyround_finite.
  apply fdiv_of_int_finite. lia.
Qed.

Lemma fsub_finite (x y : pyfloat) :
  finite x = true -> finite y = true -> finite (fsub x y) = true.
Proof.
  destruct x, y; simpl; intros; try discriminate; reflexivity.
Qed.

Lemma ppg_finite (sub : DataFrame) : finite (Possession.ppg sub) = true.
Proof.
  unfold Possession.ppg. apply guarded_pos_finite.
Qed.

Lemma Qis_zero_mult_pos (a : Q) (z : Z) :
  Qltb 0 a = true -> z <> 0 -> Qis_zero (a * inject_Z z) = false.
Proof.
  intros Ha Hz. apply Qltb_zero_not_zero in Ha.
  unfold Qis_zero in *. cbn [Qnum Qmult inject_Z].
  apply Z.eqb_neq in Ha. apply Z.eqb_neq. nia.
Qed.

Lemma possession_effectiveness_finite (df : DataFrame) :
  all_finite (Possession.get_possession_effectiveness df).
Proof.
  unfold all_finite, Possession.get_possession_effectiveness.
  destruct (len df =? 0) eqn:E; [ apply Forall_nil | ].
  apply Z.eqb_neq in E.
  rewrite (meanQ_nonempty possession_pct df E).
  finite_values; try apply ppg_finite.
  - unfold fgtb, of_int. cbn [fltb]. change (inject_Z 0) with 0%Q.
    destruct (Qltb 0 (sumQ possession_pct df / inject_Z (len df))) eqn:C;
      [ | reflexivity ].
    cbn [fmul]. rewrite fdiv_finite by (apply Qis_zero_mult_pos; assumption).
    reflexivity.
  - unfold fgtb, of_int. cbn [fltb]. change (inject_Z 0) with 0%Q.
    destruct (Qltb 0 (sumQ Expected_goals_xG df)) eqn:C; [ | reflexivity ].
    rewrite fdiv_finite by (apply Qltb_zero_not_zero; exact C).
    reflexivity.
  - apply fsub_finite; apply ppg_finite.
Qed.

Lemma side_split_finite (df : DataFrame) :
  all_finite (Aggregators.side_split df).
Proof.
  unfold all_finite, Aggregators.side_split.
  finite_values.
  - destruct (0 <? len df) eqn:C; [ | reflexivity ].
    apply Z.ltb_lt in C. cbn [to_float]. rewrite pyround_finite.
    apply fdiv_of_int_finite. lia.
  - destruct (0 <? len df) eqn:C; [ | reflexivity ].
    apply Z.ltb_lt in C. cbn [to_float]. rewrite pyround_finite.
    apply fdiv_of_int_finite. lia.
Qed.

Lemma dict_set_finite (d : dict) (k : string) (v : value) :
  all_finite d -> finite (to_float v) = true ->
  all_finite (Aggregators.dict_set d k v).
Proof.
  unfold all_finite. intros Hd Hv.
  induction d as [ | [k' v'] d IH ]; cbn [Aggregators.dict_set].
  - apply Forall_cons; [ exact Hv | apply Forall_nil ].
  - inversion Hd as [ | ? ? Hhd Htl ]; subst.
    destruct (String.eqb k k').
    + apply Forall_cons; [ exact Hv | exact Htl ].
    + apply Forall_cons; [ exact Hhd | apply IH; exact Htl ].
Qed.

Lemma dict_update_finite (d d' : dict) :
  all_finite d -> all_finite d' -> all_finite (Aggregators.dict_update d d').
Proof.
  unfold Aggregators.dict_update. intros Hd Hd'. revert d Hd.
  induction Hd' as [ | [k v] d' Hv Hd' IH ]; intros d Hd; cbn [fold_left].
  - exact Hd.
  - apply IH. apply dict_set_finite; assumption.
Qed.

Lemma season_summary_finite (df : DataFrame) :
  all_finite (Aggregators.get_season_summary df).
Proof.
  unfold Aggregators.get_season_summary.
  destruct (len df =? 0) eqn:E; [ apply Forall_nil | ].
  apply Z.eqb_neq in E.
  repeat apply dict_update_finite;
    try apply attacking_metrics_finite;
    try apply defensive_metrics_finite;
    try apply possession_metrics_finite.
  unfold all_finite. finite_values.
  apply fdiv_of_int_finite. exact E.
Qed.

(** C1: every derived rate of the normaliser and of the metrics engines
    is 0 when its denominator (shots, big chances, passes, xG, corners or
    match count) is 0, whatever the numerator, and is a finite number for
    every input: no division yields an infinity or nan.  On a frame
    without rows the set-piece and shot-quality maps are empty, so the
    statements about their entries are for a frame with rows. *)
Theorem safe_division (r : Row) (df : DataFrame) :
  let m := add_calculated_columns_row r in
  let zero (x : pyfloat) := x = of_int 0 in
  let is_finite (x : pyfloat) := finite x = true in
  (* a normalised record *)
  (Total_shots r = 0 -> Forall zero (shot_rates m))
  /\ (Big_chances r = 0 -> zero (big_chance_conversion_pct m))
  /\ (Passes r = 0 -> zero (opp_half_passes_pct m))
  /\ ((Expected_goals_xG r == 0)%Q ->
      zero (xg_open_play_ratio m) /\ zero (xg_set_play_ratio m))
  /\ Forall is_finite (row_rates m)
  (* the engines *)
  /\ (sumZ Total_shots df = 0 ->
      Forall zero (shot_total_rates df)
      /\ Forall (fun e : string * dict => dict_lookup (snd e) "pct" = Some (VInt 0))
           (Attacking.get_shot_outcome_breakdown df)
      /\ (df <> [] ->
          Forall (fun k => dict_lookup (Attacking.get_shot_quality_metrics df) k
                           = Some (VInt 0)) shot_quality_rate_keys))
  /\ (sumZ Big_chances df = 0 -> zero (Attacking.big_chance_conversion_rate df))
  /\ ((sumQ Expected_goals_xG df == 0)%Q -> df <> [] ->
      dict_lookup (Attacking.get_set_piece_metrics df) "set_piece_xg_pct" = Some (VInt 0)
      /\ dict_lookup (Attacking.get_set_piece_metrics df) "open_play_xg_pct" = Some (VInt 0))
  /\ (sumZ Corners df = 0 -> df <> [] ->
      dict_lookup (Attacking.get_set_piece_metrics df) "xg_per_corner" = Some (VInt 0))
  /\ (len df = 0 ->
      Forall zero (per_game_averages df)
      /\ dict_lookup (Aggregators.side_split df) "points_per_game" = Some (VInt 0)
      /\ dict_lookup (Aggregators.side_split df) "avg_possession" = Some (VInt 0))
  /\ Forall is_finite (per_game_averages df)
  /\ Forall is_finite (shot_total_rates df)
  /\ is_finite (Attacking.big_chance_conversion_rate df)
  /\ all_finite (Attacking.get_attacking_metrics df)
  /\ all_finite (Attacking.get_set_piece_metrics df)
  /\ all_finite (Attacking.get_shot_quality_metrics df)
  /\ all_finite (Defensive.get_defensive_metrics df)
  /\ all_finite (Possession.get_possession_metrics df)
  /\ all_finite (Possession.get_possession_effectiveness df)
  /\ all_finite (Aggregators.side_split df)
  /\ all_finite (Aggregators.get_season_summary df).
Proof.
  intros m zero is_finite. unfold zero, is_finite.
  split; [ apply normalised_zero_shots | ].
  split.
  { intro H. unfold m.
    cbn [add_calculated_columns_row big_chance_conversion_pct].
    rewrite H. reflexivity. }
  split.
  { intro H. unfold m.
    cbn [add_calculated_columns_row opp_half_passes_pct].
    rewrite H. reflexivity. }
  split; [ apply normalised_zero_xg | ].
  split; [ apply normalised_rates_finite | ].
  split.
  { intro H. split; [ apply shot_total_rates_zero; exact H | ].
    split; [ apply shot_outcome_zero_shots; exact H | ].
    intro Hne. apply shot_quality_zero_shots; assumption. }
  split.
  { intro H. unfold Attacking.big_chance_conversion_rate. rewrite H. reflexivity. }
  split; [ intros H Hne; apply set_piece_zero_xg; assumption | ].
  split; [ intros H Hne; apply set_piece_zero_corners; assumption | ].
  split.
  { intro H. apply len_zero_iff in H. subst df.
    split; [ apply per_game_averages_empty | split; reflexivity ]. }
  split; [ apply per_game_averages_finite | ].
  split.
  { unfold shot_total_rates.
    repeat apply Forall_cons; try apply Forall_nil; apply rate_finite. }
  split; [ apply rate_finite | ].
  split; [ apply attacking_metrics_finite | ].
  split; [ apply set_piece_metrics_finite | ].
  split; [ apply shot_quality_metrics_finite | ].
  split; [ apply defensive_metrics_finite | ].
  split; [ apply possession_metrics_finite | ].
  split; [ apply possession_effectiveness_finite | ].
  split; [ apply side_split_finite | apply season_summary_finite ].
Qed.

Lemma safe_division_witness :
  let r := Samples.row "Team X" "2024-2025" "Home" 1 0 3 0 0 50 0 0 in
  let m := add_calculated_columns_row r in
  (Total_shots r = 0 /\ shot_conversion_pct m = of_int 0)
  /\ ((Expected_goals_xG r == 0)%Q /\ xg_set_play_ratio m = of_int 0)
  /\ (sumZ Total_shots [m] = 0 /\ Attacking.shot_conversion_rate [m] = of_int 0)
  /\ (sumZ Corners [m] = 0 /\ [m] <> []
      /\ dict_lookup (Attacking.get_set_piece_metrics [m]) "xg_per_corner" = Some (VInt 0))
  /\ (len [] = 0 /\ Attacking.goals_per_game [] = of_int 0).
Proof.
  intros r m.
  pose proof (safe_division r [m]) as H1.
  pose proof (safe_division r []) as H0.
  cbv zeta in H1, H0.
  destruct H1 as (Hshots & _ & _ & Hxg & _ & Htot & _ & _ & Hcorners & _).
  destruct H0 as (_ & _ & _ & _ & _ & _ & _ & _ & _ & Hlen & _).
  split.
  { split; [ reflexivity | ].
    specialize (Hshots eq_refl). inversion Hshots; assumption. }
  split.
  { split; [ reflexivity | ]. apply Hxg. reflexivity. }
  split.
  { split; [ reflexivity | ].
    destruct (Htot eq_refl) as [Hrates _]. inversion Hrates; assumption. }
  split.
  { split; [ reflexivity | ]. split; [ discriminate | ].
    apply Hcorners; [ reflexivity | discriminate ]. }
  split; [ reflexivity | ].
  destruct (Hlen eq_refl) as [Havg _]. inversion Havg; assumption.
Defined.

(** ** Counter-attack rule *)

Lemma counter_attack_rule_condition (df : DataFrame) (team_name : string) :
  df <> [] ->
  let low := Possession.ppg (Possession.low_poss df) in
  let high := Possession.ppg (Possession.high_poss df) in
  Possession.counter_attack_rule (Possession.get_possession_effectiveness df) team_name
  = if fgtb high low then Ok []
    else Ok [ {| title := "Counter-Attack Style More Effective";
                 finding := [ Txt team_name; Txt " earns ";
                              Num (VFloat (pyround 2 low));
                              Txt " PPG with low possession vs ";
                              Num (VFloat (pyround 2 high));
                              Txt " PPG with high possession" ];
                 action := "Consider tactical shift towards counter-attacking style";
                 severity := "high" |} ].
Proof.
  intros Hne low high.
  unfold Possession.counter_attack_rule, Possession.get_possession_effectiveness.
  destruct (len df =? 0) eqn:E.
  { apply Z.eqb_eq, len_zero_iff in E. contradiction. }
  unfold dict_get, dict_index. lookup_literal.
  cbn [truthy]. fold low high.
  destruct (fgtb high low); reflexivity.
Qed.

(** C4: a team whose only match was played with 50% possession has no
    low-possession and no high-possession match, so both points-per-game
    figures are 0; the rule tests [not (high > low)] and emits the
    high-severity counter-attack finding on this tie. *)
Theorem counter_attack_emitted_on_tie :
  let df := Samples.one_medium_match in
  Possession.ppg (Possession.low_poss df) = of_int 0
  /\ Possession.ppg (Possession.high_poss df) = of_int 0
  /\ Possession.get_possession_tactical_insights df df "Team X" "Team Y"
     = Ok [ {| title := "Counter-Attack Style More Effective";
               finding := [ Txt "Team X"; Txt " earns "; Num (VFloat (FFinite 0));
                            Txt " PPG with low possession vs ";
                            Num (VFloat (FFinite 0));
                            Txt " PPG with high possession" ];
               action := "Consider tactical shift towards counter-attacking style";
               severity := "high" |} ].
Proof.
  cbv zeta. repeat split; vm_compute; reflexivity.
Qed.

(** ** Set-piece dependency rule *)



(** On frames with rows the first rule is decided by the two displayed
    percentages alone. *)
Lemma set_piece_rule_condition (team_df comp_df : DataFrame) (tn cn : string) (pt pc : Q) :
  team_df <> [] -> comp_df <> [] ->
  displayed_set_piece_xg_pct team_df = FFinite pt ->
  displayed_set_piece_xg_pct comp_df = FFinite pc ->
  exists t c : value,
    to_float t = FFinite pt /\ to_float c = FFinite pc
    /\ Attacking.set_piece_rule (Attacking.get_set_piece_metrics team_df)
         (Attacking.get_set_piece_metrics comp_df) tn cn
       = if Qltb (pc + inject_Z 5) pt
         then Ok [ {| title := "Set Piece Dependency";
                      finding := [ Txt tn; Txt ": "; Num t;
                                   Txt "% of xG from set pieces vs "; Txt cn;
                                   Txt ": "; Num c; Txt "%" ];
                      action := "Improve open play build-up patterns and create more chances from possession";
                      severity := if Qltb (inject_Z 35) pt then "high" else "medium" |} ]
         else Ok [].
Proof.
  intros Ht Hc.
  unfold displayed_set_piece_xg_pct, Attacking.set_piece_rule,
    Attacking.get_set_piece_metrics.
  destruct (len team_df =? 0) eqn:Et.
  { apply Z.eqb_eq, len_zero_iff in Et. contradiction. }
  destruct (len comp_df =? 0) eqn:Ec.
  { apply Z.eqb_eq, len_zero_iff in Ec. contradiction. }
  unfold dict_get, dict_index. lookup_literal.
  intros Hpt Hpc. rewrite Hpt, Hpc.
  eexists. eexists.
  split; [ exact Hpt | ]. split; [ exact Hpc | ].
  cbn [bind fgtb fadd fltb of_int].
  rewrite Hpt. cbn [fltb].
  reflexivity.
Qed.







(** The three cases of the specification, and a gap of exactly 5. *)
Example set_piece_rule_examples :
  let insights t c :=
    Attacking.get_tactical_insights (Samples.set_piece_team "Team X" t)
      (Samples.set_piece_team "Team Y" c) "Team X" "Team Y" in
  severity_of "Set Piece Dependency" (insights 40 30) = Some "high"%string
  /\ severity_of "Set Piece Dependency" (insights 36 29) = Some "high"%string
  /\ severity_of "Set Piece Dependency" (insights 33 27) = Some "medium"%string
  /\ severity_of "Set Piece Dependency" (insights 33 28) = None
  /\ insights 33 28 <> Raise KeyError.
Proof.
  cbv zeta. repeat split; try (vm_compute; reflexivity).
  vm_compute. discriminate.
Qed.

(** ** Percentage-annotated counts *)

Section ParsePercentage.
Import Str.













End ParsePercentage.




(** Text that reads as an infinity is not caught by the handler. *)
Example parse_percentage_string_overflow :
  Preprocessor.parse_percentage_string (Some "inf"%string) = Raise OverflowError
  /\ Preprocessor.parse_percentage_string (Some "1e400"%string) = Raise OverflowError.
Proof.
  split; vm_compute; reflexivity.
Qed.

(** ** League table *)

Section LeagueTable.
Import Aggregators.

Lemma insert_key_perm (t : string) (ks : list string) :
  Permutation (insert_key t ks) (t :: ks).
Proof.
  induction ks as [ | k ks IH ]; cbn [insert_key].
  - apply Permutation_refl.
  - destruct (String.leb t k).
    + apply Permutation_refl.
    + apply perm_trans with (k :: t :: ks).
      * apply perm_skip. exact IH.
      * apply perm_swap.
Qed.

Lemma sort_keys_perm (ks : list string) : Permutation (sort_keys ks) ks.
Proof.
  induction ks as [ | k ks IH ]; cbn [sort_keys fold_right].
  - apply Permutation_refl.
  - apply perm_trans with (k :: sort_keys ks).
    + apply insert_key_perm.
    + apply perm_skip. exact IH.
Qed.

Lemma group_keys_NoDup (df : DataFrame) : NoDup (group_keys df).
Proof.
  unfold group_keys.
  apply (Permutation_NoDup (Permutation_sym (sort_keys_perm _))).
  apply NoDup_nodup.
Qed.

Lemma group_keys_In (df : DataFrame) (team : string) :
  In team (group_keys df) <-> exists r : MatchRecord, In r df /\ Team r = team.
Proof.
  unfold group_keys. split.
  - intro H. apply (Permutation_in _ (sort_keys_perm _)) in H.
    apply nodup_In in H. apply in_map_iff in H.
    destruct H as [r [Hr Hin]]. exists r. split; assumption.
  - intros [r [Hin Hr]].
    apply (Permutation_in _ (Permutation_sym (sort_keys_perm _))).
    apply nodup_In. apply in_map_iff. exists r. split; assumption.
Qed.

Lemma insert_desc_perm (x : Standings.Row) (l : list Standings.Row) :
  Permutation (insert_desc x l) (x :: l).
Proof.
  induction l as [ | y l IH ]; cbn [insert_desc].
  - apply Permutation_refl.
  - destruct (key_gtb y x).
    + apply perm_trans with (y :: x :: l).
      * apply perm_skip. exact IH.
      * apply perm_swap.
    + apply Permutation_refl.
Qed.

Lemma sort_values_perm (l : list Standings.Row) : Permutation (sort_values l) l.
Proof.
  induction l as [ | x l IH ]; cbn [sort_values fold_right].
  - apply Permutation_refl.
  - apply perm_trans with (x :: sort_values l).
    + apply insert_desc_perm.
    + apply perm_skip. exact IH.
Qed.

Lemma key_gtb_true (a b : Standings.Row) : key_gtb a b = true -> key_ge a b.
Proof.
  unfold key_gtb, key_ge. intro H.
  repeat (apply orb_true_iff in H; destruct H as [H | H]);
    repeat (apply andb_true_iff in H; destruct H as [? H]);
    repeat match goal with
           | H : (_ <? _) = true |- _ => apply Z.ltb_lt in H
           | H : (_ =? _) = true |- _ => apply Z.eqb_eq in H
           | H : (_ || _) = true |- _ => apply orb_true_iff in H; destruct H as [H | H]
           | H : (_ && _) = true |- _ => apply andb_true_iff in H; destruct H as [? H]
           end; lia.
Qed.

Lemma key_gtb_false (a b : Standings.Row) : key_gtb a b = false -> key_ge b a.
Proof.
  unfold key_gtb, key_ge. intro H.
  apply orb_false_iff in H. destruct H as [H1 H2].
  apply Z.ltb_ge in H1.
  destruct (Standings.Points a =? Standings.Points b) eqn:E.
  - apply Z.eqb_eq in E. cbn [andb] in H2.
    apply orb_false_iff in H2. destruct H2 as [H3 H4].
    apply Z.ltb_ge in H3.
    destruct (Standings.GD a =? Standings.GD b) eqn:E2.
    + apply Z.eqb_eq in E2. cbn [andb] in H4. apply Z.ltb_ge in H4. lia.
    + apply Z.eqb_neq in E2. lia.
  - apply Z.eqb_neq in E. lia.
Qed.

Lemma key_ge_trans (a b c : Standings.Row) : key_ge a b -> key_ge b c -> key_ge a c.
Proof.
  unfold key_ge. lia.
Qed.

Lemma insert_desc_sorted (x : Standings.Row) (l : list Standings.Row) :
  StronglySorted key_ge l -> StronglySorted key_ge (insert_desc x l).
Proof.
  induction l as [ | y l IH ]; intro Hs; cbn [insert_desc].
  - apply SSorted_cons; [ apply SSorted_nil | apply Forall_nil ].
  - inversion Hs as [ | ? ? Hl Hy ]; subst.
    destruct (key_gtb y x) eqn:E.
    + apply SSorted_cons; [ apply IH; exact Hl | ].
      apply Forall_forall. intros z Hz.
      apply (Permutation_in _ (insert_desc_perm x l)) in Hz.
      destruct Hz as [<- | Hz].
      * apply key_gtb_true. exact E.
      * rewrite Forall_forall in Hy. apply Hy. exact Hz.
    + apply SSorted_cons; [ exact Hs | ].
      apply key_gtb_false in E.
      apply Forall_cons; [ exact E | ].
      apply Forall_forall. intros z Hz.
      rewrite Forall_forall in Hy.
      apply key_ge_trans with y; [ exact E | apply Hy; exact Hz ].
Qed.

Lemma sort_values_sorted (l : list Standings.Row) :
  StronglySorted key_ge (sort_values l).
Proof.
  induction l as [ | x l IH ]; cbn [sort_values fold_right].
  - apply SSorted_nil.
  - apply insert_desc_sorted. exact IH.
Qed.

Lemma number_from_unranked (i : Z) (l : list Standings.Row) :
  map unranked (number_from i l) = map unranked l.
Proof.
  revert i. induction l as [ | r l IH ]; intro i; cbn [number_from map].
  - reflexivity.
  - rewrite IH. reflexivity.
Qed.

Lemma number_from_length (i : Z) (l : list Standings.Row) :
  List.length (number_from i l) = List.length l.
Proof.
  rewrite <- (length_map unranked), number_from_unranked. apply length_map.
Qed.

Lemma number_from_positions (i : nat) (l : list Standings.Row) :
  map Standings.Position (number_from (Z.of_nat i) l)
  = map Z.of_nat (seq i (List.length l)).
Proof.
  revert i. induction l as [ | r l IH ]; intro i; cbn [number_from map List.length seq].
  - reflexivity.
  - replace (Z.of_nat i + 1) with (Z.of_nat (S i)) by lia.
    rewrite IH. reflexivity.
Qed.

End LeagueTable.

Section LeagueTableRows.
Import Aggregators.

Lemma sorted_rows_unranked (d : DataFrame) :
  map unranked (sort_values (groupby_team d)) = sort_values (groupby_team d).
Proof.
  assert (G : forall l, Forall (fun r => unranked r = r) l -> map unranked l = l).
  { induction l as [ | r l IH ]; intro H; [ reflexivity | ].
    inversion H; subst. cbn [map]. rewrite IH by assumption. congruence. }
  apply G.
  apply Forall_forall. intros r Hr.
  apply (Permutation_in _ (sort_values_perm _)) in Hr.
  unfold groupby_team in Hr. apply in_map_iff in Hr.
  destruct Hr as [t [<- _]]. reflexivity.
Qed.

Lemma calculate_unranked (df : DataFrame) (season : option string) :
  map unranked (calculate_league_position df season)
  = sort_values (groupby_team (rows_in_scope df season)).
Proof.
  unfold calculate_league_position. fold (rows_in_scope df season).
  rewrite number_from_unranked. apply sorted_rows_unranked.
Qed.

Lemma calculate_teams (df : DataFrame) (season : option string) :
  Permutation (map Standings.Team (calculate_league_position df season))
    (group_keys (rows_in_scope df season)).
Proof.
  assert (E : map Standings.Team (calculate_league_position df season)
              = map Standings.Team (map unranked (calculate_league_position df season))).
  { rewrite map_map. apply map_ext. reflexivity. }
  rewrite E, calculate_unranked.
  apply perm_trans with (map Standings.Team (groupby_team (rows_in_scope df season))).
  - apply Permutation_map. apply sort_values_perm.
  - unfold groupby_team. rewrite map_map. cbn [aggregate Standings.Team].
    rewrite map_id. apply Permutation_refl.
Qed.

Lemma calculate_rows (df : DataFrame) (season : option string) (r : Standings.Row) :
  In r (calculate_league_position df season) ->
  unranked r = aggregate (rows_in_scope df season) (Standings.Team r).
Proof.
  intro Hin.
  apply (in_map unranked) in Hin. rewrite calculate_unranked in Hin.
  apply (Permutation_in _ (sort_values_perm _)) in Hin.
  unfold groupby_team in Hin. apply in_map_iff in Hin.
  destruct Hin as [t [Ht _]].
  assert (Hteam : Standings.Team r = t).
  { apply (f_equal Standings.Team) in Ht. cbn in Ht. congruence. }
  rewrite Hteam. symmetry. exact Ht.
Qed.

Lemma key_ge_unranked (a a' b b' : Standings.Row) :
  unranked a = unranked a' -> unranked b = unranked b' ->
  key_ge a b -> key_ge a' b'.
Proof.
  intros Ha Hb. unfold key_ge.
  pose proof (f_equal Standings.Points Ha) as A1.
  pose proof (f_equal Standings.GD Ha) as A2.
  pose proof (f_equal Standings.GF Ha) as A3.
  pose proof (f_equal Standings.Points Hb) as B1.
  pose proof (f_equal Standings.GD Hb) as B2.
  pose proof (f_equal Standings.GF Hb) as B3.
  cbn in A1, A2, A3, B1, B2, B3. lia.
Qed.

Lemma key_ge_all_transfer (a a' : Standings.Row) (l l' : list Standings.Row) :
  unranked a = unranked a' -> map unranked l = map unranked l' ->
  Forall (key_ge a) l -> Forall (key_ge a') l'.
Proof.
  intros Ea. revert l'. induction l as [ | b l IH ]; intros l' El Hall.
  - destruct l'; [ apply Forall_nil | discriminate ].
  - destruct l' as [ | b' l' ]; [ discriminate | ].
    cbn [map] in El.
    assert (Eb : unranked b = unranked b') by congruence.
    assert (El' : map unranked l = map unranked l') by congruence.
    inversion Hall as [ | ? ? Hb Hl ]; subst.
    apply Forall_cons.
    + exact (key_ge_unranked _ _ _ _ Ea Eb Hb).
    + apply IH; assumption.
Qed.

Lemma sorted_transfer (l l' : list Standings.Row) :
  map unranked l = map unranked l' ->
  StronglySorted key_ge l -> StronglySorted key_ge l'.
Proof.
  revert l'. induction l as [ | a l IH ]; intros l' E Hs.
  - destruct l'; [ apply SSorted_nil | discriminate ].
  - destruct l' as [ | a' l' ]; [ discriminate | ].
    cbn [map] in E.
    assert (Ea : unranked a = unranked a') by congruence.
    assert (El : map unranked l = map unranked l') by congruence.
    inversion Hs as [ | ? ? Hl Ha ]; subst.
    apply SSorted_cons.
    + apply IH; assumption.
    + exact (key_ge_all_transfer _ _ _ _ Ea El Ha).
Qed.

Lemma calculate_sorted (df : DataFrame) (season : option string) :
  StronglySorted key_ge (calculate_league_position df season).
Proof.
  apply (sorted_transfer (sort_values (groupby_team (rows_in_scope df season)))).
  - rewrite calculate_unranked. apply sorted_rows_unranked.
  - apply sort_values_sorted.
Qed.

Lemma calculate_positions (df : DataFrame) (season : option string) :
  map Standings.Position (calculate_league_position df season)
  = map Z.of_nat (seq 1 (List.length (calculate_league_position df season))).
Proof.
  unfold calculate_league_position. rewrite number_from_length.
  apply (number_from_positions 1).
Qed.

End LeagueTableRows.

(** The rows of the table, whatever the season argument. *)
Lemma table_rows_in_scope (df : DataFrame) (season : option string) :
  let table := Aggregators.calculate_league_position df season in
  let rows := rows_in_scope df season in
  NoDup (map Standings.Team table)
  /\ (forall team,
        In team (map Standings.Team table)
        <-> exists r : MatchRecord, In r rows /\ Team r = team)
  /\ Forall (fun r =>
               let g := matches_of (Standings.Team r) rows in
               Standings.Points r = sumZ points g
               /\ Standings.GF r = sumZ Goal_scored g
               /\ Standings.GA r = sumZ Goal_conceded g
               /\ Standings.W r = sumZ is_win g
               /\ Standings.D r = sumZ is_draw g
               /\ Standings.L r = sumZ is_loss g) table.
Proof.
  intros table rows. unfold table, rows.
  split.
  { apply (Permutation_NoDup (Permutation_sym (calculate_teams df season))).
    apply group_keys_NoDup. }
  split.
  { intro team. rewrite <- group_keys_In. split; intro H.
    - apply (Permutation_in _ (calculate_teams df season)). exact H.
    - apply (Permutation_in _ (Permutation_sym (calculate_teams df season))). exact H. }
  apply Forall_forall. intros r Hr.
  pose proof (calculate_rows df season r Hr) as E.
  pose proof (f_equal Standings.Points E) as EP.
  pose proof (f_equal Standings.W E) as EW.
  pose proof (f_equal Standings.D E) as ED.
  pose proof (f_equal Standings.L E) as EL.
  pose proof (f_equal Standings.GF E) as EGF.
  pose proof (f_equal Standings.GA E) as EGA.
  cbn [unranked Aggregators.aggregate Standings.Points Standings.W Standings.D
       Standings.L Standings.GF Standings.GA] in *.
  unfold matches_of. cbv zeta. repeat split; assumption.
Qed.

(** C3: the league table of the records in scope has one row per team of
    those records; in every row [P = W + D + L] and [GD = GF - GA]; the
    rows are in descending order of points, then goal difference, then
    goals for; and the positions are 1, 2, ..., N in that order.  For
    Team A (30 points, +10), Team B (30 points, +5) and Team C (28 points)
    the table reads A, B, C with positions 1, 2, 3; two teams with equal
    keys still get distinct positions. *)
Theorem league_table_sorted (df : DataFrame) (season : option string) :
  let table := Aggregators.calculate_league_position df season in
  NoDup (map Standings.Team table)
  /\ (forall team,
        In team (map Standings.Team table)
        <-> exists r : MatchRecord, In r (rows_in_scope df season) /\ Team r = team)
  /\ Forall (fun r => Standings.P r = Standings.W r + Standings.D r + Standings.L r
                      /\ Standings.GD r = Standings.GF r - Standings.GA r) table
  /\ StronglySorted key_ge table
  /\ map Standings.Position table = map Z.of_nat (seq 1 (List.length table))
  /\ map (fun r => (Standings.Position r, Standings.Team r, Standings.Points r,
                    Standings.GD r))
       (Aggregators.calculate_league_position Samples.season_table
          (Some "2024-2025"%string))
     = [ (1, "Team A", 30, 10); (2, "Team B", 30, 5); (3, "Team C", 28, 9) ]%string
  /\ map (fun r => (Standings.Position r, Standings.Team r, Standings.Points r))
       (Aggregators.calculate_league_position
          (Samples.results "Team B" "2024-2025" 2 3 1 0
           ++ Samples.results "Team A" "2024-2025" 2 3 1 0)%list None)
     = [ (1, "Team A", 6); (2, "Team B", 6) ]%string.
Proof.
  intro table. unfold table.
  split.
  { apply (Permutation_NoDup (Permutation_sym (calculate_teams df season))).
    apply group_keys_NoDup. }
  split.
  { intro team. rewrite <- group_keys_In. split; intro H.
    - apply (Permutation_in _ (calculate_teams df season)). exact H.
    - apply (Permutation_in _ (Permutation_sym (calculate_teams df season))). exact H. }
  split.
  { apply Forall_forall. intros r Hr.
    pose proof (calculate_rows df season r Hr) as E.
    pose proof (f_equal Standings.P E) as EP.
    pose proof (f_equal Standings.W E) as EW.
    pose proof (f_equal Standings.D E) as ED.
    pose proof (f_equal Standings.L E) as EL.
    pose proof (f_equal Standings.GF E) as EGF.
    pose proof (f_equal Standings.GA E) as EGA.
    pose proof (f_equal Standings.GD E) as EGD.
    cbn [unranked Aggregators.aggregate Standings.P Standings.W Standings.D
         Standings.L Standings.GF Standings.GA Standings.GD] in *.
    lia. }
  split; [ apply calculate_sorted | ].
  split; [ apply calculate_positions | ].
  split; vm_compute; reflexivity.
Qed.

Lemma sumZ_season_split (col : MatchRecord -> Z) (team s : string) (df : DataFrame) :
  sumZ col (matches_of team df)
  = sumZ col (matches_of team (filter_by_season df s))
    + sumZ col (matches_of team (other_seasons df s)).
Proof.
  unfold matches_of, where_eq, filter_by_season, other_seasons.
  induction df as [ | r df IH ]; [ reflexivity | ].
  cbn [filter].
  destruct (String.eqb (season r) s); cbn [negb filter];
    destruct (String.eqb (Team r) team); cbn [sumZ fold_right];
    fold (sumZ col); unfold sumZ in IH |- *; lia.
Qed.

(** C10: without a season argument the table is computed over every row
    of the frame: one row per team whose points, goals for and against
    and win, draw and loss counts are the sums over all that team's
    matches, those of any one season plus those of the other seasons.
    With a (non-empty) season argument the table is the one of the rows of
    that season alone. *)
Theorem league_table_all_seasons (df : DataFrame) :
  let table := Aggregators.calculate_league_position df None in
  NoDup (map Standings.Team table)
  /\ (forall team,
        In team (map Standings.Team table)
        <-> exists r : MatchRecord, In r df /\ Team r = team)
  /\ Forall (fun r =>
               let g := matches_of (Standings.Team r) df in
               Standings.Points r = sumZ points g
               /\ Standings.GF r = sumZ Goal_scored g
               /\ Standings.GA r = sumZ Goal_conceded g
               /\ Standings.W r = sumZ is_win g
               /\ Standings.D r = sumZ is_draw g
               /\ Standings.L r = sumZ is_loss g) table
  /\ (forall (col : MatchRecord -> Z) (team s : string),
        sumZ col (matches_of team df)
        = sumZ col (matches_of team (filter_by_season df s))
          + sumZ col (matches_of team (other_seasons df s)))
  /\ (forall s : string,
        s <> ""%string ->
        Aggregators.calculate_league_position df (Some s)
        = Aggregators.calculate_league_position (filter_by_season df s) None)
  /\ map (fun r => (Standings.Position r, Standings.Team r, Standings.P r,
                    Standings.Points r, Standings.GF r, Standings.GA r))
       (Aggregators.calculate_league_position Samples.two_seasons None)
     = [ (1, "Team B", 3, 7, 3, 1); (2, "Team A", 3, 6, 4, 3) ]%string
  /\ map (fun r => (Standings.Position r, Standings.Team r, Standings.P r,
                    Standings.Points r, Standings.GF r, Standings.GA r))
       (Aggregators.calculate_league_position Samples.two_seasons
          (Some "2023-2024"%string))
     = [ (1, "Team A", 2, 6, 4, 0); (2, "Team B", 1, 1, 1, 1) ]%string.
Proof.
  intro table. unfold table.
  destruct (table_rows_in_scope df None) as (Hnodup & Hteams & Hrows).
  split; [ exact Hnodup | ].
  split; [ exact Hteams | ].
  split; [ exact Hrows | ].
  split; [ intros col team s; apply sumZ_season_split | ].
  split.
  { intros s Hs. unfold Aggregators.calculate_league_position.
    cbn [Aggregators.season_given].
    apply String.eqb_neq in Hs. rewrite Hs. reflexivity. }
  split; vm_compute; reflexivity.
Qed.

Lemma league_table_all_seasons_witness :
  "2024-2025"%string <> ""%string
  /\ Aggregators.calculate_league_position Samples.two_seasons (Some "2024-2025"%string)
     = Aggregators.calculate_league_position
         (filter_by_season Samples.two_seasons "2024-2025") None.
Proof.
  assert (H : "2024-2025"%string <> ""%string) by discriminate.
  split; [ exact H | ].
  destruct (league_table_all_seasons Samples.two_seasons) as (_ & _ & _ & _ & Hs & _).
  exact (Hs "2024-2025"%string H).
Defined.

(** * Further properties of the code *)

Import Facts.

(** ** Column sums *)

Lemma sumZ_cons (col : MatchRecord -> Z) (r : MatchRecord) (df : DataFrame) :
  sumZ col (r :: df) = col r + sumZ col df.
Proof. reflexivity. Qed.

Lemma sumZ_ext (f g : MatchRecord -> Z) (df : DataFrame) :
  Forall (fun r => f r = g r) df -> sumZ f df = sumZ g df.
Proof.
  induction 1 as [ | r df Hr _ IH ]; [ reflexivity | ].
  rewrite !sumZ_cons. congruence.
Qed.

Lemma sumZ_plus (f g : MatchRecord -> Z) (df : DataFrame) :
  sumZ (fun r => f r + g r) df = sumZ f df + sumZ g df.
Proof.
  induction df as [ | r df IH ]; [ reflexivity | ].
  rewrite !sumZ_cons. lia.
Qed.

Lemma sumZ_minus (f g : MatchRecord -> Z) (df : DataFrame) :
  sumZ (fun r => f r - g r) df = sumZ f df - sumZ g df.
Proof.
  induction df as [ | r df IH ]; [ reflexivity | ].
  rewrite !sumZ_cons. lia.
Qed.

Lemma sumZ_scale (k : Z) (f : MatchRecord -> Z) (df : DataFrame) :
  sumZ (fun r => k * f r) df = k * sumZ f df.
Proof.
  induction df as [ | r df IH ]; [ unfold sumZ; cbn; lia | ].
  rewrite !sumZ_cons. lia.
Qed.

Lemma sumZ_one (df : DataFrame) : sumZ (fun _ => 1) df = len df.
Proof.
  unfold len. induction df as [ | r df IH ]; [ reflexivity | ].
  rewrite sumZ_cons, IH. cbn [List.length]. lia.
Qed.

Lemma sumZ_bounds (lo hi : Z) (f : MatchRecord -> Z) (df : DataFrame) :
  Forall (fun r => lo <= f r <= hi) df ->
  lo * len df <= sumZ f df <= hi * len df.
Proof.
  unfold len. induction 1 as [ | r df Hr _ IH ].
  - cbn. lia.
  - rewrite sumZ_cons. cbn [List.length]. lia.
Qed.

Lemma Forall_filter_keep (P : MatchRecord -> Prop) (f : MatchRecord -> bool)
  (df : DataFrame) :
  Forall P df -> Forall P (filter f df).
Proof.
  intro H. apply Forall_forall. intros r Hr.
  apply filter_In in Hr. rewrite Forall_forall in H. apply H. tauto.
Qed.

(** The flags and points of a league record. *)
Lemma league_record_flags (m : MatchRecord) :
  league_record m ->
  is_win m + is_draw m + is_loss m = 1
  /\ points m = 3 * is_win m + is_draw m
  /\ 0 <= is_win m <= 1 /\ 0 <= is_draw m <= 1 /\ 0 <= is_loss m <= 1
  /\ 0 <= points m <= 3.
Proof.
  intros [Hn Hv]. unfold normalised in Hn. rewrite Hn.
  cbn [is_win is_draw is_loss base add_calculated_columns_row points].
  unfold valid_points in Hv.
  destruct Hv as [H | [H | H]]; rewrite H; cbn; lia.
Qed.

Lemma league_frame_totals (df : DataFrame) :
  Forall league_record df ->
  sumZ is_win df + sumZ is_draw df + sumZ is_loss df = len df
  /\ sumZ points df = 3 * sumZ is_win df + sumZ is_draw df
  /\ 0 <= sumZ is_win df /\ 0 <= sumZ is_draw df /\ 0 <= sumZ is_loss df
  /\ 0 <= sumZ points df <= 3 * len df.
Proof.
  intro H.
  assert (Hf : Forall (fun m => is_win m + is_draw m + is_loss m = 1
                                /\ points m = 3 * is_win m + is_draw m
                                /\ 0 <= is_win m <= 1 /\ 0 <= is_draw m <= 1
                                /\ 0 <= is_loss m <= 1 /\ 0 <= points m <= 3) df).
  { eapply Forall_impl; [ | exact H ]. intros m Hm. apply league_record_flags. exact Hm. }
  clear H. unfold len.
  induction Hf as [ | r df Hr _ IH ].
  - cbn. lia.
  - rewrite !sumZ_cons. cbn [List.length]. lia.
Qed.

(** ** League table: further invariants *)

Lemma rows_in_scope_subset (P : MatchRecord -> Prop) (df : DataFrame)
  (season : option string) :
  Forall P df -> Forall P (rows_in_scope df season).
Proof.
  intro H. unfold rows_in_scope.
  destruct (Aggregators.season_given season); [ | exact H ].
  apply Forall_filter_keep. exact H.
Qed.

Lemma table_row_fields (df : DataFrame) (season : option string) (r : Standings.Row) :
  In r (Aggregators.calculate_league_position df season) ->
  let g := matches_of (Standings.Team r) (rows_in_scope df season) in
  Standings.P r = sumZ is_win g + sumZ is_draw g + sumZ is_loss g
  /\ Standings.W r = sumZ is_win g
  /\ Standings.D r = sumZ is_draw g
  /\ Standings.L r = sumZ is_loss g
  /\ Standings.GF r = sumZ Goal_scored g
  /\ Standings.GA r = sumZ Goal_conceded g
  /\ Standings.GD r = sumZ Goal_scored g - sumZ Goal_conceded g
  /\ Standings.Points r = sumZ points g
  /\ g <> [].
Proof.
  intros Hr g.
  pose proof (calculate_rows df season r Hr) as E.
  pose proof (f_equal Standings.P E) as EP.
  pose proof (f_equal Standings.W E) as EW.
  pose proof (f_equal Standings.D E) as ED.
  pose proof (f_equal Standings.L E) as EL.
  pose proof (f_equal Standings.GF E) as EGF.
  pose proof (f_equal Standings.GA E) as EGA.
  pose proof (f_equal Standings.GD E) as EGD.
  pose proof (f_equal Standings.Points E) as EPt.
  cbn [unranked Aggregators.aggregate Standings.P Standings.W Standings.D
       Standings.L Standings.GF Standings.GA Standings.GD Standings.Points] in *.
  fold (matches_of (Standings.Team r) (rows_in_scope df season)) in *.
  fold g in EP, EW, ED, EL, EGF, EGA, EGD, EPt.
  repeat (split; [ assumption | ]).
  assert (Hin : In (Standings.Team r)
                  (map Standings.Team (Aggregators.calculate_league_position df season)))
    by (apply in_map; exact Hr).
  apply (Permutation_in _ (calculate_teams df season)) in Hin.
  apply group_keys_In in Hin. destruct Hin as [m [Hm Ht]].
  intro Hg.
  assert (Hmg : In m g).
  { unfold g, matches_of, where_eq. apply filter_In. split; [ exact Hm | ].
    rewrite Ht. apply String.eqb_refl. }
  rewrite Hg in Hmg. exact Hmg.
Qed.

(** X1: when every record of the frame is a normalised league record
    (points 3, 1 or 0), each row of the table has [P] equal to the number
    of matches of its team among the rows in scope, which is at least one,
    [Points = 3 * W + D], and between 0 and [3 * P] points. *)
Theorem standings_played_and_points (df : DataFrame) (season : option string) :
  Forall league_record df ->
  Forall (fun r =>
            Standings.P r = len (matches_of (Standings.Team r) (rows_in_scope df season))
            /\ 0 < Standings.P r
            /\ Standings.Points r = 3 * Standings.W r + Standings.D r
            /\ 0 <= Standings.Points r <= 3 * Standings.P r)
    (Aggregators.calculate_league_position df season).
Proof.
  intro Hdf. apply Forall_forall. intros r Hr.
  destruct (table_row_fields df season r Hr)
    as (EP & EW & ED & EL & _ & _ & _ & EPt & Hne).
  set (g := matches_of (Standings.Team r) (rows_in_scope df season)) in *.
  assert (Hg : Forall league_record g).
  { unfold g, matches_of, where_eq. apply Forall_filter_keep.
    apply rows_in_scope_subset. exact Hdf. }
  destruct (league_frame_totals g Hg) as (Hsum & Hpts & _ & _ & _ & Hrange).
  pose proof (len_pos g Hne) as Hpos.
  rewrite EP, EW, ED, EPt. lia.
Qed.

Lemma standings_played_and_points_witness :
  Forall league_record Samples.three_matches
  /\ Forall (fun r => 0 < Standings.P r
                      /\ Standings.Points r = 3 * Standings.W r + Standings.D r)
       (Aggregators.calculate_league_position Samples.three_matches None).
Proof.
  assert (H : Forall league_record Samples.three_matches).
  { unfold Samples.three_matches.
    repeat (apply Forall_cons;
            [ split; [ reflexivity | unfold valid_points; cbn; auto ] | ]).
    apply Forall_nil. }
  split; [ exact H | ].
  eapply Forall_impl;
    [ | exact (standings_played_and_points Samples.three_matches None H) ].
  intros r (_ & Hpos & HPt & _). split; assumption.
Defined.

Lemma Zsum_perm (l l' : list Z) : Permutation l l' -> Zsum l = Zsum l'.
Proof.
  induction 1 as [ | x l l' _ IH | x y l | l l' l'' _ IH1 _ IH2 ];
    unfold Zsum in *; cbn [fold_right] in *.
  - reflexivity.
  - lia.
  - lia.
  - congruence.
Qed.

Lemma Zsum_map_plus {A : Type} (f g : A -> Z) (l : list A) :
  Zsum (map (fun a => f a + g a) l) = Zsum (map f l) + Zsum (map g l).
Proof.
  induction l as [ | a l IH ]; unfold Zsum in *; cbn [map fold_right] in *; lia.
Qed.

Lemma Zsum_indicator (k : string) (c : Z) (ks : list string) :
  NoDup ks ->
  Zsum (map (fun t => if String.eqb k t then c else 0) ks)
  = if in_dec string_dec k ks then c else 0.
Proof.
  induction 1 as [ | t ks Hnotin Hnd IH ]; [ reflexivity | ].
  cbn [map Zsum fold_right]. fold (Zsum (map (fun t => if String.eqb k t then c else 0) ks)).
  rewrite IH.
  destruct (String.eqb_spec k t) as [-> | Hne].
  - destruct (in_dec string_dec t ks) as [Hin | _]; [ contradiction | ].
    destruct (in_dec string_dec t (t :: ks)) as [_ | Hn]; [ lia | ].
    exfalso. apply Hn. left. reflexivity.
  - destruct (in_dec string_dec k ks) as [Hin | Hn];
      destruct (in_dec string_dec k (t :: ks)) as [Hin' | Hn']; try lia.
    + exfalso. apply Hn'. right. exact Hin.
    + exfalso. destruct Hin' as [E | Hin']; [ congruence | contradiction ].
Qed.

Lemma sum_over_groups (col : MatchRecord -> Z) (ks : list string) (df : DataFrame) :
  NoDup ks ->
  Forall (fun r : MatchRecord => In (Team r) ks) df ->
  Zsum (map (fun t => sumZ col (matches_of t df)) ks) = sumZ col df.
Proof.
  intros Hnd Hall. induction Hall as [ | r df Hr _ IH ].
  - unfold matches_of, where_eq. cbn [filter].
    induction ks as [ | t ks IHk ]; [ reflexivity | ].
    cbn [map Zsum fold_right]. inversion Hnd; subst.
    fold (Zsum (map (fun _ : string => sumZ col []) ks)).
    rewrite IHk by assumption. reflexivity.
  - rewrite sumZ_cons, <- IH.
    assert (E : map (fun t => sumZ col (matches_of t (r :: df))) ks
                = map (fun t => (if String.eqb (Team r) t then col r else 0)
                                + sumZ col (matches_of t df)) ks).
    { apply map_ext. intro t. unfold matches_of, where_eq. cbn [filter].
      destruct (String.eqb (Team r) t); [ apply sumZ_cons | lia ]. }
    rewrite E, Zsum_map_plus, Zsum_indicator by exact Hnd.
    destruct (in_dec string_dec (Team r) ks) as [_ | Hn]; [ reflexivity | contradiction ].
Qed.

Lemma table_column (f : Standings.Row -> Z) (df : DataFrame) (season : option string) :
  (forall r, f (unranked r) = f r) ->
  Permutation (map f (Aggregators.calculate_league_position df season))
    (map (fun t => f (Aggregators.aggregate (rows_in_scope df season) t))
       (Aggregators.group_keys (rows_in_scope df season))).
Proof.
  intro Hf.
  assert (E : map f (Aggregators.calculate_league_position df season)
              = map f (map unranked (Aggregators.calculate_league_position df season))).
  { rewrite map_map. apply map_ext. intro r. symmetry. apply Hf. }
  rewrite E, calculate_unranked.
  apply perm_trans with (map f (Aggregators.groupby_team (rows_in_scope df season))).
  - apply Permutation_map. apply sort_values_perm.
  - unfold Aggregators.groupby_team. rewrite map_map. apply Permutation_refl.
Qed.

Lemma table_column_total (f : Standings.Row -> Z) (col : MatchRecord -> Z)
  (df : DataFrame) (season : option string) :
  (forall r, f (unranked r) = f r) ->
  (forall d t, f (Aggregators.aggregate d t) = sumZ col (matches_of t d)) ->
  Zsum (map f (Aggregators.calculate_league_position df season))
  = sumZ col (rows_in_scope df season).
Proof.
  intros Hf Hagg.
  rewrite (Zsum_perm _ _ (table_column f df season Hf)).
  rewrite (map_ext _ (fun t => sumZ col (matches_of t (rows_in_scope df season))))
    by (intro t; apply Hagg).
  apply sum_over_groups.
  - apply group_keys_NoDup.
  - apply Forall_forall. intros r Hr. apply group_keys_In. exists r. split; [ exact Hr | reflexivity ].
Qed.

(** X2: aggregation loses and invents nothing: summed over the rows of
    the table, the points, goals for, goals against and win, draw and
    loss counts equal the sums of the corresponding columns over the
    records in scope, and the goal differences sum to goals scored minus
    goals conceded. *)
Theorem standings_totals_conserved (df : DataFrame) (season : option string) :
  let table := Aggregators.calculate_league_position df season in
  let rows := rows_in_scope df season in
  Zsum (map Standings.Points table) = sumZ points rows
  /\ Zsum (map Standings.GF table) = sumZ Goal_scored rows
  /\ Zsum (map Standings.GA table) = sumZ Goal_conceded rows
  /\ Zsum (map Standings.GD table) = sumZ Goal_scored rows - sumZ Goal_conceded rows
  /\ Zsum (map Standings.W table) = sumZ is_win rows
  /\ Zsum (map Standings.D table) = sumZ is_draw rows
  /\ Zsum (map Standings.L table) = sumZ is_loss rows
  /\ Zsum (map Standings.P table)
     = sumZ is_win rows + sumZ is_draw rows + sumZ is_loss rows.
Proof.
  intros table rows. unfold table, rows.
  assert (HP : Zsum (map Standings.Points (Aggregators.calculate_league_position df season))
               = sumZ points (rows_in_scope df season))
    by (apply table_column_total; reflexivity).
  assert (HGF : Zsum (map Standings.GF (Aggregators.calculate_league_position df season))
                = sumZ Goal_scored (rows_in_scope df season))
    by (apply table_column_total; reflexivity).
  assert (HGA : Zsum (map Standings.GA (Aggregators.calculate_league_position df season))
                = sumZ Goal_conceded (rows_in_scope df season))
    by (apply table_column_total; reflexivity).
  assert (HW : Zsum (map Standings.W (Aggregators.calculate_league_position df season))
               = sumZ is_win (rows_in_scope df season))
    by (apply table_column_total; reflexivity).
  assert (HD : Zsum (map Standings.D (Aggregators.calculate_league_position df season))
               = sumZ is_draw (rows_in_scope df season))
    by (apply table_column_total; reflexivity).
  assert (HL : Zsum (map Standings.L (Aggregators.calculate_league_position df season))
               = sumZ is_loss (rows_in_scope df season))
    by (apply table_column_total; reflexivity).
  assert (HGD : Zsum (map Standings.GD (Aggregators.calculate_league_position df season))
                = sumZ (fun r => Goal_scored r - Goal_conceded r) (rows_in_scope df season)).
  { apply table_column_total; [ reflexivity | ].
    intros d t. cbn [Aggregators.aggregate Standings.GD].
    fold (matches_of t d). symmetry. apply sumZ_minus. }
  assert (HPl : Zsum (map Standings.P (Aggregators.calculate_league_position df season))
                = sumZ (fun r => is_win r + is_draw r + is_loss r) (rows_in_scope df season)).
  { apply table_column_total; [ reflexivity | ].
    intros d t. cbn [Aggregators.aggregate Standings.P].
    fold (matches_of t d).
    rewrite (sumZ_plus (fun r => is_win r + is_draw r) is_loss).
    rewrite (sumZ_plus is_win is_draw). reflexivity. }
  repeat split; try assumption.
  - rewrite HGD. apply sumZ_minus.
  - rewrite HPl.
    rewrite (sumZ_plus (fun r => is_win r + is_draw r) is_loss).
    rewrite (sumZ_plus is_win is_draw). reflexivity.
Qed.

(** *** Order of teams with equal keys *)

Lemma string_lt_irrefl (a : string) : ~ String_as_OT.lt a a.
Proof. apply (@StrictOrder_Irreflexive _ _ String_as_OT.lt_strorder). Qed.

Lemma string_lt_trans (a b c : string) :
  String_as_OT.lt a b -> String_as_OT.lt b c -> String_as_OT.lt a c.
Proof. apply (@StrictOrder_Transitive _ _ String_as_OT.lt_strorder). Qed.

Lemma string_leb_trans (a b c : string) :
  String.leb a b = true -> String.leb b c = true -> String.leb a c = true.
Proof.
  unfold String.leb. change String.compare with String_as_OT.compare.
  destruct (String_as_OT.compare_spec a b) as [Hab | Hab | Hab]; try discriminate;
  destruct (String_as_OT.compare_spec b c) as [Hbc | Hbc | Hbc]; try discriminate;
  intros _ _; destruct (String_as_OT.compare_spec a c) as [H | H | H]; try reflexivity;
  exfalso; unfold String_as_OT.eq in *; subst.
  - exact (string_lt_irrefl _ H).
  - exact (string_lt_irrefl _ (string_lt_trans _ _ _ Hbc H)).
  - exact (string_lt_irrefl _ (string_lt_trans _ _ _ Hab H)).
  - exact (string_lt_irrefl _ (string_lt_trans _ _ _ (string_lt_trans _ _ _ Hab Hbc) H)).
Qed.

Lemma insert_key_sorted (t : string) (ks : list string) :
  StronglySorted (fun a b => String.leb a b = true) ks ->
  StronglySorted (fun a b => String.leb a b = true) (Aggregators.insert_key t ks).
Proof.
  induction ks as [ | k ks IH ]; intro Hs; cbn [Aggregators.insert_key].
  - apply SSorted_cons; [ apply SSorted_nil | apply Forall_nil ].
  - inversion Hs as [ | ? ? Hks Hk ]; subst.
    destruct (String.leb t k) eqn:E.
    + apply SSorted_cons; [ exact Hs | ].
      apply Forall_cons; [ exact E | ].
      apply Forall_forall. intros z Hz. rewrite Forall_forall in Hk.
      apply string_leb_trans with k; [ exact E | apply Hk; exact Hz ].
    + apply SSorted_cons; [ apply IH; exact Hks | ].
      apply Forall_forall. intros z Hz.
      apply (Permutation_in _ (insert_key_perm t ks)) in Hz.
      destruct Hz as [<- | Hz].
      * destruct (String.leb_total t k) as [H | H]; [ congruence | exact H ].
      * rewrite Forall_forall in Hk. apply Hk. exact Hz.
Qed.

Lemma sort_keys_sorted (ks : list string) :
  StronglySorted (fun a b => String.leb a b = true) (Aggregators.sort_keys ks).
Proof.
  induction ks as [ | k ks IH ]; cbn [Aggregators.sort_keys fold_right].
  - apply SSorted_nil.
  - apply insert_key_sorted. exact IH.
Qed.

Lemma groupby_team_by_name (d : DataFrame) :
  StronglySorted name_le (Aggregators.groupby_team d).
Proof.
  unfold Aggregators.groupby_team, Aggregators.group_keys.
  pose proof (sort_keys_sorted (nodup string_dec (map (fun r : MatchRecord => Team r) d))) as H.
  induction H as [ | k ks _ IH Hk ]; cbn [map].
  - apply SSorted_nil.
  - apply SSorted_cons; [ exact IH | ].
    apply Forall_forall. intros r Hr. apply in_map_iff in Hr.
    destruct Hr as [t [<- Ht]]. rewrite Forall_forall in Hk.
    unfold name_le. cbn [Aggregators.aggregate Standings.Team]. apply Hk. exact Ht.
Qed.

Lemma key_gtb_strict (a b : Standings.Row) :
  Aggregators.key_gtb a b = true -> ~ key_ge b a.
Proof.
  intros H Hge.
  assert (Hf : Aggregators.key_gtb a b = false).
  { unfold Aggregators.key_gtb. unfold key_ge in Hge.
    apply orb_false_iff. split; [ apply Z.ltb_ge; lia | ].
    destruct (Standings.Points a =? Standings.Points b) eqn:E; [ | reflexivity ].
    apply Z.eqb_eq in E. cbn [andb].
    apply orb_false_iff. split; [ apply Z.ltb_ge; lia | ].
    destruct (Standings.GD a =? Standings.GD b) eqn:E2; [ | reflexivity ].
    apply Z.eqb_eq in E2. cbn [andb]. apply Z.ltb_ge. lia. }
  congruence.
Qed.

Lemma insert_desc_tie_break (x : Standings.Row) (l : list Standings.Row) :
  StronglySorted tie_break l -> Forall (name_le x) l ->
  StronglySorted tie_break (Aggregators.insert_desc x l).
Proof.
  induction l as [ | y l IH ]; intros Hs Hx; cbn [Aggregators.insert_desc].
  - apply SSorted_cons; [ apply SSorted_nil | apply Forall_nil ].
  - inversion Hs as [ | ? ? Hl Hy ]; subst.
    inversion Hx as [ | ? ? Hxy Hxl ]; subst.
    destruct (Aggregators.key_gtb y x) eqn:E.
    + apply SSorted_cons; [ apply IH; assumption | ].
      apply Forall_forall. intros z Hz.
      apply (Permutation_in _ (insert_desc_perm x l)) in Hz.
      destruct Hz as [<- | Hz].
      * split; [ apply key_gtb_true; exact E | ].
        intro Hge. exfalso. exact (key_gtb_strict _ _ E Hge).
      * rewrite Forall_forall in Hy. apply Hy. exact Hz.
    + apply SSorted_cons; [ exact Hs | ].
      apply key_gtb_false in E.
      apply Forall_cons; [ split; [ exact E | intros _; exact Hxy ] | ].
      apply Forall_forall. intros z Hz.
      rewrite Forall_forall in Hy, Hxl.
      destruct (Hy z Hz) as [Hyz _].
      split; [ apply key_ge_trans with y; assumption | ].
      intros _. apply Hxl. exact Hz.
Qed.

Lemma sort_values_tie_break (l : list Standings.Row) :
  StronglySorted name_le l -> StronglySorted tie_break (Aggregators.sort_values l).
Proof.
  induction 1 as [ | x l _ IH Hx ]; cbn [Aggregators.sort_values fold_right].
  - apply SSorted_nil.
  - apply insert_desc_tie_break; [ exact IH | ].
    apply Forall_forall. intros z Hz.
    apply (Permutation_in _ (sort_values_perm l)) in Hz.
    rewrite Forall_forall in Hx. apply Hx. exact Hz.
Qed.

Lemma tie_break_unranked (a a' b b' : Standings.Row) :
  unranked a = unranked a' -> unranked b = unranked b' ->
  tie_break a b -> tie_break a' b'.
Proof.
  intros Ha Hb [Hge Hname]. split.
  - exact (key_ge_unranked _ _ _ _ Ha Hb Hge).
  - intro Hge'. unfold name_le in *.
    pose proof (f_equal Standings.Team Ha) as Ta.
    pose proof (f_equal Standings.Team Hb) as Tb.
    cbn in Ta, Tb. rewrite <- Ta, <- Tb. apply Hname.
    exact (key_ge_unranked _ _ _ _ (eq_sym Hb) (eq_sym Ha) Hge').
Qed.

Lemma tie_break_all_transfer (a a' : Standings.Row) (l l' : list Standings.Row) :
  unranked a = unranked a' -> map unranked l = map unranked l' ->
  Forall (tie_break a) l -> Forall (tie_break a') l'.
Proof.
  intros Ea. revert l'. induction l as [ | b l IH ]; intros l' El Hall.
  - destruct l'; [ apply Forall_nil | discriminate ].
  - destruct l' as [ | b' l' ]; [ discriminate | ].
    cbn [map] in El.
    assert (Eb : unranked b = unranked b') by congruence.
    assert (El' : map unranked l = map unranked l') by congruence.
    inversion Hall as [ | ? ? Hb Hl ]; subst.
    apply Forall_cons.
    + exact (tie_break_unranked _ _ _ _ Ea Eb Hb).
    + apply IH; assumption.
Qed.

Lemma tie_break_transfer (l l' : list Standings.Row) :
  map unranked l = map unranked l' ->
  StronglySorted tie_break l -> StronglySorted tie_break l'.
Proof.
  revert l'. induction l as [ | a l IH ]; intros l' E Hs.
  - destruct l'; [ apply SSorted_nil | discriminate ].
  - destruct l' as [ | a' l' ]; [ discriminate | ].
    cbn [map] in E.
    assert (Ea : unranked a = unranked a') by congruence.
    assert (El : map unranked l = map unranked l') by congruence.
    inversion Hs as [ | ? ? Hl Ha ]; subst.
    apply SSorted_cons.
    + apply IH; assumption.
    + exact (tie_break_all_transfer _ _ _ _ Ea El Ha).
Qed.

(** X3: the table has a deterministic order also among teams level on
    points, goal difference and goals for: [groupby] lists the teams in
    ascending name order and the sort is stable, so of two rows the
    earlier one has the greater key or, with equal keys, the team name
    that is not after the other. *)
Theorem standings_ties_by_name (df : DataFrame) (season : option string) :
  StronglySorted tie_break (Aggregators.calculate_league_position df season).
Proof.
  apply (tie_break_transfer
           (Aggregators.sort_values (Aggregators.groupby_team (rows_in_scope df season)))).
  - rewrite calculate_unranked. apply sorted_rows_unranked.
  - apply sort_values_tie_break. apply groupby_team_by_name.
Qed.

(** ** Season summary *)

Lemma dict_lookup_set (d : dict) (k k' : string) (v : value) :
  dict_lookup (Aggregators.dict_set d k v) k'
  = if String.eqb k' k then Some v else dict_lookup d k'.
Proof.
  induction d as [ | [k0 v0] d IH ]; cbn [Aggregators.dict_set dict_lookup].
  - reflexivity.
  - destruct (String.eqb_spec k k0) as [-> | Hne]; cbn [dict_lookup].
    + destruct (String.eqb k' k0); reflexivity.
    + rewrite IH. destruct (String.eqb_spec k' k0) as [-> | Hne'].
      * destruct (String.eqb_spec k0 k) as [E | _]; [ congruence | reflexivity ].
      * reflexivity.
Qed.

(** [{**d, **d'}]: the entries of [d'] win, the last one for a repeated
    key; the other keys keep their value of [d]. *)
Lemma dict_lookup_update (d d' : dict) (k : string) :
  dict_lookup (Aggregators.dict_update d d') k
  = match dict_lookup (rev d') k with
    | Some v => Some v
    | None => dict_lookup d k
    end.
Proof.
  unfold Aggregators.dict_update. revert d.
  induction d' as [ | [k0 v0] d' IH ] using rev_ind; intro d.
  - reflexivity.
  - rewrite fold_left_app, rev_app_distr. cbn [fold_left rev app fst snd dict_lookup].
    rewrite dict_lookup_set. destruct (String.eqb k k0); [ reflexivity | apply IH ].
Qed.

Lemma dict_lookup_rev_none (d : dict) (k : string) :
  dict_lookup d k = None -> dict_lookup (rev d) k = None.
Proof.
  assert (G : forall d, dict_lookup d k = None <-> ~ In k (keys d)).
  { intro d0. induction d0 as [ | [k0 v0] d0 IH ]; cbn [dict_lookup keys map fst In].
    - tauto.
    - destruct (String.eqb_spec k k0) as [-> | Hne].
      + split; [ discriminate | intro H; exfalso; apply H; now left ].
      + unfold keys in IH. rewrite IH. split; intro H.
        * intros [E | Hin]; [ congruence | contradiction ].
        * intro Hin. apply H. now right. }
  intro H. apply G. apply G in H. intro Hin. apply H.
  unfold keys in *. rewrite map_rev in Hin. apply in_rev in Hin. exact Hin.
Qed.

Lemma dict_lookup_update_other (d d' : dict) (k : string) :
  dict_lookup d' k = None ->
  dict_lookup (Aggregators.dict_update d d') k = dict_lookup d k.
Proof.
  intro H. rewrite dict_lookup_update, (dict_lookup_rev_none d' k H). reflexivity.
Qed.

(** The entries of the summary that no engine overwrites. *)
Lemma season_summary_own (df : DataFrame) (k : string) :
  df <> [] ->
  dict_lookup (Attacking.get_attacking_metrics df) k = None ->
  dict_lookup (Defensive.get_defensive_metrics df) k = None ->
  dict_lookup (Possession.get_possession_metrics df) k = None ->
  dict_lookup (Aggregators.get_season_summary df) k
  = dict_lookup
      [ ("matches_played", VInt (len df));
        ("wins", VInt (sumZ is_win df));
        ("draws", VInt (sumZ is_draw df));
        ("losses", VInt (sumZ is_loss df));
        ("total_points", VInt (sumZ points df));
        ("points_per_game",
          VFloat (pyround 2 (fdiv (of_int (sumZ points df)) (of_int (len df)))));
        ("goals_scored", VInt (sumZ Goal_scored df));
        ("goals_conceded", VInt (sumZ Goal_conceded df));
        ("goal_difference", VInt (sumZ Goal_scored df - sumZ Goal_conceded df));
        ("clean_sheets", VInt (sumZ is_clean_sheet df));
        ("home_wins", VInt (sumZ is_win (where_eq Side "Home" df)));
        ("away_wins", VInt (sumZ is_win (where_eq Side "Away" df))) ]%string k.
Proof.
  intros Hne Ha Hd Hp. unfold Aggregators.get_season_summary.
  destruct (len df =? 0) eqn:E.
  { apply Z.eqb_eq, len_zero_iff in E. contradiction. }
  rewrite !dict_lookup_update_other by assumption. reflexivity.
Qed.

(** X4: a team's row of the league table and the season summary of that
    team's matches in scope agree: the summary's total points, goals
    scored and conceded, goal difference and win, draw and loss counts
    are the row's Points, GF, GA, GD, W, D and L. *)
Theorem summary_agrees_with_standings (df : DataFrame) (season : option string)
  (r : Standings.Row) :
  In r (Aggregators.calculate_league_position df season) ->
  let summary :=
    Aggregators.get_season_summary
      (Loader.get_team_data (rows_in_scope df season) (Standings.Team r)) in
  dict_lookup summary "total_points" = Some (VInt (Standings.Points r))
  /\ dict_lookup summary "goals_scored" = Some (VInt (Standings.GF r))
  /\ dict_lookup summary "goals_conceded" = Some (VInt (Standings.GA r))
  /\ dict_lookup summary "goal_difference" = Some (VInt (Standings.GD r))
  /\ dict_lookup summary "wins" = Some (VInt (Standings.W r))
  /\ dict_lookup summary "draws" = Some (VInt (Standings.D r))
  /\ dict_lookup summary "losses" = Some (VInt (Standings.L r)).
Proof.
  intros Hr summary. unfold summary, Loader.get_team_data.
  destruct (table_row_fields df season r Hr)
    as (_ & EW & ED & EL & EGF & EGA & EGD & EPt & Hne).
  unfold matches_of in *.
  set (g := where_eq (fun m : MatchRecord => Team m) (Standings.Team r)
              (rows_in_scope df season)) in *.
  rewrite EW, ED, EL, EGF, EGA, EGD, EPt.
  repeat split; rewrite (season_summary_own g _ Hne) by reflexivity; reflexivity.
Qed.

Lemma summary_agrees_with_standings_witness :
  exists r,
    In r (Aggregators.calculate_league_position Samples.three_matches None)
    /\ dict_lookup
         (Aggregators.get_season_summary
            (Loader.get_team_data Samples.three_matches (Standings.Team r)))
         "total_points" = Some (VInt (Standings.Points r)).
Proof.
  eexists. split.
  - left. reflexivity.
  - refine (proj1 (summary_agrees_with_standings Samples.three_matches None _ _)).
    left. reflexivity.
Defined.

(** ** Recent form: consistency of the figures *)

Lemma form_letter_of_league_record (m : MatchRecord) :
  league_record m ->
  (Aggregators.form_letter m = "W"%string /\ is_win m = 1 /\ is_draw m = 0 /\ is_loss m = 0)
  \/ (Aggregators.form_letter m = "D"%string /\ is_win m = 0 /\ is_draw m = 1 /\ is_loss m = 0)
  \/ (Aggregators.form_letter m = "L"%string /\ is_win m = 0 /\ is_draw m = 0 /\ is_loss m = 1).
Proof.
  intros [Hn Hv]. unfold normalised in Hn. rewrite Hn.
  unfold Aggregators.form_letter.
  cbn [is_win is_draw is_loss base add_calculated_columns_row points].
  destruct Hv as [H | [H | H]]; rewrite H; cbn; auto 10.
Qed.

Lemma letter_counts (l : DataFrame) :
  Forall league_record l ->
  Z.of_nat (count_occ string_dec (map Aggregators.form_letter l) "W"%string) = sumZ is_win l
  /\ Z.of_nat (count_occ string_dec (map Aggregators.form_letter l) "D"%string) = sumZ is_draw l
  /\ Z.of_nat (count_occ string_dec (map Aggregators.form_letter l) "L"%string) = sumZ is_loss l.
Proof.
  induction 1 as [ | m l Hm _ IH ]; [ repeat split; reflexivity | ].
  destruct IH as (IW & ID & IL).
  cbn [map]. rewrite !sumZ_cons.
  destruct (form_letter_of_league_record m Hm)
    as [(-> & -> & -> & ->) | [(-> & -> & -> & ->) | (-> & -> & -> & ->)]];
    cbn [count_occ];
    repeat match goal with
           | |- context [string_dec ?a ?b] =>
               destruct (string_dec a b); try discriminate; try congruence
           end;
    repeat split; lia.
Qed.

(** X5: for a window [last_n >= 0] over normalised league records, the
    figures of [get_form] are consistent with each other: the form list
    has as many "W", "D" and "L" as the wins, draws and losses reported,
    these three counts add up to the number of letters, the points are
    [3 * wins + draws], and the points never exceed [max_points]. *)
Theorem get_form_consistent (df : DataFrame) (last_n : Z) :
  0 <= last_n -> Forall league_record df ->
  let f := Aggregators.get_form df last_n in
  Z.of_nat (count_occ string_dec (Aggregators.form_list f) "W"%string) = Aggregators.wins f
  /\ Z.of_nat (count_occ string_dec (Aggregators.form_list f) "D"%string) = Aggregators.draws f
  /\ Z.of_nat (count_occ string_dec (Aggregators.form_list f) "L"%string) = Aggregators.losses f
  /\ Aggregators.wins f + Aggregators.draws f + Aggregators.losses f
     = Z.of_nat (List.length (Aggregators.form_list f))
  /\ Aggregators.form_points f = 3 * Aggregators.wins f + Aggregators.draws f
  /\ 0 <= Aggregators.form_points f <= Aggregators.max_points f.
Proof.
  intros Hn Hdf f. unfold f, Aggregators.get_form.
  rewrite (tail_nonneg last_n df Hn).
  set (recent := skipn (List.length df - Z.to_nat last_n) df).
  cbn [Aggregators.form_list Aggregators.wins Aggregators.draws Aggregators.losses
       Aggregators.form_points Aggregators.max_points].
  assert (Hrecent : Forall league_record recent).
  { apply Forall_forall. intros m Hm. rewrite Forall_forall in Hdf. apply Hdf.
    rewrite <- (firstn_skipn (List.length df - Z.to_nat last_n) df).
    apply in_or_app. right. exact Hm. }
  destruct (letter_counts recent Hrecent) as (HW & HD & HL).
  destruct (league_frame_totals recent Hrecent) as (Hsum & Hpts & _ & _ & _ & Hrange).
  assert (Hlen : len recent <= last_n).
  { unfold len, recent. rewrite length_skipn. lia. }
  rewrite length_map. fold (len recent).
  repeat split; try assumption; lia.
Qed.

Lemma get_form_consistent_witness :
  0 <= 5
  /\ Forall league_record Samples.three_matches
  /\ Aggregators.form_points (Aggregators.get_form Samples.three_matches 5)
     <= Aggregators.max_points (Aggregators.get_form Samples.three_matches 5).
Proof.
  assert (H5 : 0 <= 5) by lia.
  assert (H : Forall league_record Samples.three_matches).
  { unfold Samples.three_matches.
    repeat (apply Forall_cons;
            [ split; [ reflexivity | unfold valid_points; cbn; auto ] | ]).
    apply Forall_nil. }
  split; [ exact H5 | ]. split; [ exact H | ].
  destruct (get_form_consistent Samples.three_matches 5 H5 H) as (_ & _ & _ & _ & _ & Hb).
  exact (proj2 Hb).
Defined.

(** X6: with a window at least as long as a non-empty frame, the form
    covers every match, and its points, goals and win, draw and loss
    counts are those of the season summary. *)
Theorem get_form_whole_season (df : DataFrame) (last_n : Z) :
  df <> [] -> len df <= last_n ->
  let f := Aggregators.get_form df last_n in
  let summary := Aggregators.get_season_summary df in
  List.length (Aggregators.form_list f) = List.length df
  /\ dict_lookup summary "total_points" = Some (VInt (Aggregators.form_points f))
  /\ dict_lookup summary "goals_scored" = Some (VInt (Aggregators.goals_scored f))
  /\ dict_lookup summary "goals_conceded" = Some (VInt (Aggregators.goals_conceded f))
  /\ dict_lookup summary "wins" = Some (VInt (Aggregators.wins f))
  /\ dict_lookup summary "draws" = Some (VInt (Aggregators.draws f))
  /\ dict_lookup summary "losses" = Some (VInt (Aggregators.losses f)).
Proof.
  intros Hne Hlen f summary. unfold f, summary, Aggregators.get_form.
  assert (Hn : 0 <= last_n) by (unfold len in Hlen; lia).
  rewrite (tail_nonneg last_n df Hn).
  replace (List.length df - Z.to_nat last_n)%nat with 0%nat
    by (unfold len in Hlen; lia).
  cbn [skipn Aggregators.form_list Aggregators.wins Aggregators.draws Aggregators.losses
       Aggregators.form_points Aggregators.goals_scored Aggregators.goals_conceded].
  split; [ apply length_map | ].
  repeat split; rewrite (season_summary_own df _ Hne) by reflexivity; reflexivity.
Qed.

Lemma get_form_whole_season_witness :
  Samples.three_matches <> [] /\ len Samples.three_matches <= 5
  /\ dict_lookup (Aggregators.get_season_summary Samples.three_matches) "total_points"
     = Some (VInt (Aggregators.form_points (Aggregators.get_form Samples.three_matches 5))).
Proof.
  assert (Hne : Samples.three_matches <> []) by discriminate.
  assert (Hlen : len Samples.three_matches <= 5) by (cbn; lia).
  split; [ exact Hne | ]. split; [ exact Hlen | ].
  exact (proj1 (proj2 (get_form_whole_season Samples.three_matches 5 Hne Hlen))).
Defined.

(** ** Home and away *)

Import SplitFacts.

Lemma sumZ_by_side (f : MatchRecord -> Z) (df : DataFrame) :
  sides_known df ->
  sumZ f (where_eq Side "Home" df) + sumZ f (where_eq Side "Away" df) = sumZ f df.
Proof.
  unfold sides_known, where_eq. induction 1 as [ | r df Hr _ IH ]; [ reflexivity | ].
  cbn [filter]. destruct Hr as [E | E]; rewrite E.
  - change (String.eqb "Home" "Home") with true.
    change (String.eqb "Home" "Away") with false.
    cbv iota. rewrite !sumZ_cons. lia.
  - change (String.eqb "Away" "Home") with false.
    change (String.eqb "Away" "Away") with true.
    cbv iota. rewrite !sumZ_cons. lia.
Qed.

(** X7: when every match is marked Home or Away, the two halves of
    [get_home_away_split] add up to the season summary: matches, wins,
    draws, losses, points and goals scored and conceded of the home and
    the away side sum to the summary's figure, and the summary's
    [home_wins] and [away_wins] are the wins of the two sides. *)
Theorem home_away_adds_up (df : DataFrame) :
  df <> [] -> sides_known df ->
  exists home away : dict,
    Comparisons.results_lookup (Aggregators.get_home_away_split df) "home" = Some home
    /\ Comparisons.results_lookup (Aggregators.get_home_away_split df) "away" = Some away
    /\ Forall (fun kk : string * string =>
                 exists h a : Z,
                   int_at home (fst kk) = Some h
                   /\ int_at away (fst kk) = Some a
                   /\ int_at (Aggregators.get_season_summary df) (snd kk) = Some (h + a))
         split_counts
    /\ int_at (Aggregators.get_season_summary df) "home_wins" = int_at home "wins"
    /\ int_at (Aggregators.get_season_summary df) "away_wins" = int_at away "wins".
Proof.
  intros Hne Hs.
  eexists. eexists. split; [ reflexivity | ]. split; [ reflexivity | ].
  assert (Hlen : len (where_eq Side "Home" df) + len (where_eq Side "Away" df) = len df).
  { rewrite <- !sumZ_one. apply (sumZ_by_side (fun _ => 1)). exact Hs. }
  split.
  - unfold split_counts, int_at.
    repeat apply Forall_cons; try apply Forall_nil; cbn [fst snd];
      rewrite (season_summary_own df _ Hne) by reflexivity;
      (eexists; eexists; split; [ reflexivity | split; [ reflexivity | ] ]);
      lookup_literal; f_equal; symmetry;
      first [ exact Hlen | apply sumZ_by_side; exact Hs ].
  - unfold int_at. split;
      rewrite (season_summary_own df _ Hne) by reflexivity; reflexivity.
Qed.

Lemma home_away_adds_up_witness :
  Samples.three_matches <> [] /\ sides_known Samples.three_matches
  /\ exists home away : dict,
       Comparisons.results_lookup (Aggregators.get_home_away_split Samples.three_matches)
         "home" = Some home
       /\ Comparisons.results_lookup (Aggregators.get_home_away_split Samples.three_matches)
            "away" = Some away
       /\ int_at (Aggregators.get_season_summary Samples.three_matches) "home_wins"
          = int_at home "wins".
Proof.
  assert (Hne : Samples.three_matches <> []) by discriminate.
  assert (Hs : sides_known Samples.three_matches).
  { unfold sides_known, Samples.three_matches.
    repeat (apply Forall_cons; [ cbn; auto | ]). apply Forall_nil. }
  split; [ exact Hne | ]. split; [ exact Hs | ].
  destruct (home_away_adds_up Samples.three_matches Hne Hs)
    as (home & away & Hh & Ha & _ & Hw & _).
  exists home, away. split; [ exact Hh | ]. split; [ exact Ha | exact Hw ].
Defined.

(** ** Keys of the merged season summary *)

Lemma keys_dict_set (d : dict) (k : string) (v : value) :
  keys (Aggregators.dict_set d k v) = keys_set (keys d) k.
Proof.
  induction d as [ | [k0 v0] d IH ]; cbn [Aggregators.dict_set keys map fst keys_set].
  - reflexivity.
  - destruct (String.eqb k k0); cbn [map fst]; [ reflexivity | ].
    unfold keys in IH. rewrite IH. reflexivity.
Qed.

Lemma keys_dict_update (d d' : dict) :
  keys (Aggregators.dict_update d d') = fold_left keys_set (keys d') (keys d).
Proof.
  unfold Aggregators.dict_update. revert d.
  induction d' as [ | [k0 v0] d' IH ]; intro d; cbn [fold_left keys map fst snd].
  - reflexivity.
  - unfold keys in IH. rewrite IH. fold (keys (Aggregators.dict_set d k0 v0)).
    rewrite keys_dict_set. reflexivity.
Qed.

Lemma clean_sheets_normalised (df : DataFrame) :
  Forall normalised df -> Defensive.clean_sheets df = sumZ is_clean_sheet df.
Proof.
  intro H. unfold Defensive.clean_sheets. apply sumZ_ext.
  eapply Forall_impl; [ | exact H ].
  intros m Hm. unfold normalised in Hm. rewrite Hm at 2. reflexivity.
Qed.

(** X8: the summary of a non-empty frame is the union of the function's
    own twelve entries and the three engine maps, 54 distinct keys in
    all; on the shared keys the later map wins: [matches] is the match
    count, equal to [matches_played], and [clean_sheets] is the defensive
    engine's count of matches without a goal conceded, which for
    normalised records is the sum of the [is_clean_sheet] flags the
    function first stored. *)
Theorem season_summary_keys (df : DataFrame) :
  df <> [] ->
  let summary := Aggregators.get_season_summary df in
  NoDup (keys summary)
  /\ List.length (keys summary) = 54%nat
  /\ (forall k, In k (keys summary) <->
                In k [ "matches_played"; "wins"; "draws"; "losses"; "total_points";
                       "points_per_game"; "goals_scored"; "goals_conceded";
                       "goal_difference"; "clean_sheets"; "home_wins"; "away_wins" ]%string
                \/ In k (keys (Attacking.get_attacking_metrics df))
                \/ In k (keys (Defensive.get_defensive_metrics df))
                \/ In k (keys (Possession.get_possession_metrics df)))
  /\ dict_lookup summary "matches" = Some (VInt (len df))
  /\ dict_lookup summary "matches_played" = Some (VInt (len df))
  /\ dict_lookup summary "clean_sheets" = Some (VInt (Defensive.clean_sheets df))
  /\ (Forall normalised df -> Defensive.clean_sheets df = sumZ is_clean_sheet df).
Proof.
  intros Hne summary.
  assert (Hkeys : keys summary
                  = [ "matches_played"; "wins"; "draws"; "losses"; "total_points";
                      "points_per_game"; "goals_scored"; "goals_conceded";
                      "goal_difference"; "clean_sheets"; "home_wins"; "away_wins";
                      "matches"; "total_goals"; "total_xg"; "goals_per_game";
                      "xg_per_game"; "xg_overperformance"; "xg_overperformance_per_game";
                      "shot_conversion_pct"; "shots_on_target_pct";
                      "big_chance_conversion_pct"; "shots_per_game";
                      "shots_on_target_per_game"; "big_chances_per_game";
                      "xgot_per_game"; "shots_inside_box_pct"; "total_big_chances";
                      "total_big_chances_missed"; "total_goals_conceded";
                      "goals_conceded_per_game"; "clean_sheet_pct"; "tackles_per_game";
                      "interceptions_per_game"; "blocks_per_game"; "clearances_per_game";
                      "defensive_actions_per_game"; "saves_per_game"; "total_tackles";
                      "total_interceptions"; "total_blocks"; "total_clearances";
                      "avg_possession"; "passes_per_game"; "pass_accuracy_pct";
                      "opp_half_passes_per_game"; "own_half_passes_per_game";
                      "long_ball_accuracy_pct"; "cross_accuracy_pct";
                      "touches_in_box_per_game"; "corners_per_game";
                      "successful_dribbles_per_game"; "total_passes";
                      "total_corners" ]%string).
  { unfold summary, Aggregators.get_season_summary.
    destruct (len df =? 0) eqn:E.
    { apply Z.eqb_eq, len_zero_iff in E. contradiction. }
    rewrite !keys_dict_update.
    unfold Attacking.get_attacking_metrics, Defensive.get_defensive_metrics,
      Possession.get_possession_metrics.
    cbn [keys map fst]. vm_compute. reflexivity. }
  split.
  { rewrite Hkeys.
    assert (G : forall l : list string, nodup string_dec l = l -> NoDup l)
      by (intros l <-; apply NoDup_nodup).
    apply G. vm_compute. reflexivity. }
  split; [ rewrite Hkeys; reflexivity | ].
  split.
  { intro k. rewrite Hkeys.
    unfold Attacking.get_attacking_metrics, Defensive.get_defensive_metrics,
      Possession.get_possession_metrics.
    cbn [keys map fst In]. tauto. }
  assert (Hl : forall k v,
             dict_lookup (rev (Possession.get_possession_metrics df)) k = Some v ->
             dict_lookup summary k = Some v).
  { intros k v H. unfold summary, Aggregators.get_season_summary.
    destruct (len df =? 0) eqn:E.
    { apply Z.eqb_eq, len_zero_iff in E. contradiction. }
    rewrite dict_lookup_update, H. reflexivity. }
  split; [ apply Hl; reflexivity | ].
  split; [ unfold summary; rewrite (season_summary_own df _ Hne) by reflexivity; reflexivity | ].
  split; [ | apply clean_sheets_normalised ].
  unfold summary, Aggregators.get_season_summary.
  destruct (len df =? 0) eqn:E.
  { apply Z.eqb_eq, len_zero_iff in E. contradiction. }
  rewrite dict_lookup_update.
  replace (dict_lookup (rev (Possession.get_possession_metrics df)) "clean_sheets")
    with (@None value) by reflexivity.
  rewrite dict_lookup_update.
  replace (dict_lookup (rev (Defensive.get_defensive_metrics df)) "clean_sheets")
    with (Some (VInt (Defensive.clean_sheets df))) by reflexivity.
  reflexivity.
Qed.

Lemma season_summary_keys_witness :
  Samples.three_matches <> []
  /\ dict_lookup (Aggregators.get_season_summary Samples.three_matches) "clean_sheets"
     = Some (VInt (Defensive.clean_sheets Samples.three_matches)).
Proof.
  assert (Hne : Samples.three_matches <> []) by discriminate.
  split; [ exact Hne | ].
  destruct (season_summary_keys Samples.three_matches Hne) as (_ & _ & _ & _ & _ & H & _).
  exact H.
Defined.

(** ** Attacking rules: the findings of frames with rows *)

Import RuleFacts.

Lemma displayed_finite_shot_quality (df : DataFrame) (k : string) :
  exists q : Q, displayed (Attacking.get_shot_quality_metrics df) k = FFinite q.
Proof.
  pose proof (shot_quality_metrics_finite df) as H.
  unfold displayed, dict_get.
  destruct (dict_lookup (Attacking.get_shot_quality_metrics df) k) as [v | ] eqn:E.
  - assert (Hv : finite (to_float v) = true).
    { unfold all_finite in H. rewrite Forall_forall in H.
      revert E. generalize (Attacking.get_shot_quality_metrics df) H.
      intros d Hd. induction d as [ | [k0 v0] d IH ]; cbn [dict_lookup]; [ discriminate | ].
      destruct (String.eqb k k0).
      - intro E. injection E as <-. apply (Hd (k0, v0)). left. reflexivity.
      - intro E. apply IH; [ | exact E ]. intros x Hx. apply Hd. right. exact Hx. }
    destruct (to_float v); try discriminate. eexists. reflexivity.
  - eexists. reflexivity.
Qed.

Lemma displayed_finite_set_piece (df : DataFrame) (k : string) :
  exists q : Q, displayed (Attacking.get_set_piece_metrics df) k = FFinite q.
Proof.
  pose proof (set_piece_metrics_finite df) as H.
  unfold displayed, dict_get.
  destruct (dict_lookup (Attacking.get_set_piece_metrics df) k) as [v | ] eqn:E.
  - assert (Hv : finite (to_float v) = true).
    { unfold all_finite in H. rewrite Forall_forall in H.
      revert E. generalize (Attacking.get_set_piece_metrics df) H.
      intros d Hd. induction d as [ | [k0 v0] d IH ]; cbn [dict_lookup]; [ discriminate | ].
      destruct (String.eqb k k0).
      - intro E. injection E as <-. apply (Hd (k0, v0)). left. reflexivity.
      - intro E. apply IH; [ | exact E ]. intros x Hx. apply Hd. right. exact Hx. }
    destruct (to_float v); try discriminate. eexists. reflexivity.
  - eexists. reflexivity.
Qed.

Lemma set_piece_rule_fires (team_df comp_df : DataFrame) (tn cn : string) (pt pc : Q) :
  team_df <> [] -> comp_df <> [] ->
  displayed (Attacking.get_set_piece_metrics team_df) "set_piece_xg_pct" = FFinite pt ->
  displayed (Attacking.get_set_piece_metrics comp_df) "set_piece_xg_pct" = FFinite pc ->
  exists i,
    title i = "Set Piece Dependency"%string
    /\ severity i = (if Qltb (inject_Z 35) pt then "high" else "medium")%string
    /\ Attacking.set_piece_rule (Attacking.get_set_piece_metrics team_df)
         (Attacking.get_set_piece_metrics comp_df) tn cn
       = Ok (fires (Qltb (pc + inject_Z 5) pt) i).
Proof.
  intros Ht Hc Hpt Hpc.
  destruct (set_piece_rule_condition team_df comp_df tn cn pt pc Ht Hc Hpt Hpc)
    as (t & c & _ & _ & H).
  eexists. split; [ | split; [ | rewrite H; unfold fires;
                                destruct (Qltb (pc + inject_Z 5) pt); reflexivity ] ];
    reflexivity.
Qed.

Lemma shot_quality_rule_fires (team_df comp_df : DataFrame) (tn cn : string) (qt qc : Q) :
  team_df <> [] -> comp_df <> [] ->
  displayed (Attacking.get_shot_quality_metrics team_df) "avg_xg_per_shot" = FFinite qt ->
  displayed (Attacking.get_shot_quality_metrics comp_df) "avg_xg_per_shot" = FFinite qc ->
  exists i,
    title i = "Shot Quality Gap"%string
    /\ severity i = (if Qltb (qt + - qc) (- (3 # 100)) then "high" else "medium")%string
    /\ Attacking.shot_quality_rule (Attacking.get_shot_quality_metrics team_df)
         (Attacking.get_shot_quality_metrics comp_df) tn cn
       = Ok (fires (Qltb (qt + - qc) (- (2 # 100))) i).
Proof.
  intros Ht Hc.
  unfold displayed, Attacking.shot_quality_rule, Attacking.get_shot_quality_metrics.
  destruct (len team_df =? 0) eqn:Et.
  { apply Z.eqb_eq, len_zero_iff in Et. contradiction. }
  destruct (len comp_df =? 0) eqn:Ec.
  { apply Z.eqb_eq, len_zero_iff in Ec. contradiction. }
  unfold dict_get, dict_index. lookup_literal.
  intros Hqt Hqc. rewrite Hqt, Hqc.
  cbn [bind fsub fadd fneg fltb].
  eexists. split; [ | split; [ | unfold fires;
      destruct (Qltb (qt + - qc) (- (2 # 100))); reflexivity ] ]; reflexivity.
Qed.

Lemma blocked_rule_fires (team_df comp_df : DataFrame) (tn cn : string) (bt bc : Q) :
  team_df <> [] -> comp_df <> [] ->
  displayed (Attacking.get_shot_quality_metrics team_df) "blocked_rate_pct" = FFinite bt ->
  displayed (Attacking.get_shot_quality_metrics comp_df) "blocked_rate_pct" = FFinite bc ->
  exists i,
    title i = "Shots Being Blocked"%string
    /\ severity i = "medium"%string
    /\ Attacking.blocked_rule (Attacking.get_shot_quality_metrics team_df)
         (Attacking.get_shot_quality_metrics comp_df) tn cn
       = Ok (fires (Qltb (inject_Z 5) (bt + - bc)) i).
Proof.
  intros Ht Hc.
  unfold displayed, Attacking.blocked_rule, Attacking.get_shot_quality_metrics.
  destruct (len team_df =? 0) eqn:Et.
  { apply Z.eqb_eq, len_zero_iff in Et. contradiction. }
  destruct (len comp_df =? 0) eqn:Ec.
  { apply Z.eqb_eq, len_zero_iff in Ec. contradiction. }
  unfold dict_get, dict_index. lookup_literal.
  intros Hbt Hbc. rewrite Hbt, Hbc.
  cbn [bind fsub fadd fneg fgtb fltb of_int].
  eexists. split; [ | split; [ | unfold fires;
      destruct (Qltb (inject_Z 5) (bt + - bc)); reflexivity ] ]; reflexivity.
Qed.

Lemma woodwork_rule_fires (team_df : DataFrame) (tn : string) :
  team_df <> [] ->
  exists i,
    title i = "Finishing Luck"%string
    /\ severity i = "info"%string
    /\ finding i = [ Txt tn; Txt " hit woodwork ";
                     Num (VInt (sumZ Hit_woodwork team_df));
                     Txt " times (est. ";
                     Num (VFloat (pyround 1 (fmul (of_int (sumZ Hit_woodwork team_df))
                                               (FFinite (1 # 2)))));
                     Txt " unlucky goals)" ]
    /\ Attacking.woodwork_rule (Attacking.get_shot_quality_metrics team_df) tn
       = Ok (fires (5 <? sumZ Hit_woodwork team_df) i).
Proof.
  intros Ht.
  unfold Attacking.woodwork_rule, Attacking.get_shot_quality_metrics.
  destruct (len team_df =? 0) eqn:Et.
  { apply Z.eqb_eq, len_zero_iff in Et. contradiction. }
  unfold dict_get, dict_index. lookup_literal.
  cbn [bind to_float fgtb fltb of_int].
  assert (E : Qltb (inject_Z 5) (inject_Z (sumZ Hit_woodwork team_df))
              = (5 <? sumZ Hit_woodwork team_df)).
  { unfold Qltb, Qle_bool. cbn [Qnum Qden inject_Z].
    rewrite !Z.mul_1_r. rewrite Z.ltb_antisym. reflexivity. }
  rewrite E.
  eexists. split; [ | split; [ | split; [ | unfold fires;
      destruct (5 <? sumZ Hit_woodwork team_df); reflexivity ] ] ]; reflexivity.
Qed.

Lemma open_play_rule_fires (team_df comp_df : DataFrame) (tn cn : string) (ot oc : Q) :
  team_df <> [] -> comp_df <> [] ->
  displayed (Attacking.get_set_piece_metrics team_df) "open_play_xg_per_game" = FFinite ot ->
  displayed (Attacking.get_set_piece_metrics comp_df) "open_play_xg_per_game" = FFinite oc ->
  exists i,
    title i = "Open Play Creation"%string
    /\ severity i = "high"%string
    /\ Attacking.open_play_rule (Attacking.get_set_piece_metrics team_df)
         (Attacking.get_set_piece_metrics comp_df) tn cn
       = Ok (fires (Qltb ot (oc + - (3 # 10))) i).
Proof.
  intros Ht Hc.
  unfold displayed, Attacking.open_play_rule, Attacking.get_set_piece_metrics.
  destruct (len team_df =? 0) eqn:Et.
  { apply Z.eqb_eq, len_zero_iff in Et. contradiction. }
  destruct (len comp_df =? 0) eqn:Ec.
  { apply Z.eqb_eq, len_zero_iff in Ec. contradiction. }
  unfold dict_get, dict_index. lookup_literal.
  intros Hot Hoc. rewrite Hot, Hoc.
  cbn [bind fsub fadd fneg fltb].
  eexists. split; [ | split; [ | unfold fires;
      destruct (Qltb ot (oc + - (3 # 10))); reflexivity ] ]; reflexivity.
Qed.

Lemma in_fires (c : bool) (x i : Insight) : In i (fires c x) <-> c = true /\ i = x.
Proof.
  unfold fires. destruct c; cbn [In]; split.
  - intros [E | []]. split; [ reflexivity | congruence ].
  - intros [_ ->]. left. reflexivity.
  - intros [].
  - intros [E _]. discriminate E.
Qed.

(** The result of [get_tactical_insights] on two frames with rows: the
    five rules, each decided by the displayed metrics. *)
Lemma attacking_insights_split (team_df comp_df : DataFrame) (tn cn : string) :
  team_df <> [] -> comp_df <> [] ->
  exists (pt pc qt qc bt bc ot oc : Q) (i1 i2 i3 i4 i5 : Insight),
    displayed (Attacking.get_set_piece_metrics team_df) "set_piece_xg_pct" = FFinite pt
    /\ displayed (Attacking.get_set_piece_metrics comp_df) "set_piece_xg_pct" = FFinite pc
    /\ displayed (Attacking.get_shot_quality_metrics team_df) "avg_xg_per_shot" = FFinite qt
    /\ displayed (Attacking.get_shot_quality_metrics comp_df) "avg_xg_per_shot" = FFinite qc
    /\ displayed (Attacking.get_shot_quality_metrics team_df) "blocked_rate_pct" = FFinite bt
    /\ displayed (Attacking.get_shot_quality_metrics comp_df) "blocked_rate_pct" = FFinite bc
    /\ displayed (Attacking.get_set_piece_metrics team_df) "open_play_xg_per_game" = FFinite ot
    /\ displayed (Attacking.get_set_piece_metrics comp_df) "open_play_xg_per_game" = FFinite oc
    /\ (title i1 = "Set Piece Dependency"
        /\ severity i1 = if Qltb (inject_Z 35) pt then "high" else "medium")%string
    /\ (title i2 = "Shot Quality Gap"
        /\ severity i2 = if Qltb (qt + - qc) (- (3 # 100)) then "high" else "medium")%string
    /\ (title i3 = "Shots Being Blocked" /\ severity i3 = "medium")%string
    /\ (title i4 = "Finishing Luck" /\ severity i4 = "info")%string
    /\ (title i5 = "Open Play Creation" /\ severity i5 = "high")%string
    /\ Attacking.get_tactical_insights team_df comp_df tn cn
       = Ok (fires (Qltb (pc + inject_Z 5) pt) i1
             ++ fires (Qltb (qt + - qc) (- (2 # 100))) i2
             ++ fires (Qltb (inject_Z 5) (bt + - bc)) i3
             ++ fires (5 <? sumZ Hit_woodwork team_df) i4
             ++ fires (Qltb ot (oc + - (3 # 10))) i5)%list.
Proof.
  intros Ht Hc.
  destruct (displayed_finite_set_piece team_df "set_piece_xg_pct") as [pt Hpt].
  destruct (displayed_finite_set_piece comp_df "set_piece_xg_pct") as [pc Hpc].
  destruct (displayed_finite_shot_quality team_df "avg_xg_per_shot") as [qt Hqt].
  destruct (displayed_finite_shot_quality comp_df "avg_xg_per_shot") as [qc Hqc].
  destruct (displayed_finite_shot_quality team_df "blocked_rate_pct") as [bt Hbt].
  destruct (displayed_finite_shot_quality comp_df "blocked_rate_pct") as [bc Hbc].
  destruct (displayed_finite_set_piece team_df "open_play_xg_per_game") as [ot Hot].
  destruct (displayed_finite_set_piece comp_df "open_play_xg_per_game") as [oc Hoc].
  destruct (set_piece_rule_fires team_df comp_df tn cn pt pc Ht Hc Hpt Hpc)
    as (i1 & T1 & S1 & R1).
  destruct (shot_quality_rule_fires team_df comp_df tn cn qt qc Ht Hc Hqt Hqc)
    as (i2 & T2 & S2 & R2).
  destruct (blocked_rule_fires team_df comp_df tn cn bt bc Ht Hc Hbt Hbc)
    as (i3 & T3 & S3 & R3).
  destruct (woodwork_rule_fires team_df tn Ht) as (i4 & T4 & S4 & _ & R4).
  destruct (open_play_rule_fires team_df comp_df tn cn ot oc Ht Hc Hot Hoc)
    as (i5 & T5 & S5 & R5).
  exists pt, pc, qt, qc, bt, bc, ot, oc, i1, i2, i3, i4, i5.
  repeat (split; [ assumption | ]).
  split; [ split; assumption | ].
  split; [ split; assumption | ].
  split; [ split; assumption | ].
  split; [ split; assumption | ].
  split; [ split; assumption | ].
  unfold Attacking.get_tactical_insights.
  rewrite R1, R2, R3, R4, R5. reflexivity.
Qed.

(** X9: on a subject and a comparison frame with rows,
    [get_tactical_insights] never raises; it returns at most five
    findings, at most one per rule and in the fixed order of the rules,
    each tagged "high", "medium" or "info". *)
Theorem attacking_insights_ordered (team_df comp_df : DataFrame) (tn cn : string) :
  team_df <> [] -> comp_df <> [] ->
  exists l,
    Attacking.get_tactical_insights team_df comp_df tn cn = Ok l
    /\ subsequence (map title l) attacking_titles
    /\ NoDup (map title l)
    /\ (List.length l <= 5)%nat
    /\ Forall (fun i => severity i = "high" \/ severity i = "medium"
                        \/ severity i = "info")%string l.
Proof.
  intros Ht Hc.
  destruct (attacking_insights_split team_df comp_df tn cn Ht Hc)
    as (pt & pc & qt & qc & bt & bc & ot & oc & i1 & i2 & i3 & i4 & i5
        & _ & _ & _ & _ & _ & _ & _ & _
        & [T1 S1] & [T2 S2] & [T3 S3] & [T4 S4] & [T5 S5] & R).
  eexists. split; [ exact R | ].
  assert (S1' : (severity i1 = "high" \/ severity i1 = "medium"
                 \/ severity i1 = "info")%string)
    by (rewrite S1; destruct (Qltb (inject_Z 35) pt); auto).
  assert (S2' : (severity i2 = "high" \/ severity i2 = "medium"
                 \/ severity i2 = "info")%string)
    by (rewrite S2; destruct (Qltb (qt + - qc) (- (3 # 100))); auto).
  destruct (Qltb (pc + inject_Z 5) pt), (Qltb (qt + - qc) (- (2 # 100))),
    (Qltb (inject_Z 5) (bt + - bc)), (5 <? sumZ Hit_woodwork team_df),
    (Qltb ot (oc + - (3 # 10)));
    cbn [fires app map List.length]; rewrite ?T1, ?T2, ?T3, ?T4, ?T5;
    (split; [ cbn; tauto | ]);
    (split; [ apply (NoDup_nodup string_dec) || (repeat constructor; cbn; intuition discriminate) | ]);
    (split; [ lia | ]);
    repeat apply Forall_cons; try apply Forall_nil;
    rewrite ?S3, ?S4, ?S5; auto.
Qed.

Lemma attacking_insights_ordered_witness :
  Samples.set_piece_team "Team X" 40 <> []
  /\ Samples.set_piece_team "Team Y" 30 <> []
  /\ exists l,
       Attacking.get_tactical_insights (Samples.set_piece_team "Team X" 40)
         (Samples.set_piece_team "Team Y" 30) "Team X" "Team Y" = Ok l
       /\ (List.length l <= 5)%nat.
Proof.
  assert (Ht : Samples.set_piece_team "Team X" 40 <> []) by discriminate.
  assert (Hc : Samples.set_piece_team "Team Y" 30 <> []) by discriminate.
  split; [ exact Ht | ]. split; [ exact Hc | ].
  destruct (attacking_insights_ordered _ _ "Team X"%string "Team Y"%string Ht Hc)
    as (l & Hl & _ & _ & Hlen & _).
  exists l. split; assumption.
Defined.

Lemma insights_membership (c1 c2 c3 c4 c5 : bool) (i1 i2 i3 i4 i5 i : Insight) :
  In i (fires c1 i1 ++ fires c2 i2 ++ fires c3 i3 ++ fires c4 i4 ++ fires c5 i5)%list
  <-> (c1 = true /\ i = i1) \/ (c2 = true /\ i = i2) \/ (c3 = true /\ i = i3)
      \/ (c4 = true /\ i = i4) \/ (c5 = true /\ i = i5).
Proof.
  rewrite !in_app_iff, !in_fires. tauto.
Qed.

(** Which of the attacking findings are present, and which finding a
    title denotes. *)
Lemma attacking_findings_present (c1 c2 c3 c4 c5 : bool) (i1 i2 i3 i4 i5 : Insight) :
  title i1 = "Set Piece Dependency"%string ->
  title i2 = "Shot Quality Gap"%string ->
  title i3 = "Shots Being Blocked"%string ->
  title i4 = "Finishing Luck"%string ->
  title i5 = "Open Play Creation"%string ->
  let l := (fires c1 i1 ++ fires c2 i2 ++ fires c3 i3 ++ fires c4 i4 ++ fires c5 i5)%list in
  ((emitted "Set Piece Dependency" l <-> c1 = true)
   /\ (emitted "Shot Quality Gap" l <-> c2 = true)
   /\ (emitted "Shots Being Blocked" l <-> c3 = true)
   /\ (emitted "Finishing Luck" l <-> c4 = true)
   /\ (emitted "Open Play Creation" l <-> c5 = true))
  /\ (forall i, In i l ->
        (title i = "Set Piece Dependency"%string -> i = i1)
        /\ (title i = "Shot Quality Gap"%string -> i = i2)
        /\ (title i = "Shots Being Blocked"%string -> i = i3)
        /\ (title i = "Finishing Luck"%string -> i = i4)
        /\ (title i = "Open Play Creation"%string -> i = i5)).
Proof.
  intros T1 T2 T3 T4 T5 l.
  assert (Hsel : forall i, In i l ->
            (title i = "Set Piece Dependency"%string -> i = i1 /\ c1 = true)
            /\ (title i = "Shot Quality Gap"%string -> i = i2 /\ c2 = true)
            /\ (title i = "Shots Being Blocked"%string -> i = i3 /\ c3 = true)
            /\ (title i = "Finishing Luck"%string -> i = i4 /\ c4 = true)
            /\ (title i = "Open Play Creation"%string -> i = i5 /\ c5 = true)).
  { intros i Hi. unfold l in Hi. apply insights_membership in Hi.
    destruct Hi as [[C ->] | [[C ->] | [[C ->] | [[C ->] | [C ->]]]]];
      rewrite ?T1, ?T2, ?T3, ?T4, ?T5;
      repeat split; try discriminate; try reflexivity; try assumption; intros _; assumption. }
  split.
  - repeat split.
    all: try (intros (i & Hi & Hti); destruct (Hsel i Hi) as (H1 & H2 & H3 & H4 & H5);
              first [ exact (proj2 (H1 Hti)) | exact (proj2 (H2 Hti))
                    | exact (proj2 (H3 Hti)) | exact (proj2 (H4 Hti))
                    | exact (proj2 (H5 Hti)) ]).
    + intro C. exists i1. split; [ | exact T1 ].
      unfold l. apply insights_membership. left. split; [ exact C | reflexivity ].
    + intro C. exists i2. split; [ | exact T2 ].
      unfold l. apply insights_membership. right. left. split; [ exact C | reflexivity ].
    + intro C. exists i3. split; [ | exact T3 ].
      unfold l. apply insights_membership. right. right. left.
      split; [ exact C | reflexivity ].
    + intro C. exists i4. split; [ | exact T4 ].
      unfold l. apply insights_membership. right. right. right. left.
      split; [ exact C | reflexivity ].
    + intro C. exists i5. split; [ | exact T5 ].
      unfold l. apply insights_membership. right. right. right. right.
      split; [ exact C | reflexivity ].
  - intros i Hi. destruct (Hsel i Hi) as (H1 & H2 & H3 & H4 & H5).
    repeat split; intro Hti;
      first [ exact (proj1 (H1 Hti)) | exact (proj1 (H2 Hti)) | exact (proj1 (H3 Hti))
            | exact (proj1 (H4 Hti)) | exact (proj1 (H5 Hti)) ].
Qed.



(** X11: for frames with rows, the "Finishing Luck" finding depends on the
    subject alone: it is emitted exactly when the subject hit the woodwork
    more than 5 times in total, always with severity "info", and it
    quotes that total and half of it (rounded to one decimal) as the
    estimate of unlucky goals. *)
Theorem finishing_luck_rule (team_df comp_df : DataFrame) (tn cn : string) :
  team_df <> [] -> comp_df <> [] ->
  exists l,
    Attacking.get_tactical_insights team_df comp_df tn cn = Ok l
    /\ (emitted "Finishing Luck" l <-> 5 < sumZ Hit_woodwork team_df)
    /\ (forall i, In i l -> title i = "Finishing Luck"%string ->
        severity i = "info"%string
        /\ finding i
           = [ Txt tn; Txt " hit woodwork ";
               Num (VInt (sumZ Hit_woodwork team_df));
               Txt " times (est. ";
               Num (VFloat (FFinite (Qround_to 1
                                       (inject_Z (sumZ Hit_woodwork team_df) * (1 # 2)))));
               Txt " unlucky goals)" ]).
Proof.
  intros Ht Hc.
  destruct (displayed_finite_set_piece team_df "set_piece_xg_pct") as [pt Hpt].
  destruct (displayed_finite_set_piece comp_df "set_piece_xg_pct") as [pc Hpc].
  destruct (displayed_finite_shot_quality team_df "avg_xg_per_shot") as [qt Hqt].
  destruct (displayed_finite_shot_quality comp_df "avg_xg_per_shot") as [qc Hqc].
  destruct (displayed_finite_shot_quality team_df "blocked_rate_pct") as [bt Hbt].
  destruct (displayed_finite_shot_quality comp_df "blocked_rate_pct") as [bc Hbc].
  destruct (displayed_finite_set_piece team_df "open_play_xg_per_game") as [ot Hot].
  destruct (displayed_finite_set_piece comp_df "open_play_xg_per_game") as [oc Hoc].
  destruct (set_piece_rule_fires team_df comp_df tn cn pt pc Ht Hc Hpt Hpc)
    as (i1 & T1 & _ & R1).
  destruct (shot_quality_rule_fires team_df comp_df tn cn qt qc Ht Hc Hqt Hqc)
    as (i2 & T2 & _ & R2).
  destruct (blocked_rule_fires team_df comp_df tn cn bt bc Ht Hc Hbt Hbc)
    as (i3 & T3 & _ & R3).
  destruct (woodwork_rule_fires team_df tn Ht) as (i4 & T4 & S4 & F4 & R4).
  destruct (open_play_rule_fires team_df comp_df tn cn ot oc Ht Hc Hot Hoc)
    as (i5 & T5 & _ & R5).
  destruct (attacking_findings_present
              (Qltb (pc + inject_Z 5) pt) (Qltb (qt + - qc) (- (2 # 100)))
              (Qltb (inject_Z 5) (bt + - bc)) (5 <? sumZ Hit_woodwork team_df)
              (Qltb ot (oc + - (3 # 10))) _ _ _ _ _ T1 T2 T3 T4 T5)
    as ((_ & _ & _ & He & _) & Hsel).
  eexists. split.
  { unfold Attacking.get_tactical_insights. rewrite R1, R2, R3, R4, R5. reflexivity. }
  split.
  - rewrite He. apply Z.ltb_lt.
  - intros i Hi Hti. destruct (Hsel i Hi) as (_ & _ & _ & H4 & _).
    rewrite (H4 Hti). split; [ exact S4 | exact F4 ].
Qed.

Lemma finishing_luck_rule_witness :
  Samples.set_piece_team "Team X" 40 <> []
  /\ Samples.set_piece_team "Team Y" 30 <> []
  /\ exists l,
       Attacking.get_tactical_insights (Samples.set_piece_team "Team X" 40)
         (Samples.set_piece_team "Team Y" 30) "Team X" "Team Y" = Ok l
       /\ ~ emitted "Finishing Luck" l.
Proof.
  assert (Ht : Samples.set_piece_team "Team X" 40 <> []) by discriminate.
  assert (Hc : Samples.set_piece_team "Team Y" 30 <> []) by discriminate.
  split; [ exact Ht | ]. split; [ exact Hc | ].
  destruct (finishing_luck_rule _ _ "Team X"%string "Team Y"%string Ht Hc)
    as (l & Hl & Hiff & _).
  exists l. split; [ exact Hl | ].
  intro He. apply Hiff in He. discriminate He.
Defined.



(** ** Attacking rules: frames without rows *)

Lemma raise_after_index (d : dict) (k : string) (A : Type)
  (body : value -> result A) :
  (forall v, body v = Raise KeyError) ->
  bind (dict_index d k) body = Raise KeyError.
Proof.
  intro H. unfold dict_index. destruct (dict_lookup d k); cbn [bind]; [ apply H | reflexivity ].
Qed.

Lemma set_piece_rule_no_comparison (d : dict) (tn cn : string) :
  Attacking.set_piece_rule d [] tn cn
  = if fgtb (displayed d "set_piece_xg_pct") (of_int 5) then Raise KeyError else Ok [].
Proof.
  unfold Attacking.set_piece_rule, displayed.
  replace (fadd (to_float (dict_get [] "set_piece_xg_pct" (VInt 0))) (of_int 5))
    with (of_int 5) by reflexivity.
  destruct (fgtb (to_float (dict_get d "set_piece_xg_pct" (VInt 0))) (of_int 5));
    [ | reflexivity ].
  apply raise_after_index. intro v. reflexivity.
Qed.

Lemma shot_quality_rule_no_comparison (d : dict) (tn cn : string) :
  Attacking.shot_quality_rule d [] tn cn
  = if fltb (fsub (displayed d "avg_xg_per_shot") (of_int 0)) (FFinite (- (2 # 100)))
    then Raise KeyError else Ok [].
Proof.
  unfold Attacking.shot_quality_rule, displayed.
  replace (to_float (dict_get [] "avg_xg_per_shot" (VInt 0))) with (of_int 0)
    by reflexivity.
  destruct (fltb (fsub (to_float (dict_get d "avg_xg_per_shot" (VInt 0))) (of_int 0))
              (FFinite (- (2 # 100)))); [ | reflexivity ].
  apply raise_after_index. intro v. reflexivity.
Qed.

Lemma blocked_rule_no_comparison (d : dict) (tn cn : string) :
  Attacking.blocked_rule d [] tn cn
  = if fgtb (fsub (displayed d "blocked_rate_pct") (of_int 0)) (of_int 5)
    then Raise KeyError else Ok [].
Proof.
  unfold Attacking.blocked_rule, displayed.
  replace (to_float (dict_get [] "blocked_rate_pct" (VInt 0))) with (of_int 0)
    by reflexivity.
  destruct (fgtb (fsub (to_float (dict_get d "blocked_rate_pct" (VInt 0))) (of_int 0))
              (of_int 5)); [ | reflexivity ].
  apply raise_after_index. intro v. reflexivity.
Qed.

Lemma open_play_rule_no_comparison (d : dict) (tn cn : string) :
  Attacking.open_play_rule d [] tn cn
  = if fltb (displayed d "open_play_xg_per_game") (fsub (of_int 0) (FFinite (3 # 10)))
    then Raise KeyError else Ok [].
Proof.
  unfold Attacking.open_play_rule, displayed.
  replace (to_float (dict_get [] "open_play_xg_per_game" (VInt 0))) with (of_int 0)
    by reflexivity.
  destruct (fltb (to_float (dict_get d "open_play_xg_per_game" (VInt 0)))
              (fsub (of_int 0) (FFinite (3 # 10)))); [ | reflexivity ].
  apply raise_after_index. intro v. reflexivity.
Qed.

Lemma set_piece_rule_no_subject (d : dict) (tn cn : string) :
  exists c : bool,
    Attacking.set_piece_rule [] d tn cn = if c then Raise KeyError else Ok [].
Proof.
  unfold Attacking.set_piece_rule.
  exists (fgtb (to_float (dict_get [] "set_piece_xg_pct" (VInt 0)))
            (fadd (to_float (dict_get d "set_piece_xg_pct" (VInt 0))) (of_int 5))).
  destruct (fgtb (to_float (dict_get [] "set_piece_xg_pct" (VInt 0)))
              (fadd (to_float (dict_get d "set_piece_xg_pct" (VInt 0))) (of_int 5)));
    reflexivity.
Qed.

Lemma shot_quality_rule_no_subject (d : dict) (tn cn : string) :
  Attacking.shot_quality_rule [] d tn cn
  = if fltb (fsub (of_int 0) (displayed d "avg_xg_per_shot")) (FFinite (- (2 # 100)))
    then Raise KeyError else Ok [].
Proof.
  unfold Attacking.shot_quality_rule, displayed.
  replace (to_float (dict_get [] "avg_xg_per_shot" (VInt 0))) with (of_int 0)
    by reflexivity.
  destruct (fltb (fsub (of_int 0) (to_float (dict_get d "avg_xg_per_shot" (VInt 0))))
              (FFinite (- (2 # 100)))); reflexivity.
Qed.

(** X13: [get_tactical_insights] is not safe on a frame without rows.
    With both frames empty it returns no finding.  With rows for the
    subject but none for the comparison team it raises [KeyError] as soon
    as the subject's displayed set-piece share exceeds 5, and the only
    finding it can return is "Finishing Luck".  With rows for the
    comparison team but none for the subject it raises [KeyError] whenever
    the comparison team's displayed xG per shot exceeds 0.02. *)
Theorem attacking_insights_missing_frame (team_df comp_df : DataFrame) (tn cn : string) :
  Attacking.get_tactical_insights [] [] tn cn = Ok []
  /\ (forall pt : Q,
        displayed (Attacking.get_set_piece_metrics team_df) "set_piece_xg_pct" = FFinite pt ->
        (5 < pt)%Q ->
        Attacking.get_tactical_insights team_df [] tn cn = Raise KeyError)
  /\ (forall l,
        Attacking.get_tactical_insights team_df [] tn cn = Ok l ->
        Forall (fun i => title i = "Finishing Luck"%string) l)
  /\ (forall qc : Q,
        displayed (Attacking.get_shot_quality_metrics comp_df) "avg_xg_per_shot" = FFinite qc ->
        (2 # 100 < qc)%Q ->
        Attacking.get_tactical_insights [] comp_df tn cn = Raise KeyError).
Proof.
  split; [ reflexivity | ].
  split.
  { intros pt Hpt Hgt. unfold Attacking.get_tactical_insights.
    change (Attacking.get_set_piece_metrics []) with (@nil (string * value)).
    rewrite set_piece_rule_no_comparison, Hpt.
    assert (E : fgtb (FFinite pt) (of_int 5) = true).
    { unfold fgtb, of_int. cbn [fltb]. apply Qltb_iff. exact Hgt. }
    rewrite E. reflexivity. }
  split.
  { intros l. unfold Attacking.get_tactical_insights.
    change (Attacking.get_set_piece_metrics []) with (@nil (string * value)).
    change (Attacking.get_shot_quality_metrics []) with (@nil (string * value)).
    rewrite set_piece_rule_no_comparison, shot_quality_rule_no_comparison,
      blocked_rule_no_comparison, open_play_rule_no_comparison.
    destruct (fgtb (displayed (Attacking.get_set_piece_metrics team_df) "set_piece_xg_pct")
                (of_int 5)); cbn [bind]; [ discriminate | ].
    destruct (fltb (fsub (displayed (Attacking.get_shot_quality_metrics team_df)
                            "avg_xg_per_shot") (of_int 0)) (FFinite (- (2 # 100))));
      cbn [bind]; [ discriminate | ].
    destruct (fgtb (fsub (displayed (Attacking.get_shot_quality_metrics team_df)
                            "blocked_rate_pct") (of_int 0)) (of_int 5));
      cbn [bind]; [ discriminate | ].
    destruct (Attacking.woodwork_rule (Attacking.get_shot_quality_metrics team_df) tn)
      as [l4 | e] eqn:E4; cbn [bind]; [ | discriminate ].
    destruct (fltb (displayed (Attacking.get_set_piece_metrics team_df)
                      "open_play_xg_per_game") (fsub (of_int 0) (FFinite (3 # 10))));
      cbn [bind]; [ discriminate | ].
    intro H. injection H as <-. cbn [app]. rewrite app_nil_r.
    revert E4. unfold Attacking.woodwork_rule.
    destruct (fgtb (to_float (dict_get (Attacking.get_shot_quality_metrics team_df)
                                "woodwork_total" (VInt 0))) (of_int 5)).
    - destruct (dict_index (Attacking.get_shot_quality_metrics team_df) "woodwork_total");
        cbn [bind]; [ | discriminate ].
      destruct (dict_index (Attacking.get_shot_quality_metrics team_df)
                  "potential_woodwork_goals"); cbn [bind]; [ | discriminate ].
      intro H. injection H as <-.
      apply Forall_cons; [ reflexivity | apply Forall_nil ].
    - intro H. injection H as <-. apply Forall_nil. }
  intros qc Hqc Hgt. unfold Attacking.get_tactical_insights.
  change (Attacking.get_set_piece_metrics []) with (@nil (string * value)).
  change (Attacking.get_shot_quality_metrics []) with (@nil (string * value)).
  destruct (set_piece_rule_no_subject (Attacking.get_set_piece_metrics comp_df) tn cn)
    as [c Hc].
  rewrite Hc. destruct c; cbn [bind]; [ reflexivity | ].
  rewrite shot_quality_rule_no_subject, Hqc.
  assert (E : fltb (fsub (of_int 0) (FFinite qc)) (FFinite (- (2 # 100))) = true).
  { unfold of_int. cbn [fsub fadd fneg fltb]. apply Qltb_iff.
    destruct qc as [n d]. unfold Qlt in *. cbn in *. lia. }
  rewrite E. reflexivity.
Qed.

Lemma attacking_insights_missing_frame_witness :
  displayed (Attacking.get_set_piece_metrics (Samples.set_piece_team "Team X" 40))
    "set_piece_xg_pct" = FFinite 40
  /\ (5 < 40)%Q
  /\ Attacking.get_tactical_insights (Samples.set_piece_team "Team X" 40) []
       "Team X" "Team Y" = Raise KeyError.
Proof.
  assert (H1 : displayed (Attacking.get_set_piece_metrics (Samples.set_piece_team "Team X" 40))
                 "set_piece_xg_pct" = FFinite 40) by (vm_compute; reflexivity).
  assert (H2 : (5 < 40)%Q) by reflexivity.
  split; [ exact H1 | ]. split; [ exact H2 | ].
  destruct (attacking_insights_missing_frame (Samples.set_piece_team "Team X" 40) []
              "Team X"%string "Team Y"%string) as (_ & Hraise & _).
  exact (Hraise 40%Q H1 H2).
Defined.

(** ** Possession rules *)

Lemma displayed_all_finite (d : dict) (k : string) :
  all_finite d -> exists q : Q, displayed d k = FFinite q.
Proof.
  intro H. unfold displayed, dict_get.
  destruct (dict_lookup d k) as [v | ] eqn:E; [ | eexists; reflexivity ].
  assert (Hv : finite (to_float v) = true).
  { unfold all_finite in H. rewrite Forall_forall in H.
    revert E. induction d as [ | [k0 v0] d IH ]; cbn [dict_lookup]; [ discriminate | ].
    destruct (String.eqb k k0).
    - intro E. injection E as <-. apply (H (k0, v0)). left. reflexivity.
    - intro E. apply IH; [ | exact E ]. intros x Hx. apply H. right. exact Hx. }
  destruct (to_float v); try discriminate. eexists. reflexivity.
Qed.

Lemma ppg_value (sub : DataFrame) : exists q : Q, Possession.ppg sub = FFinite q.
Proof.
  pose proof (ppg_finite sub) as H.
  destruct (Possession.ppg sub); try discriminate. eexists. reflexivity.
Qed.

Lemma fgeb_of_int (n m : Z) : fgeb (of_int n) (of_int m) = (m <=? n).
Proof.
  unfold fgeb, fgtb, of_int. cbn [fltb feqb].
  destruct (m <=? n) eqn:E.
  - apply Z.leb_le in E. apply orb_true_iff.
    destruct (Z.eq_dec n m) as [-> | Hne].
    + right. apply Qeq_bool_iff. apply Qeq_refl.
    + left. apply Qltb_iff. rewrite <- Zlt_Qlt. lia.
  - apply Z.leb_gt in E. apply orb_false_iff. split.
    + destruct (Qltb (inject_Z m) (inject_Z n)) eqn:C; [ | reflexivity ].
      apply Qltb_iff in C. rewrite <- Zlt_Qlt in C. lia.
    + destruct (Qeq_bool (inject_Z n) (inject_Z m)) eqn:C; [ | reflexivity ].
      apply Qeq_bool_iff in C. apply (proj1 (inject_Z_injective n m)) in C. lia.
Qed.

Lemma counter_attack_rule_fires (df : DataFrame) (tn : string) (h lo : Q) :
  Possession.ppg (Possession.high_poss df) = FFinite h ->
  Possession.ppg (Possession.low_poss df) = FFinite lo ->
  exists i,
    title i = "Counter-Attack Style More Effective"%string
    /\ severity i = "high"%string
    /\ Possession.counter_attack_rule (Possession.get_possession_effectiveness df) tn
       = Ok (fires (negb (len df =? 0) && negb (Qltb lo h)) i).
Proof.
  intros Hh Hlo.
  exists {| title := "Counter-Attack Style More Effective";
            finding := [ Txt tn; Txt " earns "; Num (VFloat (pyround 2 (FFinite lo)));
                         Txt " PPG with low possession vs ";
                         Num (VFloat (pyround 2 (FFinite h)));
                         Txt " PPG with high possession" ];
            action := "Consider tactical shift towards counter-attacking style";
            severity := "high" |}.
  split; [ reflexivity | ]. split; [ reflexivity | ].
  destruct df as [ | r df ].
  - reflexivity.
  - assert (Hne : r :: df <> []) by discriminate.
    pose proof (counter_attack_rule_condition (r :: df) tn Hne) as H.
    cbv zeta in H. rewrite H, Hh, Hlo.
    assert (E : (len (r :: df) =? 0) = false).
    { apply Z.eqb_neq. intro E. apply len_zero_iff in E. discriminate. }
    rewrite E. unfold fgtb. cbn [fltb negb andb].
    destruct (Qltb lo h); reflexivity.
Qed.

Lemma efficiency_gap_rule_fires (team_eff comp_eff : dict) (tn cn : string) (et ec : Q) :
  displayed team_eff "xg_per_possession_pct" = FFinite et ->
  displayed comp_eff "xg_per_possession_pct" = FFinite ec ->
  exists i,
    title i = "Possession Efficiency Gap"%string
    /\ severity i = "medium"%string
    /\ Possession.efficiency_gap_rule team_eff comp_eff tn cn
       = Ok (fires (Qltb et (ec * (8 # 10))) i).
Proof.
  unfold displayed, Possession.efficiency_gap_rule. intros Het Hec. cbv zeta.
  rewrite Het, Hec. cbn [fmul fltb].
  eexists. split; [ | split; [ | unfold fires;
      destruct (Qltb et (ec * (8 # 10))); reflexivity ] ]; reflexivity.
Qed.

Lemma high_possession_rule_fires (df : DataFrame) (tn : string) (w : Q) :
  displayed (Possession.get_possession_effectiveness df) "high_possession_win_rate"
  = FFinite w ->
  exists i,
    title i = "High Possession Not Converting to Wins"%string
    /\ severity i = "high"%string
    /\ Possession.high_possession_rule (Possession.get_possession_effectiveness df) tn
       = Ok (fires (negb (len df =? 0) && Qltb w (inject_Z 50)
                    && (5 <=? len (Possession.high_poss df))) i).
Proof.
  unfold displayed, Possession.high_possession_rule, Possession.get_possession_effectiveness.
  destruct (len df =? 0) eqn:E.
  - intros _. eexists {| title := _; finding := []; action := ""; severity := _ |}.
    split; [ reflexivity | ]. split; reflexivity.
  - unfold dict_get, dict_index. lookup_literal. cbn [to_float].
    intro Hw. rewrite Hw. rewrite fgeb_of_int.
    unfold of_int. cbn [fltb bind negb andb].
    eexists. split; [ | split; [ | unfold fires;
      destruct (Qltb w (inject_Z 50) && (5 <=? len (Possession.high_poss df)));
        reflexivity ] ]; reflexivity.
Qed.

(** The result of [get_possession_tactical_insights] on any two frames. *)
Lemma possession_insights_split (team_df comp_df : DataFrame) (tn cn : string) :
  exists (h lo w et ec : Q) (i1 i2 i3 : Insight),
    Possession.ppg (Possession.high_poss team_df) = FFinite h
    /\ Possession.ppg (Possession.low_poss team_df) = FFinite lo
    /\ displayed (Possession.get_possession_effectiveness team_df)
         "high_possession_win_rate" = FFinite w
    /\ displayed (Possession.get_possession_effectiveness team_df)
         "xg_per_possession_pct" = FFinite et
    /\ displayed (Possession.get_possession_effectiveness comp_df)
         "xg_per_possession_pct" = FFinite ec
    /\ (title i1 = "Counter-Attack Style More Effective" /\ severity i1 = "high")%string
    /\ (title i2 = "Possession Efficiency Gap" /\ severity i2 = "medium")%string
    /\ (title i3 = "High Possession Not Converting to Wins" /\ severity i3 = "high")%string
    /\ Possession.get_possession_tactical_insights team_df comp_df tn cn
       = Ok (fires (negb (len team_df =? 0) && negb (Qltb lo h)) i1
             ++ fires (Qltb et (ec * (8 # 10))) i2
             ++ fires (negb (len team_df =? 0) && Qltb w (inject_Z 50)
                       && (5 <=? len (Possession.high_poss team_df))) i3)%list.
Proof.
  destruct (ppg_value (Possession.high_poss team_df)) as [h Hh].
  destruct (ppg_value (Possession.low_poss team_df)) as [lo Hlo].
  destruct (displayed_all_finite _ "high_possession_win_rate"
              (possession_effectiveness_finite team_df)) as [w Hw].
  destruct (displayed_all_finite _ "xg_per_possession_pct"
              (possession_effectiveness_finite team_df)) as [et Het].
  destruct (displayed_all_finite _ "xg_per_possession_pct"
              (possession_effectiveness_finite comp_df)) as [ec Hec].
  destruct (counter_attack_rule_fires team_df tn h lo Hh Hlo) as (i1 & T1 & S1 & R1).
  destruct (efficiency_gap_rule_fires _ _ tn cn et ec Het Hec) as (i2 & T2 & S2 & R2).
  destruct (high_possession_rule_fires team_df tn w Hw) as (i3 & T3 & S3 & R3).
  exists h, lo, w, et, ec, i1, i2, i3.
  repeat (split; [ assumption | ]).
  split; [ split; assumption | ].
  split; [ split; assumption | ].
  split; [ split; assumption | ].
  unfold Possession.get_possession_tactical_insights. cbv zeta.
  rewrite R1, R2, R3. reflexivity.
Qed.

(** X14: unlike its attacking sibling, [get_possession_tactical_insights]
    never raises, whatever the two frames, empty ones included.  It
    returns at most three findings, at most one per rule and in the fixed
    order of the rules, each tagged "high" or "medium"; and for a subject
    without rows the only finding it can return is "Possession Efficiency
    Gap". *)
Theorem possession_insights_never_raise (team_df comp_df : DataFrame) (tn cn : string) :
  exists l,
    Possession.get_possession_tactical_insights team_df comp_df tn cn = Ok l
    /\ subsequence (map title l) possession_titles
    /\ NoDup (map title l)
    /\ (List.length l <= 3)%nat
    /\ Forall (fun i => severity i = "high" \/ severity i = "medium")%string l
    /\ (team_df = [] ->
        Forall (fun i => title i = "Possession Efficiency Gap"%string) l).
Proof.
  destruct (possession_insights_split team_df comp_df tn cn)
    as (h & lo & w & et & ec & i1 & i2 & i3 & _ & _ & _ & _ & _
        & [T1 S1] & [T2 S2] & [T3 S3] & R).
  eexists. split; [ exact R | ].
  assert (E : team_df = [] -> (len team_df =? 0) = true).
  { intros ->. reflexivity. }
  destruct (len team_df =? 0), (negb (Qltb lo h)), (Qltb et (ec * (8 # 10))),
    (Qltb w (inject_Z 50)), (5 <=? len (Possession.high_poss team_df));
    cbn [negb andb fires app map List.length]; rewrite ?T1, ?T2, ?T3;
    (split; [ cbn; tauto | ]);
    (split; [ repeat constructor; cbn; intuition discriminate | ]);
    (split; [ lia | ]);
    (split; [ repeat apply Forall_cons; try apply Forall_nil; auto | ]);
    intro Hempty; try (specialize (E Hempty); discriminate E);
    repeat apply Forall_cons; try apply Forall_nil; assumption.
Qed.




(** ** Possession brackets *)

Import BracketFacts.

Lemma Qle_bool_chain (x y p : Q) :
  (x <= y)%Q -> Qle_bool y p = true -> Qle_bool x p = true.
Proof.
  intros Hxy H. apply Qle_bool_iff. apply Qle_bool_iff in H.
  exact (Qle_trans _ _ _ Hxy H).
Qed.

Lemma column_total_app (f : Brackets.BracketRow -> Z) (a b : list Brackets.BracketRow) :
  column_total f (a ++ b) = column_total f a + column_total f b.
Proof.
  unfold column_total. induction a as [ | x a IH ]; cbn [app map fold_right] in *; lia.
Qed.

(** The five brackets split the matches with a possession from 0 up to,
    but not including, 100. *)
Lemma brackets_sum (col : MatchRecord -> Z) (df : DataFrame) :
  sumZ col (Brackets.bracket_df df 0 40) + sumZ col (Brackets.bracket_df df 40 45)
  + sumZ col (Brackets.bracket_df df 45 55) + sumZ col (Brackets.bracket_df df 55 60)
  + sumZ col (Brackets.bracket_df df 60 100)
  = sumZ col (filter in_brackets df).
Proof.
  unfold Brackets.bracket_df, in_brackets, Qltb.
  induction df as [ | r df IH ]; [ reflexivity | ].
  cbn [filter].
  pose proof (Qle_bool_chain 0 40 (possession_pct r) ltac:(discriminate)) as H1.
  pose proof (Qle_bool_chain 40 45 (possession_pct r) ltac:(discriminate)) as H2.
  pose proof (Qle_bool_chain 45 55 (possession_pct r) ltac:(discriminate)) as H3.
  pose proof (Qle_bool_chain 55 60 (possession_pct r) ltac:(discriminate)) as H4.
  pose proof (Qle_bool_chain 60 100 (possession_pct r) ltac:(discriminate)) as H5.
  destruct (Qle_bool 100 (possession_pct r));
    [ specialize (H5 eq_refl) | clear H5 ];
    (destruct (Qle_bool 60 (possession_pct r));
     [ specialize (H4 eq_refl) | clear H4 ]);
    (destruct (Qle_bool 55 (possession_pct r));
     [ specialize (H3 eq_refl) | clear H3 ]);
    (destruct (Qle_bool 45 (possession_pct r));
     [ specialize (H2 eq_refl) | clear H2 ]);
    (destruct (Qle_bool 40 (possession_pct r));
     [ specialize (H1 eq_refl) | clear H1 ]);
    try discriminate;
    try (rewrite H1);
    try (destruct (Qle_bool 0 (possession_pct r)));
    cbn [negb andb]; rewrite ?sumZ_cons; lia.
Qed.

Lemma bracket_row_cases (df : DataFrame) (label : string) (low high : Q) :
  let sub := Brackets.bracket_df df low high in
  (sub = [] /\ Brackets.bracket_row df (label, low, high) = [])
  \/ (0 < len sub
      /\ Brackets.bracket_row df (label, low, high)
         = [ {| Brackets.Possession_Range := label;
                Brackets.Games := len sub;
                Brackets.Wins := sumZ is_win sub;
                Brackets.Draws := sumZ is_draw sub;
                Brackets.Losses := sumZ is_loss sub;
                Brackets.Win_pct :=
                  FFinite (Qround_to 1 (inject_Z (sumZ is_win sub) / inject_Z (len sub)
                                        * inject_Z 100));
                Brackets.PPG :=
                  FFinite (Qround_to 2 (inject_Z (sumZ points sub) / inject_Z (len sub)));
                Brackets.Avg_xG :=
                  FFinite (Qround_to 2 (sumQ Expected_goals_xG sub / inject_Z (len sub)));
                Brackets.Avg_Goals :=
                  FFinite (Qround_to 2 (inject_Z (sumZ Goal_scored sub)
                                        / inject_Z (len sub))) |} ]).
Proof.
  intro sub. unfold Brackets.bracket_row. fold sub.
  destruct (0 <? len sub) eqn:E.
  - right. apply Z.ltb_lt in E. split; [ exact E | ].
    assert (Hne : len sub <> 0) by lia.
    rewrite (pct_of_nonzero _ _ Hne), (meanQ_nonempty _ _ Hne).
    unfold of_int. rewrite !(fdiv_of_int _ _ Hne). reflexivity.
  - left. apply Z.ltb_ge in E. split; [ | reflexivity ].
    apply len_zero_iff. unfold len in *. lia.
Qed.

Lemma bracket_row_columns (df : DataFrame) (label : string) (low high : Q) :
  let sub := Brackets.bracket_df df low high in
  let rows := Brackets.bracket_row df (label, low, high) in
  column_total Brackets.Games rows = len sub
  /\ column_total Brackets.Wins rows = sumZ is_win sub
  /\ column_total Brackets.Draws rows = sumZ is_draw sub
  /\ column_total Brackets.Losses rows = sumZ is_loss sub.
Proof.
  intros sub rows. unfold rows.
  destruct (bracket_row_cases df label low high) as [[E ->] | [_ ->]].
  - fold sub in E. rewrite E. repeat split; reflexivity.
  - fold sub. unfold column_total. cbn [map fold_right Brackets.Games Brackets.Wins
                                         Brackets.Draws Brackets.Losses].
    repeat split; lia.
Qed.

(** X16: the frame of [get_possession_vs_results] accounts for exactly
    the matches whose possession is at least 0 and below 100: its Games,
    Wins, Draws and Losses columns add up to the number of those matches
    and to their win, draw and loss flags, so a match with 100%
    possession is counted in no bracket.  Only brackets with a match are
    listed, in the fixed order of the brackets, and every rate of a row is
    an ordinary float. *)
Theorem possession_brackets_totals (df : DataFrame) :
  let rows := Brackets.get_possession_vs_results df in
  let kept := filter in_brackets df in
  column_total Brackets.Games rows = len kept
  /\ column_total Brackets.Wins rows = sumZ is_win kept
  /\ column_total Brackets.Draws rows = sumZ is_draw kept
  /\ column_total Brackets.Losses rows = sumZ is_loss kept
  /\ Forall (fun b => 0 < Brackets.Games b /\ row_finite b) rows
  /\ subsequence (map Brackets.Possession_Range rows) bracket_labels.
Proof.
  intros rows kept. unfold rows, kept, Brackets.get_possession_vs_results.
  destruct (len df =? 0) eqn:E.
  { apply Z.eqb_eq, len_zero_iff in E. subst df.
    repeat split; try reflexivity. apply Forall_nil. }
  unfold Brackets.brackets. cbn [flat_map]. rewrite app_nil_r.
  split; [ | split; [ | split; [ | split; [ | split ] ] ] ].
  - rewrite !column_total_app.
    rewrite !(proj1 (bracket_row_columns df _ _ _)).
    pose proof (brackets_sum (fun _ => 1) df) as H.
    rewrite !sumZ_one in H. lia.
  - rewrite !column_total_app.
    rewrite !(proj1 (proj2 (bracket_row_columns df _ _ _))).
    rewrite <- brackets_sum. lia.
  - rewrite !column_total_app.
    rewrite !(proj1 (proj2 (proj2 (bracket_row_columns df _ _ _)))).
    rewrite <- brackets_sum. lia.
  - rewrite !column_total_app.
    rewrite !(proj2 (proj2 (proj2 (bracket_row_columns df _ _ _)))).
    rewrite <- brackets_sum. lia.
  - repeat (apply Forall_app; split).
    all: match goal with
         | |- Forall _ (Brackets.bracket_row ?d (?l, ?lo, ?hi)) =>
             destruct (bracket_row_cases d l lo hi) as [[_ ->] | [Hpos ->]];
             [ apply Forall_nil
             | apply Forall_cons; [ | apply Forall_nil ];
               split; [ exact Hpos | repeat split ] ]
         end.
  - destruct (bracket_row_cases df "Very Low (<40%)" 0 40) as [[_ ->] | [_ ->]];
      destruct (bracket_row_cases df "Low (40-45%)" 40 45) as [[_ ->] | [_ ->]];
      destruct (bracket_row_cases df "Medium (45-55%)" 45 55) as [[_ ->] | [_ ->]];
      destruct (bracket_row_cases df "High (55-60%)" 55 60) as [[_ ->] | [_ ->]];
      destruct (bracket_row_cases df "Very High (>60%)" 60 100) as [[_ ->] | [_ ->]];
      cbn; tauto.
Qed.



(** ** Selections of the loaded table *)

Lemma unique_In (x : string) (l : list string) : In x (Loader.unique l) <-> In x l.
Proof.
  induction l as [ | a l IH ]; cbn [Loader.unique In]; [ reflexivity | ].
  rewrite filter_In, IH, negb_true_iff.
  destruct (String.eqb_spec x a) as [-> | Hne]; split; intro H; auto.
  - destruct H as [E | [H _]]; [ left; exact E | right; exact H ].
  - destruct H as [E | H]; [ left; exact E | right; split; [ exact H | reflexivity ] ].
Qed.

Lemma unique_NoDup (l : list string) : NoDup (Loader.unique l).
Proof.
  induction l as [ | a l IH ]; cbn [Loader.unique]; [ apply NoDup_nil | ].
  apply NoDup_cons.
  - rewrite filter_In, String.eqb_refl. intros [_ H]. discriminate H.
  - apply NoDup_filter. exact IH.
Qed.

Lemma where_eq_nonempty (key : MatchRecord -> string) (k : string) (df : DataFrame) :
  where_eq key k df <> [] <-> exists r : MatchRecord, In r df /\ key r = k.
Proof.
  unfold where_eq. split.
  - intro H. destruct (filter (fun r : MatchRecord => String.eqb (key r) k) df)
      as [ | r l ] eqn:E; [ contradiction | ].
    assert (Hin : In r (filter (fun r : MatchRecord => String.eqb (key r) k) df))
      by (rewrite E; left; reflexivity).
    apply filter_In in Hin. destruct Hin as [Hin Hk].
    exists r. split; [ exact Hin | apply String.eqb_eq; exact Hk ].
  - intros (r & Hin & Hk) E.
    assert (Hr : In r (filter (fun r : MatchRecord => String.eqb (key r) k) df)).
    { apply filter_In. split; [ exact Hin | apply String.eqb_eq; exact Hk ]. }
    rewrite E in Hr. destruct Hr.
Qed.

(** The groups of a key column split every column total. *)
Lemma sum_over_keys (key : MatchRecord -> string) (col : MatchRecord -> Z)
  (ks : list string) (df : DataFrame) :
  NoDup ks ->
  Forall (fun r : MatchRecord => In (key r) ks) df ->
  Zsum (map (fun k => sumZ col (where_eq key k df)) ks) = sumZ col df.
Proof.
  intros Hnd Hall. induction Hall as [ | r df Hr _ IH ].
  - unfold where_eq. cbn [filter].
    clear Hnd. induction ks as [ | t ks IHk ]; [ reflexivity | ].
    cbn [map]. unfold Zsum in *. cbn [fold_right]. rewrite IHk. reflexivity.
  - rewrite sumZ_cons, <- IH.
    assert (E : map (fun k => sumZ col (where_eq key k (r :: df))) ks
                = map (fun k => (if String.eqb (key r) k then col r else 0)
                                + sumZ col (where_eq key k df)) ks).
    { apply map_ext. intro t. unfold where_eq. cbn [filter].
      destruct (String.eqb (key r) t); [ apply sumZ_cons | lia ]. }
    rewrite E, Zsum_map_plus, Zsum_indicator by exact Hnd.
    destruct (in_dec string_dec (key r) ks) as [_ | Hn]; [ reflexivity | contradiction ].
Qed.

(** X18: [get_available_teams] lists every team with a match exactly
    once, in ascending order of name; a team is listed exactly when
    [get_team_data] selects a row for it, and the list holds the same
    teams as the league table over all seasons, each once. *)
Theorem available_teams_listing (df : DataFrame) :
  StronglySorted (fun a b => String.leb a b = true) (Loader.get_available_teams df)
  /\ NoDup (Loader.get_available_teams df)
  /\ (forall t, In t (Loader.get_available_teams df) <-> Loader.get_team_data df t <> [])
  /\ Permutation (Loader.get_available_teams df)
       (map Standings.Team (Aggregators.calculate_league_position df None)).
Proof.
  assert (Hnd : NoDup (Loader.get_available_teams df)).
  { unfold Loader.get_available_teams.
    apply (Permutation_NoDup (Permutation_sym (sort_keys_perm _))).
    apply unique_NoDup. }
  assert (Hin : forall t, In t (Loader.get_available_teams df)
                          <-> exists r : MatchRecord, In r df /\ Team r = t).
  { intro t. unfold Loader.get_available_teams. split.
    - intro H. apply (Permutation_in _ (sort_keys_perm _)) in H.
      apply unique_In, in_map_iff in H. destruct H as (r & Hr & H).
      exists r. split; assumption.
    - intros (r & H & Hr).
      apply (Permutation_in _ (Permutation_sym (sort_keys_perm _))).
      apply unique_In, in_map_iff. exists r. split; assumption. }
  split; [ apply sort_keys_sorted | ].
  split; [ exact Hnd | ].
  split.
  - intro t. rewrite Hin. unfold Loader.get_team_data.
    symmetry. apply where_eq_nonempty.
  - apply perm_trans with (Aggregators.group_keys df).
    + apply NoDup_Permutation; [ exact Hnd | apply group_keys_NoDup | ].
      intro t. rewrite Hin, group_keys_In. reflexivity.
    + apply Permutation_sym. exact (calculate_teams df None).
Qed.

(** X19: [get_available_seasons] lists every season with a row exactly
    once; a season is listed exactly when [filter_by_season] selects a
    row for it, and the per-season frames split the table: every column
    total of the table is the sum of the totals of its seasons. *)
Theorem available_seasons_cover (df : DataFrame) :
  NoDup (Loader.get_available_seasons df)
  /\ (forall s, In s (Loader.get_available_seasons df) <-> filter_by_season df s <> [])
  /\ (forall col : MatchRecord -> Z,
        Zsum (map (fun s => sumZ col (filter_by_season df s))
                (Loader.get_available_seasons df))
        = sumZ col df)
  /\ Zsum (map (fun s => len (filter_by_season df s)) (Loader.get_available_seasons df))
     = len df.
Proof.
  assert (Hin : forall s, In s (Loader.get_available_seasons df)
                          <-> exists r : MatchRecord, In r df /\ season r = s).
  { intro s. unfold Loader.get_available_seasons. rewrite unique_In, in_map_iff.
    split; intros (r & H1 & H2); exists r; split; assumption. }
  assert (Hsum : forall col : MatchRecord -> Z,
             Zsum (map (fun s => sumZ col (filter_by_season df s))
                     (Loader.get_available_seasons df))
             = sumZ col df).
  { intro col.
    apply (sum_over_keys (fun r : MatchRecord => season r) col).
    - apply unique_NoDup.
    - apply Forall_forall. intros r Hr. apply Hin. exists r. split; [ exact Hr | reflexivity ]. }
  split; [ apply unique_NoDup | ].
  split.
  - intro s. rewrite Hin. symmetry.
    apply (where_eq_nonempty (fun r : MatchRecord => season r)).
  - split; [ exact Hsum | ].
    rewrite <- (sumZ_one df), <- (Hsum (fun _ => 1)).
    f_equal. apply map_ext. intro s. symmetry. apply sumZ_one.
Qed.




(** ** Multi-team comparisons *)

Lemma results_lookup_set (results : list (string * dict)) (a t : string) (m : dict) :
  Comparisons.results_lookup (Comparisons.results_set results a m) t
  = if String.eqb t a then Some m else Comparisons.results_lookup results t.
Proof.
  induction results as [ | [k v] results IH ];
    cbn [Comparisons.results_set Comparisons.results_lookup].
  - reflexivity.
  - destruct (String.eqb_spec a k) as [-> | Hak]; cbn [Comparisons.results_lookup].
    + destruct (String.eqb t k); reflexivity.
    + rewrite IH. destruct (String.eqb_spec t k) as [-> | Htk]; [ | reflexivity ].
      destruct (String.eqb_spec k a) as [E | _]; [ | reflexivity ].
      exfalso. apply Hak. symmetry. exact E.
Qed.

Lemma results_set_keys (results : list (string * dict)) (a : string) (m : dict) :
  map fst (Comparisons.results_set results a m)
  = if existsb (String.eqb a) (map fst results) then map fst results
    else (map fst results ++ [a])%list.
Proof.
  induction results as [ | [k v] results IH ];
    cbn [Comparisons.results_set map fst existsb app].
  - reflexivity.
  - destruct (String.eqb a k) eqn:E; cbn [orb map fst].
    + apply String.eqb_eq in E. subst k. reflexivity.
    + rewrite IH. destruct (existsb (String.eqb a) (map fst results)); reflexivity.
Qed.

Lemma results_set_values (P : string -> dict -> Prop) (results : list (string * dict))
  (a : string) (m : dict) :
  P a m ->
  Forall (fun c => P (fst c) (snd c)) results ->
  Forall (fun c => P (fst c) (snd c)) (Comparisons.results_set results a m).
Proof.
  intros Hm. induction 1 as [ | [k v] results Hc Hrest IH ]; cbn [Comparisons.results_set].
  - apply Forall_cons; [ exact Hm | apply Forall_nil ].
  - destruct (String.eqb a k).
    + apply Forall_cons; [ exact Hm | exact Hrest ].
    + apply Forall_cons; [ exact Hc | exact IH ].
Qed.

Lemma filter_both {A : Type} (f g : A -> bool) (l : list A) :
  filter f (filter g l) = filter (fun x => g x && f x) l.
Proof.
  induction l as [ | x l IH ]; [ reflexivity | ].
  cbn [filter]. destruct (g x); cbn [filter andb]; rewrite IH; reflexivity.
Qed.

Section ComparisonLoop.
Variable metrics : DataFrame -> dict.
Variable df : DataFrame.

Let step (results : list (string * dict)) (team : string) : list (string * dict) :=
  Comparisons.results_set results team
    (metrics (where_eq (fun r : MatchRecord => Team r) team df)).

Lemma comparison_loop_lookup (teams : list string) (acc : list (string * dict))
  (t : string) :
  Comparisons.results_lookup (fold_left step teams acc) t
  = if in_dec string_dec t teams then Some (metrics (Loader.get_team_data df t))
    else Comparisons.results_lookup acc t.
Proof.
  revert acc. induction teams as [ | a teams IH ]; intro acc; cbn [fold_left].
  - reflexivity.
  - rewrite IH. unfold step. rewrite results_lookup_set.
    destruct (in_dec string_dec t teams) as [Hin | Hn];
      destruct (in_dec string_dec t (a :: teams)) as [Hin' | Hn']; try reflexivity.
    + exfalso. apply Hn'. right. exact Hin.
    + destruct Hin' as [-> | Hin']; [ | contradiction ].
      rewrite String.eqb_refl. reflexivity.
    + destruct (String.eqb_spec t a) as [-> | _]; [ | reflexivity ].
      exfalso. apply Hn'. left. reflexivity.
Qed.

Lemma comparison_loop_keys (teams : list string) (acc : list (string * dict)) :
  map fst (fold_left step teams acc)
  = (map fst acc
     ++ filter (fun t => negb (existsb (String.eqb t) (map fst acc)))
          (Loader.unique teams))%list.
Proof.
  revert acc. induction teams as [ | a teams IH ]; intro acc;
    cbn [fold_left Loader.unique filter].
  - symmetry. apply app_nil_r.
  - rewrite IH. unfold step. rewrite results_set_keys.
    destruct (existsb (String.eqb a) (map fst acc)) eqn:E; cbn [negb].
    + f_equal. rewrite filter_both.
      apply filter_ext. intro t.
      destruct (existsb (String.eqb t) (map fst acc)) eqn:F; cbn [negb];
        [ symmetry; apply andb_false_r | ].
      destruct (String.eqb_spec t a) as [-> | _]; [ congruence | reflexivity ].
    + rewrite <- app_assoc. cbn [app]. f_equal. f_equal.
      rewrite filter_both.
      apply filter_ext. intro t.
      rewrite existsb_app. cbn [existsb]. rewrite orb_false_r, negb_orb.
      apply andb_comm.
Qed.

Lemma comparison_loop_values (P : string -> dict -> Prop) (teams : list string)
  (acc : list (string * dict)) :
  (forall t, P t (metrics (Loader.get_team_data df t))) ->
  Forall (fun c => P (fst c) (snd c)) acc ->
  Forall (fun c => P (fst c) (snd c)) (fold_left step teams acc).
Proof.
  intro HP. revert acc. induction teams as [ | a teams IH ]; intros acc Hacc;
    cbn [fold_left]; [ exact Hacc | ].
  apply IH. unfold step. apply results_set_values; [ apply HP | exact Hacc ].
Qed.

End ComparisonLoop.

(** X21: the loop shared by [get_attacking_comparison],
    [get_defensive_comparison] and [get_possession_comparison] gives one
    column per distinct listed team, in the order of first mention (a
    team listed twice gets one column), and the column of a listed team
    holds the metrics of that team's own frame; no other team has a
    column. *)
Theorem comparison_columns (metrics : DataFrame -> dict) (df : DataFrame)
  (teams : list string) :
  map fst (Comparisons.comparison metrics df teams) = Loader.unique teams
  /\ NoDup (map fst (Comparisons.comparison metrics df teams))
  /\ forall t,
       Comparisons.results_lookup (Comparisons.comparison metrics df teams) t
       = if in_dec string_dec t teams
         then Some (metrics (Loader.get_team_data df t)) else None.
Proof.
  assert (E : map fst (Comparisons.comparison metrics df teams) = Loader.unique teams).
  { unfold Comparisons.comparison. rewrite comparison_loop_keys.
    cbn [map app existsb negb]. clear.
    induction (Loader.unique teams) as [ | t l IH ]; [ reflexivity | ].
    cbn [filter]. rewrite IH. reflexivity. }
  split; [ exact E | ].
  split; [ rewrite E; apply unique_NoDup | ].
  intro t. unfold Comparisons.comparison. apply comparison_loop_lookup.
Qed.

(** X22: the three comparison matrices are rectangular and free of
    inf and nan: every column of [get_attacking_comparison],
    [get_defensive_comparison] and [get_possession_comparison] has the
    same keys in the same order, those of the metrics of an empty frame,
    and only ordinary numbers, whether or not the team has a match. *)
Theorem comparison_matrices_rectangular (df : DataFrame) (teams : list string) :
  Forall (fun c => keys (snd c) = keys (Attacking.get_attacking_metrics [])
                   /\ all_finite (snd c))
    (Comparisons.get_attacking_comparison df teams)
  /\ Forall (fun c => keys (snd c) = keys (Defensive.get_defensive_metrics [])
                      /\ all_finite (snd c))
       (Comparisons.get_defensive_comparison df teams)
  /\ Forall (fun c => keys (snd c) = keys (Possession.get_possession_metrics [])
                      /\ all_finite (snd c))
       (Comparisons.get_possession_comparison df teams).
Proof.
  unfold Comparisons.get_attacking_comparison, Comparisons.get_defensive_comparison,
    Comparisons.get_possession_comparison, Comparisons.comparison.
  split; [ | split ].
  - apply (comparison_loop_values Attacking.get_attacking_metrics df
             (fun _ d => keys d = keys (Attacking.get_attacking_metrics [])
                         /\ all_finite d));
      [ | apply Forall_nil ].
    intro t. split; [ reflexivity | apply attacking_metrics_finite ].
  - apply (comparison_loop_values Defensive.get_defensive_metrics df
             (fun _ d => keys d = keys (Defensive.get_defensive_metrics [])
                         /\ all_finite d));
      [ | apply Forall_nil ].
    intro t. split; [ reflexivity | apply defensive_metrics_finite ].
  - apply (comparison_loop_values Possession.get_possession_metrics df
             (fun _ d => keys d = keys (Possession.get_possession_metrics [])
                         /\ all_finite d));
      [ | apply Forall_nil ].
    intro t. split; [ reflexivity | apply possession_metrics_finite ].
Qed.

(** ** Cell parsers *)

Section CellParsers.
Import Str.











End CellParsers.


Section LeadingNumber.
Import Str.






End LeadingNumber.




(** ** Ranges of the possession figures *)

From Stdlib Require Import Lqa.
Import RangeFacts.

Lemma round_half_even_bounds (q : Q) (lo hi : Z) :
  (inject_Z lo <= q)%Q -> (q <= inject_Z hi)%Q ->
  lo <= round_half_even q <= hi.
Proof.
  intros Hlo Hhi.
  assert (Hf1 : lo <= Qfloor q).
  { rewrite <- (Qfloor_Z lo). apply Qfloor_resp_le. exact Hlo. }
  assert (Hf2 : Qfloor q <= hi).
  { rewrite <- (Qfloor_Z hi). apply Qfloor_resp_le. exact Hhi. }
  pose proof (Qfloor_le q) as Hfq.
  unfold round_half_even. cbv zeta.
  destruct (Qltb (q - inject_Z (Qfloor q)) (1 # 2)) eqn:C; [ lia | ].
  assert (Hr : ~ (q - inject_Z (Qfloor q) < 1 # 2)%Q).
  { intro H. apply Qltb_iff in H. congruence. }
  assert (Hlt : Qfloor q < hi).
  { apply Qnot_lt_le in Hr. rewrite Zlt_Qlt. lra. }
  destruct (Qltb (1 # 2) (q - inject_Z (Qfloor q))); [ lia | ].
  destruct (Z.even (Qfloor q)); lia.
Qed.

Lemma Qround_to_bounds (n : nat) (q : Q) (lo hi : Z) :
  (inject_Z lo <= q)%Q -> (q <= inject_Z hi)%Q ->
  (inject_Z lo <= Qround_to n q /\ Qround_to n q <= inject_Z hi)%Q.
Proof.
  intros Hlo Hhi. unfold Qround_to. cbv zeta.
  set (scale := 10 ^ Z.of_nat n).
  assert (Hs : 0 < scale) by (apply Z.pow_pos_nonneg; lia).
  assert (HsQ : (0 < inject_Z scale)%Q).
  { change 0%Q with (inject_Z 0). rewrite <- Zlt_Qlt. exact Hs. }
  destruct (round_half_even_bounds (q * inject_Z scale) (lo * scale) (hi * scale))
    as [H1 H2].
  - rewrite inject_Z_mult. apply Qmult_le_compat_r; [ exact Hlo | apply Qlt_le_weak, HsQ ].
  - rewrite inject_Z_mult. apply Qmult_le_compat_r; [ exact Hhi | apply Qlt_le_weak, HsQ ].
  - rewrite Qred_correct. split.
    + apply Qle_shift_div_l; [ exact HsQ | ].
      rewrite <- inject_Z_mult, <- Zle_Qle. exact H1.
    + apply Qle_shift_div_r; [ exact HsQ | ].
      rewrite <- inject_Z_mult, <- Zle_Qle. exact H2.
Qed.

Lemma pyround_within (n : nat) (x : pyfloat) (lo hi : Z) :
  within x lo hi -> within (pyround n x) lo hi.
Proof.
  destruct x as [ q | | ]; cbn [within pyround]; [ | tauto | tauto ].
  intros [H1 H2]. apply Qround_to_bounds; assumption.
Qed.

Lemma ratio_within (a n k : Z) :
  0 < n -> 0 <= a <= k * n ->
  (inject_Z 0 <= inject_Z a / inject_Z n /\ inject_Z a / inject_Z n <= inject_Z k)%Q.
Proof.
  intros Hn Ha.
  assert (HnQ : (0 < inject_Z n)%Q).
  { change 0%Q with (inject_Z 0). rewrite <- Zlt_Qlt. exact Hn. }
  split.
  - apply Qle_shift_div_l; [ exact HnQ | ].
    rewrite <- inject_Z_mult, <- Zle_Qle. lia.
  - apply Qle_shift_div_r; [ exact HnQ | ].
    rewrite <- inject_Z_mult, <- Zle_Qle. lia.
Qed.

Lemma ppg_within (sub : DataFrame) :
  Forall league_record sub -> within (Possession.ppg sub) 0 3.
Proof.
  intro H. destruct (league_frame_totals sub H) as (_ & _ & _ & _ & _ & Hp).
  unfold Possession.ppg. destruct (0 <? len sub) eqn:E.
  - apply Z.ltb_lt in E. unfold of_int at 1. rewrite fdiv_of_int by lia.
    cbn [within]. apply ratio_within; lia.
  - cbn [within of_int]. split; rewrite <- Zle_Qle; lia.
Qed.

Lemma win_rate_within (sub : DataFrame) :
  Forall league_record sub -> within (Possession.win_rate sub) 0 100.
Proof.
  intro H. destruct (league_frame_totals sub H) as (Hsum & _ & Hw & Hd & Hl & _).
  unfold Possession.win_rate. destruct (0 <? len sub) eqn:E.
  - apply Z.ltb_lt in E. rewrite pct_of_nonzero by lia.
    cbn [within].
    destruct (ratio_within (sumZ is_win sub) (len sub) 1 E ltac:(lia)) as [H1 H2].
    change (inject_Z 0) with 0%Q in *. change (inject_Z 1) with 1%Q in H2.
    change (inject_Z 100) with 100%Q. split; nra.
  - cbn [within of_int]. split; rewrite <- Zle_Qle; lia.
Qed.

Lemma fsub_within (x y : pyfloat) :
  within x 0 3 -> within y 0 3 -> within (fsub x y) (-3) 3.
Proof.
  destruct x as [ p | | ], y as [ q | | ]; cbn [within]; try tauto.
  intros [H1 H2] [H3 H4]. cbn [fsub fadd fneg within].
  change (inject_Z 0) with 0%Q in *. change (inject_Z 3) with 3%Q in *.
  change (inject_Z (-3)) with (-3)%Q. split; lra.
Qed.

(** X26: in a frame of league records the figures of
    [get_possession_effectiveness] and of [get_possession_vs_results]
    stay in their natural ranges, rounding included: the points per game
    of the three possession levels and of every bracket lie between 0 and
    3, the win rates between 0 and 100, and the possession differential
    between -3 and 3. *)
Theorem possession_figures_in_range (df : DataFrame) :
  Forall league_record df ->
  let eff := Possession.get_possession_effectiveness df in
  within (displayed eff "high_possession_ppg") 0 3
  /\ within (displayed eff "medium_possession_ppg") 0 3
  /\ within (displayed eff "low_possession_ppg") 0 3
  /\ within (displayed eff "high_possession_win_rate") 0 100
  /\ within (displayed eff "low_possession_win_rate") 0 100
  /\ within (displayed eff "possession_differential") (-3) 3
  /\ Forall (fun b => within (Brackets.PPG b) 0 3 /\ within (Brackets.Win_pct b) 0 100)
       (Brackets.get_possession_vs_results df).
Proof.
  intros H eff.
  assert (Hh : Forall league_record (Possession.high_poss df))
    by (apply Forall_filter_keep; exact H).
  assert (Hm : Forall league_record (Possession.medium_poss df))
    by (apply Forall_filter_keep; exact H).
  assert (Hl : Forall league_record (Possession.low_poss df))
    by (apply Forall_filter_keep; exact H).
  assert (Hz3 : within (of_int 0) 0 3) by (split; discriminate).
  assert (Hz100 : within (of_int 0) 0 100) by (split; discriminate).
  assert (Hzd : within (of_int 0) (-3) 3) by (split; discriminate).
  assert (Heff : within (displayed eff "high_possession_ppg") 0 3
                 /\ within (displayed eff "medium_possession_ppg") 0 3
                 /\ within (displayed eff "low_possession_ppg") 0 3
                 /\ within (displayed eff "high_possession_win_rate") 0 100
                 /\ within (displayed eff "low_possession_win_rate") 0 100
                 /\ within (displayed eff "possession_differential") (-3) 3).
  { unfold eff, displayed, Possession.get_possession_effectiveness.
    destruct (len df =? 0).
    - repeat split; discriminate.
    - unfold dict_get. lookup_literal. cbn [to_float].
      repeat split; apply pyround_within;
        first [ apply ppg_within; assumption
              | apply win_rate_within; assumption
              | apply fsub_within; apply ppg_within; assumption ]. }
  destruct Heff as (E1 & E2 & E3 & E4 & E5 & E6).
  repeat (split; [ assumption | ]).
  apply Forall_forall. intros b Hb.
  unfold Brackets.get_possession_vs_results in Hb.
  destruct (len df =? 0); [ destruct Hb | ].
  apply in_flat_map in Hb. destruct Hb as ([[label low] high] & _ & Hb).
  unfold Brackets.bracket_row in Hb.
  destruct (0 <? len (Brackets.bracket_df df low high)) eqn:E; [ | destruct Hb ].
  destruct Hb as [<- | []].
  cbn [Brackets.PPG Brackets.Win_pct].
  assert (Hsub : Forall league_record (Brackets.bracket_df df low high))
    by (apply Forall_filter_keep; exact H).
  pose proof (ppg_within _ Hsub) as P. pose proof (win_rate_within _ Hsub) as W.
  unfold Possession.ppg in P. unfold Possession.win_rate in W. rewrite E in P, W.
  split; apply pyround_within; assumption.
Qed.

Lemma possession_figures_in_range_witness :
  Forall league_record Samples.three_matches
  /\ within (displayed (Possession.get_possession_effectiveness Samples.three_matches)
               "medium_possession_ppg") 0 3.
Proof.
  assert (H : Forall league_record Samples.three_matches).
  { repeat apply Forall_cons; try apply Forall_nil;
      (split; [ reflexivity | unfold valid_points; cbn; tauto ]). }
  split; [ exact H | ].
  exact (proj1 (proj2 (possession_figures_in_range Samples.three_matches H))).
Defined.

(** ** Possession levels *)

Lemma levels_sum (col : MatchRecord -> Z) (df : DataFrame) :
  sumZ col (Possession.high_poss df) + sumZ col (Possession.medium_poss df)
  + sumZ col (Possession.low_poss df)
  = sumZ col df.
Proof.
  unfold Possession.high_poss, Possession.medium_poss, Possession.low_poss, Qltb.
  induction df as [ | r df IH ]; [ reflexivity | ].
  cbn [filter].
  pose proof (Qle_bool_chain 45 55 (possession_pct r) ltac:(discriminate)) as H.
  destruct (Qle_bool 55 (possession_pct r)); [ rewrite (H eq_refl) | ];
    try (destruct (Qle_bool 45 (possession_pct r)));
    cbn [negb andb]; rewrite ?sumZ_cons; lia.
Qed.

(** X27: the three possession levels of [get_possession_effectiveness]
    (at least 55, from 45 to below 55, below 45) split the matches of the
    frame: every column total of the frame is the sum of the totals of
    the three levels, and the three game counts the function reports add
    up to the number of matches: no match is left out or counted
    twice. *)
Theorem possession_levels_partition (df : DataFrame) :
  let eff := Possession.get_possession_effectiveness df in
  (forall col : MatchRecord -> Z,
     sumZ col (Possession.high_poss df) + sumZ col (Possession.medium_poss df)
     + sumZ col (Possession.low_poss df) = sumZ col df)
  /\ displayed eff "high_possession_games" = of_int (len (Possession.high_poss df))
  /\ displayed eff "medium_possession_games" = of_int (len (Possession.medium_poss df))
  /\ displayed eff "low_possession_games" = of_int (len (Possession.low_poss df))
  /\ len (Possession.high_poss df) + len (Possession.medium_poss df)
     + len (Possession.low_poss df) = len df.
Proof.
  intro eff.
  split; [ intro col; apply levels_sum | ].
  assert (Hd : displayed eff "high_possession_games" = of_int (len (Possession.high_poss df))
               /\ displayed eff "medium_possession_games"
                  = of_int (len (Possession.medium_poss df))
               /\ displayed eff "low_possession_games"
                  = of_int (len (Possession.low_poss df))).
  { unfold eff, displayed, Possession.get_possession_effectiveness.
    destruct (len df =? 0) eqn:E.
    - apply Z.eqb_eq, len_zero_iff in E. subst df. repeat split; reflexivity.
    - unfold dict_get. lookup_literal. repeat split; reflexivity. }
  destruct Hd as (H1 & H2 & H3).
  repeat (split; [ assumption | ]).
  pose proof (levels_sum (fun _ => 1) df) as H. rewrite !sumZ_one in H. exact H.
Qed.

(** ** Clean sheets *)

Lemma clean_sheets_count (df : DataFrame) :
  0 <= Defensive.clean_sheets df <= len df
  /\ (Defensive.clean_sheets df = len df
      <-> Forall (fun r : MatchRecord => Goal_conceded r = 0) df).
Proof.
  unfold Defensive.clean_sheets, len.
  induction df as [ | r df [IH1 IH2] ].
  - split; [ cbn; lia | ]. split; [ intros _; apply Forall_nil | reflexivity ].
  - rewrite sumZ_cons. cbn [List.length].
    destruct (Z.eqb_spec (Goal_conceded r) 0) as [E | E]; cbn [Z.b2z].
    + split; [ lia | ]. split.
      * intro H. apply Forall_cons; [ exact E | apply IH2; lia ].
      * intro H. inversion H; subst. apply IH2 in H3. lia.
    + split; [ lia | ]. split.
      * intro H. lia.
      * intro H. inversion H; subst. contradiction.
Qed.

(** X28: [clean_sheets] counts between 0 and all matches of the frame,
    and all of them exactly when no match has a goal conceded; the
    clean-sheet percentage of [get_defensive_metrics] is an ordinary
    number between 0 and 100 for every frame, the empty one included. *)
Theorem clean_sheet_range (df : DataFrame) :
  0 <= Defensive.clean_sheets df <= len df
  /\ (Defensive.clean_sheets df = len df
      <-> Forall (fun r : MatchRecord => Goal_conceded r = 0) df)
  /\ dict_lookup (Defensive.get_defensive_metrics df) "clean_sheets"
     = Some (VInt (Defensive.clean_sheets df))
  /\ within (displayed (Defensive.get_defensive_metrics df) "clean_sheet_pct") 0 100.
Proof.
  destruct (clean_sheets_count df) as [Hb Hiff].
  split; [ exact Hb | ]. split; [ exact Hiff | ]. split; [ reflexivity | ].
  unfold displayed, Defensive.get_defensive_metrics, dict_get. lookup_literal.
  cbn [to_float]. apply pyround_within.
  unfold Defensive.clean_sheet_percentage.
  destruct (len df =? 0) eqn:E; [ split; discriminate | ].
  apply Z.eqb_neq in E.
  assert (Hpos : 0 < len df) by (unfold len in *; lia).
  rewrite pct_of_nonzero by exact E. cbn [within].
  destruct (ratio_within (Defensive.clean_sheets df) (len df) 1 Hpos ltac:(lia))
    as [H1 H2].
  change (inject_Z 0) with 0%Q in *. change (inject_Z 1) with 1%Q in H2.
  change (inject_Z 100) with 100%Q. split; nra.
Qed.
